(** * SECC protocol engine of iso15118 (ISO 15118-2 states, failed-response registry)

    A shallow embedding of

    - [iso15118/secc/states/iso15118_2_states.py]: the sixteen SECC states of
      the ISO 15118-2 message sequence, each with its [process_message];
    - [iso15118/secc/failed_responses.py]: the three registries of minimal
      failed responses;
    - [iso15118/shared/messages/din_spec/datatypes.py] and [timeouts.py]:
      the enumerations and models of DIN SPEC 70121 and its timeouts;

    followed by the properties of the specification that concern them.

    Conventions.  A Python object that the states mutate is threaded
    explicitly: the communication session ([SECCCommunicationSession]), the
    attributes of the state instance ([self]) and the output slot written by
    [create_next_message].  A Python exception leaving [process_message] is a
    [Raise] outcome that still carries the mutated objects.  Calls into the
    EVSE controller, the PKI helpers of [iso15118.shared.security], the EXI
    codec, the random source and the clock are fields of one record of
    externals. *)

From stdpp Require Import base decidable option list strings gmap.
From Stdlib Require Import ZArith Lia.
From Stdlib.Strings Require Import Byte Ascii String.
From Stdlib Require Import DecimalString.

Open Scope string_scope.
Open Scope Z_scope.

(** Python's [==], [!=] and [in] on values with decidable equality. *)
Notation "x == y" := (bool_decide (x = y)) (at level 70, no associativity).
Notation "x != y" := (negb (bool_decide (x = y))) (at level 70, no associativity).
Notation "x 'in?' l" := (bool_decide (x ∈ l)) (at level 70, no associativity).

(** ** Python built-ins used by the states *)

Module Py.

(** [bytes(n)]: [n] zero bytes. *)
Definition bytes (n : nat) : list byte := replicate n x00.

Definition hex_digit (n : N) : ascii :=
  match n with
  | 0 => "0" | 1 => "1" | 2 => "2" | 3 => "3" | 4 => "4" | 5 => "5"
  | 6 => "6" | 7 => "7" | 8 => "8" | 9 => "9" | 10 => "a" | 11 => "b"
  | 12 => "c" | 13 => "d" | 14 => "e" | _ => "f"
  end%N%char.

(** [b.hex()]: two lower-case hexadecimal digits per byte. *)
Fixpoint hex (b : list byte) : string :=
  match b with
  | [] => ""
  | x :: r =>
      let n := Byte.to_N x in
      String (hex_digit (n / 16)) (String (hex_digit (n mod 16)) (hex r))
  end.

Definition upper_char (c : ascii) : ascii :=
  let n := N_of_ascii c in
  if ((97 <=? n) && (n <=? 122))%N then ascii_of_N (n - 32) else c.

(** [s.upper()] on ASCII text. *)
Fixpoint upper (s : string) : string :=
  match s with
  | EmptyString => EmptyString
  | String c r => String (upper_char c) (upper r)
  end.

(** [s.startswith(p)]. *)
Definition startswith (s p : string) : bool := String.prefix p s.

(** Truth value of an [Optional[int]]: [None] and [0] are false. *)
Definition truthy_int (x : option Z) : bool :=
  match x with
  | None => false
  | Some n => n != 0
  end.

(** Truth value of an optional object whose class defines neither
    [__bool__] nor [__len__] (pydantic models, enum members with a
    non-empty value): only [None] is false. *)
Definition truthy {A} (x : option A) : bool :=
  match x with
  | None => false
  | Some _ => true
  end.

(** [str(n)] for an [int]. *)
Definition str_int (n : Z) : string :=
  match n with
  | Z0 => "0"
  | Zpos p => NilEmpty.string_of_uint (Pos.to_uint p)
  | Zneg p => String "-" (NilEmpty.string_of_uint (Pos.to_uint p))
  end.

(** The exceptions that can leave [process_message] in this model. *)
Inductive Exception :=
| NotImplementedError (msg : string)
| AttributeError (msg : string)
| NameError (name : string).

End Py.

(** ** Enumerations *)

(** [iso15118.shared.messages.enums.AuthEnum].  The states compare members
    through [.value]; the values of the two ISO 15118-2 members are the
    payment options of the schema, those of [PaymentOption] in
    [din_spec/datatypes.py]. *)
Inductive AuthEnum := EIM_V2 | PNC_V2 | EIM | PNC.

Definition AuthEnum_value (a : AuthEnum) : string :=
  match a with
  | EIM_V2 => "ExternalPayment"
  | PNC_V2 => "Contract"
  | EIM => "EIM"
  | PNC => "PnC"
  end.

(** [AuthEnum(value)]: the member with the given value, if any. *)
Definition AuthEnum_of_value (v : string) : option AuthEnum :=
  if v == "ExternalPayment" then Some EIM_V2
  else if v == "Contract" then Some PNC_V2
  else if v == "EIM" then Some EIM
  else if v == "PnC" then Some PNC
  else None.

Inductive EnergyTransferModeEnum :=
| AC_SINGLE_PHASE_CORE | AC_THREE_PHASE_CORE
| DC_CORE | DC_EXTENDED | DC_COMBO_CORE | DC_UNIQUE.

Definition EnergyTransferModeEnum_value (m : EnergyTransferModeEnum) : string :=
  match m with
  | AC_SINGLE_PHASE_CORE => "AC_single_phase_core"
  | AC_THREE_PHASE_CORE => "AC_three_phase_core"
  | DC_CORE => "DC_core"
  | DC_EXTENDED => "DC_extended"
  | DC_COMBO_CORE => "DC_combo_core"
  | DC_UNIQUE => "DC_unique"
  end.

Inductive Namespace :=
| ISO_V2_MSG_DEF | ISO_V20_COMMON_MSG | ISO_V20_AC | ISO_V20_DC | SAP | DIN_MSG_DEF.

Inductive EVSEProcessing := FINISHED | ONGOING.

Inductive ChargeProgress := START | STOP | RENEGOTIATE.

Inductive ChargingSession := TERMINATE | PAUSE.

Inductive EVSENotification := NONE | STOP_CHARGING | RE_NEGOTIATION.

Inductive UnitSymbol := HOURS | MINUTES | SECONDS | AMPERE | VOLTAGE | WATT | WATT_HOURS.

(** [ServiceID] is an [IntEnum]; requests carry plain integers that are
    compared with its members. *)
Module ServiceID.
Definition CHARGING : Z := 1.
Definition CERTIFICATE : Z := 2.
Definition INTERNET : Z := 3.
Definition CUSTOM : Z := 4.
End ServiceID.

Module ServiceCategory.
Inductive t := CHARGING | CERTIFICATE | INTERNET | CUSTOM.
End ServiceCategory.

Module ServiceName.
Inductive t := CHARGING | CERTIFICATE | INTERNET | CUSTOM.
End ServiceName.

(** Modelled from the spec: the [ResponseCode] enumeration of ISO 15118-2
    lives in [iso15118/shared/messages/iso15118_2/body.py], which is not among
    the sources.  The members are those the states and the specification
    name; the wire values follow the enumeration of the same name in
    [din_spec/datatypes.py]. *)
Module ResponseCode.
Inductive t :=
| OK
| OK_NEW_SESSION_ESTABLISHED
| OK_OLD_SESSION_JOINED
| OK_CERTIFICATE_EXPIRES_SOON
| FAILED
| FAILED_SEQUENCE_ERROR
| FAILED_SERVICE_ID_INVALID
| FAILED_UNKNOWN_SESSION
| FAILED_SERVICE_SELECTION_INVALID
| FAILED_PAYMENT_SELECTION_INVALID
| FAILED_CERTIFICATE_EXPIRED
| FAILED_SIGNATURE_ERROR
| FAILED_NO_CERTIFICATE_AVAILABLE
| FAILED_CERT_CHAIN_ERROR
| FAILED_CHALLENGE_INVALID
| FAILED_CONTRACT_CANCELED
| FAILED_WRONG_CHARGE_PARAMETER
| FAILED_POWER_DELIVERY_NOT_APPLIED
| FAILED_TARIFF_SELECTION_INVALID
| FAILED_CHARGING_PROFILE_INVALID
| FAILED_METERING_SIGNATURE_NOT_VALID
| FAILED_NO_CHARGE_SERVICE_SELECTED
| FAILED_WRONG_ENERGY_TRANSFER_MODE
| FAILED_CERTIFICATE_REVOKED.

Definition value (c : t) : string :=
  match c with
  | OK => "OK"
  | OK_NEW_SESSION_ESTABLISHED => "OK_NewSessionEstablished"
  | OK_OLD_SESSION_JOINED => "OK_OldSessionJoined"
  | OK_CERTIFICATE_EXPIRES_SOON => "OK_CertificateExpiresSoon"
  | FAILED => "FAILED"
  | FAILED_SEQUENCE_ERROR => "FAILED_SequenceError"
  | FAILED_SERVICE_ID_INVALID => "FAILED_ServiceIDInvalid"
  | FAILED_UNKNOWN_SESSION => "FAILED_UnknownSession"
  | FAILED_SERVICE_SELECTION_INVALID => "FAILED_ServiceSelectionInvalid"
  | FAILED_PAYMENT_SELECTION_INVALID => "FAILED_PaymentSelectionInvalid"
  | FAILED_CERTIFICATE_EXPIRED => "FAILED_CertificateExpired"
  | FAILED_SIGNATURE_ERROR => "FAILED_SignatureError"
  | FAILED_NO_CERTIFICATE_AVAILABLE => "FAILED_NoCertificateAvailable"
  | FAILED_CERT_CHAIN_ERROR => "FAILED_CertChainError"
  | FAILED_CHALLENGE_INVALID => "FAILED_ChallengeInvalid"
  | FAILED_CONTRACT_CANCELED => "FAILED_ContractCanceled"
  | FAILED_WRONG_CHARGE_PARAMETER => "FAILED_WrongChargeParameter"
  | FAILED_POWER_DELIVERY_NOT_APPLIED => "FAILED_PowerDeliveryNotApplied"
  | FAILED_TARIFF_SELECTION_INVALID => "FAILED_TariffSelectionInvalid"
  | FAILED_CHARGING_PROFILE_INVALID => "FAILED_ChargingProfileInvalid"
  | FAILED_METERING_SIGNATURE_NOT_VALID => "FAILED_MeteringSignatureNotValid"
  | FAILED_NO_CHARGE_SERVICE_SELECTED => "FAILED_NoChargeServiceSelected"
  | FAILED_WRONG_ENERGY_TRANSFER_MODE => "FAILED_WrongEnergyTransferMode"
  | FAILED_CERTIFICATE_REVOKED => "FAILED_CertificateRevoked"
  end.

(** A response code whose wire value starts with [FAILED]. *)
Definition is_failed (c : t) : bool := Py.startswith (value c) "FAILED".
End ResponseCode.

(** Modelled from the spec: the [Timeouts] enumeration of
    [iso15118/shared/messages/timeouts.py] is not among the sources; the two
    members the states use, in seconds (20 s for the communication set-up,
    60 s for every later step). *)
Module Timeouts.
Definition V2G_EVCC_COMMUNICATION_SETUP_TIMEOUT : Z := 20.
Definition V2G_SECC_SEQUENCE_TIMEOUT : Z := 60.
End Timeouts.

#[global] Instance AuthEnum_eq_dec : EqDecision AuthEnum.
Proof. solve_decision. Defined.
#[global] Instance EnergyTransferModeEnum_eq_dec : EqDecision EnergyTransferModeEnum.
Proof. solve_decision. Defined.
#[global] Instance ChargeProgress_eq_dec : EqDecision ChargeProgress.
Proof. solve_decision. Defined.
#[global] Instance ChargingSession_eq_dec : EqDecision ChargingSession.
Proof. solve_decision. Defined.
#[global] Instance ServiceCategory_eq_dec : EqDecision ServiceCategory.t.
Proof. solve_decision. Defined.
#[global] Instance ResponseCode_eq_dec : EqDecision ResponseCode.t.
Proof. solve_decision. Defined.

(** ** Data types of the ISO 15118-2 messages

    The classes of [iso15118/shared/messages/iso15118_2/datatypes.py] and
    [body.py] that the states construct or read.  Every record lives in a
    module of its class name, so that fields keep their Python names.  Of a
    request, the fields are those the states read; an optional field
    ([Field(None, ...)]) is an [option]. *)

Abbreviation Bytes := (list byte).

Inductive IsolationLevel := INVALID | VALID | WARNING | FAULT.

Inductive DCEVSEStatusCode :=
| EVSE_NOT_READY | EVSE_READY | EVSE_SHUTDOWN | EVSE_UTILITY_INTERUPT_EVENT
| EVSE_ISOLATION_MONITORING_ACTIVE | EVSE_EMERGENCY_SHUTDOWN | EVSE_MALFUNCTION.

Module PhysicalValue.
Record t := mk { multiplier : Z; value : Z; unit : UnitSymbol }.
End PhysicalValue.

Module ACEVSEStatus.
Record t := mk {
  notification_max_delay : Z;
  evse_notification : EVSENotification;
  rcd : bool }.
End ACEVSEStatus.

Module DCEVSEStatus.
Record t := mk {
  notification_max_delay : Z;
  evse_notification : EVSENotification;
  evse_isolation_status : option IsolationLevel;
  evse_status_code : DCEVSEStatusCode }.
End DCEVSEStatus.

Module ACEVSEChargeParameter.
Record t := mk {
  ac_evse_status : ACEVSEStatus.t;
  evse_nominal_voltage : PhysicalValue.t;
  evse_max_current : PhysicalValue.t }.
End ACEVSEChargeParameter.

Module DCEVSEChargeParameter.
Record t := mk {
  dc_evse_status : DCEVSEStatus.t;
  evse_maximum_current_limit : PhysicalValue.t;
  evse_maximum_power_limit : PhysicalValue.t;
  evse_maximum_voltage_limit : PhysicalValue.t;
  evse_minimum_current_limit : PhysicalValue.t;
  evse_minimum_voltage_limit : PhysicalValue.t;
  evse_current_regulation_tolerance : option PhysicalValue.t;
  evse_peak_current_ripple : PhysicalValue.t;
  evse_energy_to_be_delivered : option PhysicalValue.t }.
End DCEVSEChargeParameter.

Module ACEVChargeParameter.
Record t := mk {
  departure_time : option Z;
  e_amount : PhysicalValue.t;
  ev_max_voltage : PhysicalValue.t;
  ev_max_current : PhysicalValue.t;
  ev_min_current : PhysicalValue.t }.
End ACEVChargeParameter.

Module DCEVChargeParameter.
Record t := mk {
  departure_time : option Z;
  ev_maximum_current_limit : PhysicalValue.t;
  ev_maximum_voltage_limit : PhysicalValue.t }.
End DCEVChargeParameter.

Module SubCertificates.
Record t := mk { certificates : list Bytes }.
End SubCertificates.

Module CertificateChain.
Record t := mk {
  id : option string;
  certificate : Bytes;
  sub_certificates : option SubCertificates.t }.
End CertificateChain.

Module EncryptedPrivateKey.
Record t := mk { id : string; value : Bytes }.
End EncryptedPrivateKey.

Module DHPublicKey.
Record t := mk { id : string; value : Bytes }.
End DHPublicKey.

Module EMAID.
Record t := mk { id : option string; value : string }.
End EMAID.

(** The XML signature of a message header: what [create_signature] returns
    and [verify_signature] checks. *)
Module Signature.
Record t := mk {
  signed_info : list (option string * Bytes);
  signature_value : Bytes }.
End Signature.

Module MeterInfo.
Record t := mk {
  meter_id : string;
  meter_reading : option Z;
  sig_meter_reading : option Bytes;
  meter_status : option Z;
  t_meter : option Z }.
End MeterInfo.

Module SalesTariff.
Record t := mk {
  id : option string;
  sales_tariff_id : Z;
  sales_tariff_description : option string }.
End SalesTariff.

Module PMaxScheduleEntry.
Record t := mk { p_max : PhysicalValue.t; start : Z; duration : option Z }.
End PMaxScheduleEntry.

Module SAScheduleTuple.
Record t := mk {
  sa_schedule_tuple_id : Z;
  p_max_schedule : list PMaxScheduleEntry.t;
  sales_tariff : option SalesTariff.t }.
End SAScheduleTuple.

Module SAScheduleList.
Record t := mk { values : list SAScheduleTuple.t }.
End SAScheduleList.

Module ProfileEntryDetails.
Record t := mk {
  start : Z;
  max_power : PhysicalValue.t;
  max_phases_in_use : option Z }.
End ProfileEntryDetails.

Module ChargingProfile.
Record t := mk { profile_entries : list ProfileEntryDetails.t }.
End ChargingProfile.

Module EnergyTransferModeList.
Record t := mk { energy_modes : list EnergyTransferModeEnum }.
End EnergyTransferModeList.

Module AuthOptionList.
Record t := mk { auth_options : list AuthEnum }.
End AuthOptionList.

Module ServiceDetails.
Record t := mk {
  service_id : Z;
  service_name : option ServiceName.t;
  service_category : ServiceCategory.t;
  free_service : bool }.
End ServiceDetails.

Module ChargeService.
Record t := mk {
  service_id : Z;
  service_name : option ServiceName.t;
  service_category : ServiceCategory.t;
  free_service : bool;
  supported_energy_transfer_mode : EnergyTransferModeList.t }.
End ChargeService.

Module ServiceList.
Record t := mk { services : list ServiceDetails.t }.
End ServiceList.

(** The class [Parameter]. *)
Module Parameter_.
Record t := mk { name : string; str_value : option string }.
End Parameter_.

Module ParameterSet.
Record t := mk { parameter_set_id : Z; parameters : list Parameter_.t }.
End ParameterSet.

Module ServiceParameterList.
Record t := mk { parameter_set : list ParameterSet.t }.
End ServiceParameterList.

Module SelectedService.
Record t := mk { service_id : Z; parameter_set_id : option Z }.
End SelectedService.

Module SelectedServiceList.
Record t := mk { selected_service : list SelectedService.t }.
End SelectedServiceList.

(** *** Requests *)

Module SessionSetupReq.
Record t := mk { evcc_id : string }.
End SessionSetupReq.

Module ServiceDiscoveryReq.
Record t := mk {
  service_scope : option string;
  service_category : option ServiceCategory.t }.
End ServiceDiscoveryReq.

Module ServiceDetailReq.
Record t := mk { service_id : Z }.
End ServiceDetailReq.

Module PaymentServiceSelectionReq.
Record t := mk {
  selected_auth_option : AuthEnum;
  selected_service_list : SelectedServiceList.t }.
End PaymentServiceSelectionReq.

Module CertificateInstallationReq.
Record t := mk {
  id : string;
  oem_provisioning_cert : Bytes;
  list_of_root_cert_ids : list string }.
End CertificateInstallationReq.

Module PaymentDetailsReq.
Record t := mk { emaid : string; cert_chain : CertificateChain.t }.
End PaymentDetailsReq.

Module AuthorizationReq.
Record t := mk { id : option string; gen_challenge : option Bytes }.
End AuthorizationReq.

Module ChargeParameterDiscoveryReq.
Record t := mk {
  max_entries_sa_schedule_tuple : option Z;
  requested_energy_mode : EnergyTransferModeEnum;
  ac_ev_charge_parameter : option ACEVChargeParameter.t;
  dc_ev_charge_parameter : option DCEVChargeParameter.t }.
End ChargeParameterDiscoveryReq.

Module PowerDeliveryReq.
Record t := mk {
  charge_progress : ChargeProgress;
  sa_schedule_tuple_id : Z;
  charging_profile : option ChargingProfile.t }.
End PowerDeliveryReq.

Module MeteringReceiptReq.
Record t := mk {
  id : option string;
  session_id : string;
  sa_schedule_tuple_id : option Z;
  meter_info : MeterInfo.t }.
End MeteringReceiptReq.

Module SessionStopReq.
Record t := mk { charging_session : ChargingSession }.
End SessionStopReq.

(** *** Responses built by the states *)

Module SessionSetupRes.
Record t := mk {
  response_code : ResponseCode.t;
  evse_id : string;
  evse_timestamp : Z }.
End SessionSetupRes.

Module ServiceDiscoveryRes.
Record t := mk {
  response_code : ResponseCode.t;
  auth_option_list : AuthOptionList.t;
  charge_service : ChargeService.t;
  service_list : option ServiceList.t }.
End ServiceDiscoveryRes.

Module ServiceDetailRes.
Record t := mk {
  response_code : ResponseCode.t;
  service_id : Z;
  service_parameter_list : ServiceParameterList.t }.
End ServiceDetailRes.

Module PaymentServiceSelectionRes.
Record t := mk { response_code : ResponseCode.t }.
End PaymentServiceSelectionRes.

Module CertificateInstallationRes.
Record t := mk {
  response_code : ResponseCode.t;
  cps_cert_chain : CertificateChain.t;
  contract_cert_chain : CertificateChain.t;
  encrypted_private_key : EncryptedPrivateKey.t;
  dh_public_key : DHPublicKey.t;
  emaid : EMAID.t }.
End CertificateInstallationRes.

Module PaymentDetailsRes.
Record t := mk {
  response_code : ResponseCode.t;
  gen_challenge : Bytes;
  evse_timestamp : Z }.
End PaymentDetailsRes.

Module AuthorizationRes.
Record t := mk {
  response_code : ResponseCode.t;
  evse_processing : EVSEProcessing }.
End AuthorizationRes.

Module ChargeParameterDiscoveryRes.
Record t := mk {
  response_code : ResponseCode.t;
  evse_processing : EVSEProcessing;
  sa_schedule_list : SAScheduleList.t;
  ac_charge_parameter : option ACEVSEChargeParameter.t;
  dc_charge_parameter : option DCEVSEChargeParameter.t }.
End ChargeParameterDiscoveryRes.

Module PowerDeliveryRes.
Record t := mk {
  response_code : ResponseCode.t;
  ac_evse_status : option ACEVSEStatus.t;
  dc_evse_status : option DCEVSEStatus.t }.
End PowerDeliveryRes.

Module ChargingStatusRes.
Record t := mk {
  response_code : ResponseCode.t;
  evse_id : string;
  sa_schedule_tuple_id : option Z;
  ac_evse_status : ACEVSEStatus.t;
  meter_info : option MeterInfo.t;
  receipt_required : bool }.
End ChargingStatusRes.

Module MeteringReceiptRes.
Record t := mk {
  response_code : ResponseCode.t;
  ac_evse_status : option ACEVSEStatus.t;
  dc_evse_status : option DCEVSEStatus.t }.
End MeteringReceiptRes.

Module SessionStopRes.
Record t := mk { response_code : ResponseCode.t }.
End SessionStopRes.

(** ** Messages *)

(** The body of a [V2GMessage] of ISO 15118-2 holds exactly one populated
    element; the states test [msg.body.<element>] for presence.  Requests
    whose fields no state reads carry no data. *)
Inductive Body :=
| session_setup_req (r : SessionSetupReq.t)
| service_discovery_req (r : ServiceDiscoveryReq.t)
| service_detail_req (r : ServiceDetailReq.t)
| payment_service_selection_req (r : PaymentServiceSelectionReq.t)
| certificate_installation_req (r : CertificateInstallationReq.t)
| certificate_update_req
| payment_details_req (r : PaymentDetailsReq.t)
| authorization_req (r : AuthorizationReq.t)
| charge_parameter_discovery_req (r : ChargeParameterDiscoveryReq.t)
| power_delivery_req (r : PowerDeliveryReq.t)
| charging_status_req
| cable_check_req
| pre_charge_req
| current_demand_req
| metering_receipt_req (r : MeteringReceiptReq.t)
| welding_detection_req
| session_stop_req (r : SessionStopReq.t).

(** The request classes, as values: what the states list as expected message
    types and what keys the failed-response registry. *)
Inductive BodyBase :=
| cls_SessionSetupReq
| cls_ServiceDiscoveryReq
| cls_ServiceDetailReq
| cls_PaymentServiceSelectionReq
| cls_CertificateInstallationReq
| cls_CertificateUpdateReq
| cls_PaymentDetailsReq
| cls_AuthorizationReq
| cls_ChargeParameterDiscoveryReq
| cls_PowerDeliveryReq
| cls_ChargingStatusReq
| cls_CableCheckReq
| cls_PreChargeReq
| cls_CurrentDemandReq
| cls_MeteringReceiptReq
| cls_WeldingDetectionReq
| cls_SessionStopReq.

#[global] Instance BodyBase_eq_dec : EqDecision BodyBase.
Proof. solve_decision. Defined.

(** [type(msg.body.get_message())] *)
Definition get_message_type (b : Body) : BodyBase :=
  match b with
  | session_setup_req _ => cls_SessionSetupReq
  | service_discovery_req _ => cls_ServiceDiscoveryReq
  | service_detail_req _ => cls_ServiceDetailReq
  | payment_service_selection_req _ => cls_PaymentServiceSelectionReq
  | certificate_installation_req _ => cls_CertificateInstallationReq
  | certificate_update_req => cls_CertificateUpdateReq
  | payment_details_req _ => cls_PaymentDetailsReq
  | authorization_req _ => cls_AuthorizationReq
  | charge_parameter_discovery_req _ => cls_ChargeParameterDiscoveryReq
  | power_delivery_req _ => cls_PowerDeliveryReq
  | charging_status_req => cls_ChargingStatusReq
  | cable_check_req => cls_CableCheckReq
  | pre_charge_req => cls_PreChargeReq
  | current_demand_req => cls_CurrentDemandReq
  | metering_receipt_req _ => cls_MeteringReceiptReq
  | welding_detection_req => cls_WeldingDetectionReq
  | session_stop_req _ => cls_SessionStopReq
  end.

Module MessageHeader.
Record t := mk { session_id : string; signature : option Signature.t }.
End MessageHeader.

Module V2GMessageV2.
Record t := mk { header : MessageHeader.t; body : Body }.
End V2GMessageV2.

(** The argument of [process_message]:
    [Union[SupportedAppProtocolReq, SupportedAppProtocolRes, V2GMessageV2,
    V2GMessageV20]].  Only the ISO 15118-2 message is looked into. *)
Inductive Message :=
| SupportedAppProtocolReq
| SupportedAppProtocolRes
| MessageV2 (msg : V2GMessageV2.t)
| MessageV20.

(** The type of an inbound message, by which the failed response is chosen. *)
Inductive MessageType :=
| type_SupportedAppProtocolReq
| type_SupportedAppProtocolRes
| type_V2 (t : BodyBase)
| type_V20.

Definition message_type (m : Message) : MessageType :=
  match m with
  | SupportedAppProtocolReq => type_SupportedAppProtocolReq
  | SupportedAppProtocolRes => type_SupportedAppProtocolRes
  | MessageV2 msg => type_V2 (get_message_type msg.(V2GMessageV2.body))
  | MessageV20 => type_V20
  end.

(** The payload of an outbound message: a response built by a state, or the
    entry of the failed-response registry for the type of the faulty request
    with its response code overridden. *)
Inductive Response :=
| session_setup_res (r : SessionSetupRes.t)
| service_discovery_res (r : ServiceDiscoveryRes.t)
| service_detail_res (r : ServiceDetailRes.t)
| payment_service_selection_res (r : PaymentServiceSelectionRes.t)
| certificate_installation_res (r : CertificateInstallationRes.t)
| payment_details_res (r : PaymentDetailsRes.t)
| authorization_res (r : AuthorizationRes.t)
| charge_parameter_discovery_res (r : ChargeParameterDiscoveryRes.t)
| power_delivery_res (r : PowerDeliveryRes.t)
| charging_status_res (r : ChargingStatusRes.t)
| metering_receipt_res (r : MeteringReceiptRes.t)
| session_stop_res (r : SessionStopRes.t)
| failed_response (faulty : MessageType) (response_code : ResponseCode.t).

Definition response_code (r : Response) : ResponseCode.t :=
  match r with
  | session_setup_res r => r.(SessionSetupRes.response_code)
  | service_discovery_res r => r.(ServiceDiscoveryRes.response_code)
  | service_detail_res r => r.(ServiceDetailRes.response_code)
  | payment_service_selection_res r => r.(PaymentServiceSelectionRes.response_code)
  | certificate_installation_res r => r.(CertificateInstallationRes.response_code)
  | payment_details_res r => r.(PaymentDetailsRes.response_code)
  | authorization_res r => r.(AuthorizationRes.response_code)
  | charge_parameter_discovery_res r => r.(ChargeParameterDiscoveryRes.response_code)
  | power_delivery_res r => r.(PowerDeliveryRes.response_code)
  | charging_status_res r => r.(ChargingStatusRes.response_code)
  | metering_receipt_res r => r.(MeteringReceiptRes.response_code)
  | session_stop_res r => r.(SessionStopRes.response_code)
  | failed_response _ c => c
  end.

(** ** The states and the session *)

(** The state classes of the module. *)
Inductive State :=
| SessionSetup
| ServiceDiscovery
| ServiceDetail
| PaymentServiceSelection
| CertificateInstallation
| PaymentDetails
| Authorization
| ChargeParameterDiscovery
| PowerDelivery
| MeteringReceipt
| CableCheck
| PreCharge
| ChargingStatus
| CurrentDemand
| WeldingDetection
| SessionStop.

(** What [create_next_message] can name as next state: a state class of this
    module or the distinguished [Terminate] of [iso15118.shared.states]. *)
Inductive NextState :=
| Next (s : State)
| Terminate.

#[global] Instance State_eq_dec : EqDecision State.
Proof. solve_decision. Defined.
#[global] Instance NextState_eq_dec : EqDecision NextState.
Proof. solve_decision. Defined.

Module StopNotification.
Record t := mk {
  successful : bool;
  reason : string;
  peer_ip_address : string }.
End StopNotification.

(** [comm_session.config]: the settings the states consult. *)
Module Config.
Record t := mk {
  supported_auth_options : list AuthEnum;
  free_charging_service : bool;
  allow_cert_install_service : bool;
  free_cert_install_service : bool }.
End Config.

(** [comm_session.evse_controller]: the EVSE controller interface.  Each
    operation is called at most once while one message is processed, so a
    value per operation describes the controller during that call. *)
Module EVSEController.
Record t := mk {
  get_evse_id : string;
  get_supported_energy_transfer_modes : list EnergyTransferModeEnum;
  get_ac_evse_charge_parameter : ACEVSEChargeParameter.t;
  get_dc_evse_charge_parameter : DCEVSEChargeParameter.t;
  get_ac_evse_status : ACEVSEStatus.t;
  get_dc_evse_status : DCEVSEStatus.t;
  get_sa_schedule_list : option Z -> Z -> list SAScheduleTuple.t;
  is_authorised : bool }.
End EVSEController.

(** The session context [SECCCommunicationSession]: the attributes the
    states read or assign.  [peername] is
    [writer.get_extra_info("peername")]. *)
Module SECCCommunicationSession.
Record t := mk {
  session_id : string;
  evcc_id : option string;
  is_tls : bool;
  config : Config.t;
  evse_controller : EVSEController.t;
  offered_auth_options : list AuthEnum;
  selected_auth_option : option AuthEnum;
  offered_services : list ServiceDetails.t;
  offered_schedules : list SAScheduleTuple.t;
  selected_energy_mode : option EnergyTransferModeEnum;
  selected_schedule : option Z;
  contract_cert_chain : option CertificateChain.t;
  charge_progress_started : bool;
  sent_meter_info : option MeterInfo.t;
  stop_reason : option StopNotification.t;
  peername : string }.

(** Attribute assignments. *)
Definition set_session_id (v : string) (c : t) : t :=
  mk v c.(evcc_id) c.(is_tls) c.(config) c.(evse_controller)
     c.(offered_auth_options) c.(selected_auth_option) c.(offered_services)
     c.(offered_schedules) c.(selected_energy_mode) c.(selected_schedule)
     c.(contract_cert_chain) c.(charge_progress_started) c.(sent_meter_info)
     c.(stop_reason) c.(peername).
Definition set_evcc_id (v : option string) (c : t) : t :=
  mk c.(session_id) v c.(is_tls) c.(config) c.(evse_controller)
     c.(offered_auth_options) c.(selected_auth_option) c.(offered_services)
     c.(offered_schedules) c.(selected_energy_mode) c.(selected_schedule)
     c.(contract_cert_chain) c.(charge_progress_started) c.(sent_meter_info)
     c.(stop_reason) c.(peername).
Definition set_offered_auth_options (v : list AuthEnum) (c : t) : t :=
  mk c.(session_id) c.(evcc_id) c.(is_tls) c.(config) c.(evse_controller)
     v c.(selected_auth_option) c.(offered_services)
     c.(offered_schedules) c.(selected_energy_mode) c.(selected_schedule)
     c.(contract_cert_chain) c.(charge_progress_started) c.(sent_meter_info)
     c.(stop_reason) c.(peername).
Definition set_selected_auth_option (v : option AuthEnum) (c : t) : t :=
  mk c.(session_id) c.(evcc_id) c.(is_tls) c.(config) c.(evse_controller)
     c.(offered_auth_options) v c.(offered_services)
     c.(offered_schedules) c.(selected_energy_mode) c.(selected_schedule)
     c.(contract_cert_chain) c.(charge_progress_started) c.(sent_meter_info)
     c.(stop_reason) c.(peername).
Definition set_offered_services (v : list ServiceDetails.t) (c : t) : t :=
  mk c.(session_id) c.(evcc_id) c.(is_tls) c.(config) c.(evse_controller)
     c.(offered_auth_options) c.(selected_auth_option) v
     c.(offered_schedules) c.(selected_energy_mode) c.(selected_schedule)
     c.(contract_cert_chain) c.(charge_progress_started) c.(sent_meter_info)
     c.(stop_reason) c.(peername).
Definition set_offered_schedules (v : list SAScheduleTuple.t) (c : t) : t :=
  mk c.(session_id) c.(evcc_id) c.(is_tls) c.(config) c.(evse_controller)
     c.(offered_auth_options) c.(selected_auth_option) c.(offered_services)
     v c.(selected_energy_mode) c.(selected_schedule)
     c.(contract_cert_chain) c.(charge_progress_started) c.(sent_meter_info)
     c.(stop_reason) c.(peername).
Definition set_selected_energy_mode (v : option EnergyTransferModeEnum) (c : t) : t :=
  mk c.(session_id) c.(evcc_id) c.(is_tls) c.(config) c.(evse_controller)
     c.(offered_auth_options) c.(selected_auth_option) c.(offered_services)
     c.(offered_schedules) v c.(selected_schedule)
     c.(contract_cert_chain) c.(charge_progress_started) c.(sent_meter_info)
     c.(stop_reason) c.(peername).
Definition set_selected_schedule (v : option Z) (c : t) : t :=
  mk c.(session_id) c.(evcc_id) c.(is_tls) c.(config) c.(evse_controller)
     c.(offered_auth_options) c.(selected_auth_option) c.(offered_services)
     c.(offered_schedules) c.(selected_energy_mode) v
     c.(contract_cert_chain) c.(charge_progress_started) c.(sent_meter_info)
     c.(stop_reason) c.(peername).
Definition set_contract_cert_chain (v : option CertificateChain.t) (c : t) : t :=
  mk c.(session_id) c.(evcc_id) c.(is_tls) c.(config) c.(evse_controller)
     c.(offered_auth_options) c.(selected_auth_option) c.(offered_services)
     c.(offered_schedules) c.(selected_energy_mode) c.(selected_schedule)
     v c.(charge_progress_started) c.(sent_meter_info)
     c.(stop_reason) c.(peername).
Definition set_charge_progress_started (v : bool) (c : t) : t :=
  mk c.(session_id) c.(evcc_id) c.(is_tls) c.(config) c.(evse_controller)
     c.(offered_auth_options) c.(selected_auth_option) c.(offered_services)
     c.(offered_schedules) c.(selected_energy_mode) c.(selected_schedule)
     c.(contract_cert_chain) v c.(sent_meter_info)
     c.(stop_reason) c.(peername).
Definition set_sent_meter_info (v : option MeterInfo.t) (c : t) : t :=
  mk c.(session_id) c.(evcc_id) c.(is_tls) c.(config) c.(evse_controller)
     c.(offered_auth_options) c.(selected_auth_option) c.(offered_services)
     c.(offered_schedules) c.(selected_energy_mode) c.(selected_schedule)
     c.(contract_cert_chain) c.(charge_progress_started) v
     c.(stop_reason) c.(peername).
Definition set_stop_reason (v : option StopNotification.t) (c : t) : t :=
  mk c.(session_id) c.(evcc_id) c.(is_tls) c.(config) c.(evse_controller)
     c.(offered_auth_options) c.(selected_auth_option) c.(offered_services)
     c.(offered_schedules) c.(selected_energy_mode) c.(selected_schedule)
     c.(contract_cert_chain) c.(charge_progress_started) c.(sent_meter_info)
     v c.(peername).
End SECCCommunicationSession.

Module Session := SECCCommunicationSession.

(** ** Externals: [iso15118.shared.security], the EXI codec, the clock

    What the states call outside of the session: the functions of
    [iso15118.shared.security], [to_exi] and [time.time].  A function the
    states guard with [try] returns its result or the exception; the others
    are taken to return. *)

Inductive CertPath :=
| OEM_ROOT_DER | OEM_SUB_CA1_DER | OEM_SUB_CA2_DER | OEM_LEAF_DER
| MO_ROOT_DER | MO_SUB_CA1_DER | MO_SUB_CA2_DER | CONTRACT_LEAF_DER
| CPS_SUB_CA1_DER | CPS_SUB_CA2_DER | CPS_LEAF_DER.

Inductive KeyPath := CONTRACT_LEAF_PEM | CPS_LEAF_PEM | MO_SUB_CA2_PEM.

Inductive KeyEncoding := PEM | DER.

(** The exceptions of [iso15118.shared.exceptions] that the states catch. *)
Inductive CertError :=
| CertSignatureError (subject issuer extra_info : string)
| CertNotYetValidError (subject : string)
| CertExpiredError (subject : string)
| CertRevokedError (subject : string)
| CertAttributeError (subject : string)
| CertChainLengthError (allowed_num_sub_cas num_sub_cas : Z).

Inductive KeyError :=
| EncryptionError
| PrivateKeyReadError (exc : string).

(** What the states hand to [to_exi]. *)
Inductive ExiElement :=
| exi_certificate_installation_req (r : CertificateInstallationReq.t)
| exi_certificate_chain (c : CertificateChain.t)
| exi_encrypted_private_key (k : EncryptedPrivateKey.t)
| exi_dh_public_key (k : DHPublicKey.t)
| exi_emaid (e : EMAID.t)
| exi_authorization_req (r : AuthorizationReq.t)
| exi_sales_tariff (s : SalesTariff.t)
| exi_metering_receipt_req (r : MeteringReceiptReq.t).

Module Externals.
Record t := mk {
  PrivateKey : Type;
  (** [get_random_bytes(n)] *)
  get_random_bytes : nat -> Bytes;
  (** [time.time()], in seconds *)
  time : Z;
  load_cert : CertPath -> Bytes;
  (** [load_priv_key(path, encoding)] returns the key or raises
      [PrivateKeyReadError]. *)
  load_priv_key : KeyPath -> KeyEncoding -> string + PrivateKey;
  (** [verify_signature(signature, elements_to_sign, leaf_cert,
      sub_ca_certs=None, root_ca_cert_path=None)] *)
  verify_signature :
    option Signature.t -> list (option string * Bytes) -> Bytes ->
    option (list Bytes) -> option CertPath -> bool;
  (** [verify_certs(leaf, sub_cas, root_path)] returns nothing or raises one
      of the certificate errors. *)
  verify_certs : Bytes -> list Bytes -> CertPath -> option CertError;
  (** [encrypt_priv_key(oem_leaf, key)] returns
      [(dh_pub_key, encrypted_priv_key_bytes)] or raises. *)
  encrypt_priv_key : Bytes -> PrivateKey -> KeyError + (Bytes * Bytes);
  create_signature : list (option string * Bytes) -> PrivateKey -> Signature.t;
  get_cert_cn : Bytes -> string;
  to_exi : ExiElement -> Namespace -> Bytes }.
End Externals.

(** ** The state base class *)

(** The output slot a state fills for the session handler. *)
Module Output.
Record t := mk {
  next_state : option NextState;
  payload : Response;
  timeout : Z;
  namespace : Namespace;
  signature : option Signature.t }.
End Output.

(** What one call of [process_message] can change besides the attributes of
    the state instance: the session context and the output slot. *)
Module Engine.
Record t := mk {
  comm_session : Session.t;
  output : option Output.t }.
End Engine.

Module StateSECC.

(** The attributes of a state instance that the states of this module
    assign: the first-visit flag (named [expecting_service_discovery_req],
    [expecting_power_delivery_req], ... in the respective class, initially
    [True]) and [response_code]. *)
Record t := mk {
  expecting : bool;
  response_code : option ResponseCode.t }.

(** A state instance right after [__init__]. *)
Definition init : t := mk true None.

Definition set_expecting (v : bool) (self : t) : t :=
  mk v self.(response_code).
Definition set_response_code (v : ResponseCode.t) (self : t) : t :=
  mk self.(expecting) (Some v).

(** Modelled from the spec: [State.create_next_message] is defined in
    [iso15118/shared/states.py], which is not among the sources.  Per the
    state contract it fills the output slot
    [(payload, next_state, timeout, namespace[, signature])]; a [None]
    next state means to remain in the current state. *)
Definition create_next_message (e : Engine.t)
    (next_state : option NextState) (next_msg : Response)
    (next_msg_timeout : Z) (namespace : Namespace)
    (signature : option Signature.t) : Engine.t :=
  Engine.mk e.(Engine.comm_session)
    (Some (Output.mk next_state next_msg next_msg_timeout namespace signature)).

(** The namespace under which the failed response of a faulty request is
    encoded. *)
Definition failed_response_namespace (t : MessageType) : Namespace :=
  match t with
  | type_SupportedAppProtocolReq | type_SupportedAppProtocolRes => SAP
  | type_V2 _ => ISO_V2_MSG_DEF
  | type_V20 => ISO_V20_COMMON_MSG
  end.

(** Modelled from the spec: [StateSECC.stop_state_machine] is defined in
    [iso15118/secc/states/secc_state.py], which is not among the sources.
    It marks abnormal completion: the stop reason of the session records
    the failure, the failed response registered for the type of the faulty
    request is queued with the given response code in place of its
    placeholder, and the next state is [Terminate]. *)
Definition stop_state_machine (e : Engine.t) (reason : string)
    (faulty_request : Message) (response_code : ResponseCode.t) : Engine.t :=
  let cs := e.(Engine.comm_session) in
  let cs := Session.set_stop_reason
              (Some (StopNotification.mk false reason cs.(Session.peername))) cs in
  let t := message_type faulty_request in
  create_next_message (Engine.mk cs e.(Engine.output))
    (Some Terminate) (failed_response t response_code) 0
    (failed_response_namespace t) None.

(** Modelled from the spec: [StateSECC.check_msg_v2] is defined in
    [iso15118/secc/states/secc_state.py], which is not among the sources.
    It returns the message if it is an ISO 15118-2 message whose body type
    is among [expected_msg_types]; while [expect_first] holds only the
    first of them is accepted.  Otherwise it stops the state machine with
    [FAILED_SequenceError] for the inbound type and returns [None]. *)
Definition check_msg_v2 (e : Engine.t) (message : Message)
    (expected_msg_types : list BodyBase) (expect_first : bool)
  : Engine.t * option V2GMessageV2.t :=
  match message with
  | MessageV2 msg =>
      let t := get_message_type msg.(V2GMessageV2.body) in
      let accepted :=
        if expect_first then t in? (take 1 expected_msg_types)
        else t in? expected_msg_types in
      if accepted then (e, Some msg)
      else (stop_state_machine e "Message not accepted in this state"
              message ResponseCode.FAILED_SEQUENCE_ERROR, None)
  | _ =>
      (stop_state_machine e "Not a valid message type in this state"
         message ResponseCode.FAILED_SEQUENCE_ERROR, None)
  end.

End StateSECC.

(** How a call of [process_message] ends: it returns, or an exception
    leaves it; either way the objects it mutated are as it left them.
    [OutOfFuel] belongs to the bound on nested calls only (see
    [process_message]). *)
Inductive Outcome :=
| Return (self : StateSECC.t) (e : Engine.t)
| Raise (exc : Py.Exception) (self : StateSECC.t) (e : Engine.t)
| OutOfFuel.

(** ** The states of ISO 15118-2

    One module per state class.  [call s e message] stands for
    [s(self.comm_session).process_message(message)], the hand-over of a
    message to a fresh instance of another state; [process_message] below
    ties the knot. *)

(** [S(self.comm_session).process_message(message); return]: the caller
    returns right after the nested call, its own attributes untouched. *)
Definition hand_over (self : StateSECC.t) (o : Outcome) : Outcome :=
  match o with
  | Return _ e => Return self e
  | Raise exc _ e => Raise exc self e
  | OutOfFuel => OutOfFuel
  end.

(** Reading an attribute of [None]. *)
Definition attribute_of_None (attr : string) : Py.Exception :=
  Py.AttributeError ("'NoneType' object has no attribute '" ++ attr ++ "'").

Module SessionSetup.
Section Methods.
Context (X : Externals.t).

Definition process_message (self : StateSECC.t) (e : Engine.t)
    (message : Message) : Outcome :=
  let '(e, msg) := StateSECC.check_msg_v2 e message [cls_SessionSetupReq] true in
  match msg with
  | None => Return self e
  | Some msg =>
    match msg.(V2GMessageV2.body) with
    | session_setup_req req =>
      let cs := e.(Engine.comm_session) in
      let header_session_id :=
        msg.(V2GMessageV2.header).(MessageHeader.session_id) in
      (* Check session ID. Most likely, we need to create a new one *)
      let session_id := Py.upper (Py.hex (X.(Externals.get_random_bytes) 8)) in
      let '(session_id, response_code) :=
        if header_session_id == Py.hex (Py.bytes 1) then
          (* A new charging session is established *)
          (session_id, ResponseCode.OK_NEW_SESSION_ESTABLISHED)
        else if header_session_id == cs.(Session.session_id) then
          (* The EV wants to resume the previously paused charging session *)
          (cs.(Session.session_id), ResponseCode.OK_OLD_SESSION_JOINED)
        else
          (* False session ID from EV, gracefully assigning new session ID *)
          (session_id, ResponseCode.OK_NEW_SESSION_ESTABLISHED) in
      let self := StateSECC.set_response_code response_code self in
      let res :=
        {| SessionSetupRes.response_code := response_code;
           SessionSetupRes.evse_id :=
             cs.(Session.evse_controller).(EVSEController.get_evse_id);
           SessionSetupRes.evse_timestamp := X.(Externals.time) |} in
      let cs := Session.set_evcc_id
                  (Some req.(SessionSetupReq.evcc_id)) cs in
      let cs := Session.set_session_id session_id cs in
      Return self
        (StateSECC.create_next_message (Engine.mk cs e.(Engine.output))
           (Some (Next ServiceDiscovery))
           (session_setup_res res)
           Timeouts.V2G_SECC_SEQUENCE_TIMEOUT ISO_V2_MSG_DEF None)
    | _ => Raise (attribute_of_None "evcc_id") self e
    end
  end.
End Methods.
End SessionSetup.

Module ServiceDiscovery.
Section Methods.
Context (call : State -> Engine.t -> Message -> Outcome).

Definition get_services (cs : Session.t)
    (category_filter : option ServiceCategory.t)
  : ServiceDiscoveryRes.t * Session.t :=
  let auth_options :=
    match cs.(Session.selected_auth_option) with
    | Some selected =>
        (* In case the EVCC resumes a paused charging session, the SECC
           must only offer the auth option the EVCC selected previously *)
        if selected == EIM_V2 then [EIM_V2] else [PNC_V2]
    | None =>
        let supported_auth_options :=
          cs.(Session.config).(Config.supported_auth_options) in
        ((if EIM in? supported_auth_options then [EIM_V2] else [])
         ++ (if (PNC in? supported_auth_options) && cs.(Session.is_tls)
             then [PNC_V2] else []))%list
    end in
  let cs := Session.set_offered_auth_options auth_options cs in
  let energy_modes :=
    cs.(Session.evse_controller).(EVSEController.get_supported_energy_transfer_modes) in
  let charge_service :=
    {| ChargeService.service_id := ServiceID.CHARGING;
       ChargeService.service_name := Some ServiceName.CHARGING;
       ChargeService.service_category := ServiceCategory.CHARGING;
       ChargeService.free_service :=
         cs.(Session.config).(Config.free_charging_service);
       ChargeService.supported_energy_transfer_mode :=
         EnergyTransferModeList.mk energy_modes |} in
  (* Value-added services (VAS), like installation of contract
     certificates and the Internet service, are only allowed with
     TLS-secured comm. *)
  let service_list : list ServiceDetails.t :=
    if cs.(Session.is_tls) then
      if cs.(Session.config).(Config.allow_cert_install_service)
         && match category_filter with
            | None => true
            | Some c => c == ServiceCategory.CERTIFICATE
            end
      then
        let cert_install_service :=
          {| ServiceDetails.service_id := 2;
             ServiceDetails.service_name := Some ServiceName.CERTIFICATE;
             ServiceDetails.service_category := ServiceCategory.CERTIFICATE;
             ServiceDetails.free_service :=
               cs.(Session.config).(Config.free_cert_install_service) |} in
        ([] ++ [cert_install_service])%list
      else []
    else [] in
  (* The optional service_list element of ServiceDiscoveryRes must only
     be set if the list of offered services is not empty, otherwise it
     must be None *)
  let offered_services :=
    if (0 <? List.length service_list)%nat
    then Some (ServiceList.mk service_list) else None in
  let res :=
    {| ServiceDiscoveryRes.response_code := ResponseCode.OK;
       ServiceDiscoveryRes.auth_option_list := AuthOptionList.mk auth_options;
       ServiceDiscoveryRes.charge_service := charge_service;
       ServiceDiscoveryRes.service_list := offered_services |} in
  let cs := Session.set_offered_services service_list cs in
  (res, cs).

Definition process_message (self : StateSECC.t) (e : Engine.t)
    (message : Message) : Outcome :=
  let '(e, msg) :=
    StateSECC.check_msg_v2 e message
      [cls_ServiceDiscoveryReq; cls_ServiceDetailReq;
       cls_PaymentServiceSelectionReq]
      self.(StateSECC.expecting) in
  match msg with
  | None => Return self e
  | Some msg =>
    match msg.(V2GMessageV2.body) with
    | service_detail_req _ =>
        hand_over self (call ServiceDetail e message)
    | payment_service_selection_req _ =>
        hand_over self (call PaymentServiceSelection e message)
    | service_discovery_req req =>
        let '(res, cs) :=
          get_services e.(Engine.comm_session)
            req.(ServiceDiscoveryReq.service_category) in
        let e :=
          StateSECC.create_next_message (Engine.mk cs e.(Engine.output))
            None (service_discovery_res res)
            Timeouts.V2G_SECC_SEQUENCE_TIMEOUT ISO_V2_MSG_DEF None in
        Return (StateSECC.set_expecting false self) e
    | _ => Raise (attribute_of_None "service_category") self e
    end
  end.
End Methods.
End ServiceDiscovery.

Module ServiceDetail.
Section Methods.
Context (call : State -> Engine.t -> Message -> Outcome).

Definition process_message (self : StateSECC.t) (e : Engine.t)
    (message : Message) : Outcome :=
  let '(e, msg) :=
    StateSECC.check_msg_v2 e message
      [cls_ServiceDetailReq; cls_PaymentServiceSelectionReq]
      self.(StateSECC.expecting) in
  match msg with
  | None => Return self e
  | Some msg =>
    match msg.(V2GMessageV2.body) with
    | payment_service_selection_req _ =>
        hand_over self (call PaymentServiceSelection e message)
    | service_detail_req req =>
        let service_id := req.(ServiceDetailReq.service_id) in
        (* Certificate installation service
           We only offer installation of contract certificates, not updates *)
        let parameter_set : list ParameterSet.t :=
          if service_id == ServiceID.CERTIFICATE then
            let install_parameter :=
              {| Parameter_.name := "Service";
                 Parameter_.str_value := Some "Installation" |} in
            let install_parameter_set :=
              {| ParameterSet.parameter_set_id := 1;
                 ParameterSet.parameters := [install_parameter] |} in
            ([] ++ [install_parameter_set])%list
          else [] in
        (* To offer an Internet service, add the service parameter set
           here: [if service_id == ServiceID.INTERNET: pass] *)
        let res :=
          {| ServiceDetailRes.response_code := ResponseCode.OK;
             ServiceDetailRes.service_id := service_id;
             ServiceDetailRes.service_parameter_list :=
               ServiceParameterList.mk parameter_set |} in
        let e :=
          StateSECC.create_next_message e None
            (service_detail_res res)
            Timeouts.V2G_SECC_SEQUENCE_TIMEOUT ISO_V2_MSG_DEF None in
        Return (StateSECC.set_expecting false self) e
    | _ => Raise (attribute_of_None "service_id") self e
    end
  end.
End Methods.
End ServiceDetail.

Module PaymentServiceSelection.
Section Methods.
Context (call : State -> Engine.t -> Message -> Outcome).

(** The loop over [selected_service_list.selected_service]: it ends with
    the flag [charge_service_selected] ([inr]) or at the first selected
    service, other than the charge service, that was not offered
    ([inl], with its id). *)
Fixpoint selected_services_loop (offered_services : list ServiceDetails.t)
    (selected_service : list SelectedService.t)
    (charge_service_selected : bool) : Z + bool :=
  match selected_service with
  | [] => inr charge_service_selected
  | service :: rest =>
      let service_id := service.(SelectedService.service_id) in
      if service_id == ServiceID.CHARGING then
        selected_services_loop offered_services rest true
      else if negb (service_id in?
                      (ServiceDetails.service_id <$> offered_services))
      then inl service_id
      else selected_services_loop offered_services rest charge_service_selected
  end.

Definition process_message (self : StateSECC.t) (e : Engine.t)
    (message : Message) : Outcome :=
  let '(e, msg) :=
    StateSECC.check_msg_v2 e message
      [cls_PaymentServiceSelectionReq; cls_CertificateInstallationReq;
       cls_PaymentDetailsReq; cls_AuthorizationReq]
      self.(StateSECC.expecting) in
  match msg with
  | None => Return self e
  | Some msg =>
    match msg.(V2GMessageV2.body) with
    | certificate_installation_req _ =>
        hand_over self (call CertificateInstallation e message)
    | payment_details_req _ =>
        hand_over self (call PaymentDetails e message)
    | authorization_req _ =>
        hand_over self (call Authorization e message)
    | payment_service_selection_req service_selection_req =>
        let cs := e.(Engine.comm_session) in
        let selected_service_list :=
          service_selection_req.(PaymentServiceSelectionReq.selected_service_list) in
        let selected_auth_option :=
          service_selection_req.(PaymentServiceSelectionReq.selected_auth_option) in
        match selected_services_loop cs.(Session.offered_services)
                selected_service_list.(SelectedServiceList.selected_service)
                false with
        | inl service_id =>
            Return self
              (StateSECC.stop_state_machine e
                 ("Selected service with ID " ++ Py.str_int service_id
                  ++ " was not offered")
                 message ResponseCode.FAILED_SERVICE_SELECTION_INVALID)
        | inr charge_service_selected =>
            if negb charge_service_selected then
              Return self
                (StateSECC.stop_state_machine e
                   "Charge service not selected"
                   message ResponseCode.FAILED_NO_CHARGE_SERVICE_SELECTED)
            else if negb (AuthEnum_value selected_auth_option in?
                            (AuthEnum_value <$> cs.(Session.offered_auth_options)))
            then
              Return self
                (StateSECC.stop_state_machine e
                   ("Selected authorization method "
                    ++ AuthEnum_value selected_auth_option
                    ++ " was not offered")
                   message ResponseCode.FAILED_PAYMENT_SELECTION_INVALID)
            else
              let cs := Session.set_selected_auth_option
                          (AuthEnum_of_value (AuthEnum_value selected_auth_option))
                          cs in
              let service_selection_res :=
                {| PaymentServiceSelectionRes.response_code := ResponseCode.OK |} in
              let e :=
                StateSECC.create_next_message (Engine.mk cs e.(Engine.output))
                  None (payment_service_selection_res service_selection_res)
                  Timeouts.V2G_SECC_SEQUENCE_TIMEOUT ISO_V2_MSG_DEF None in
              Return (StateSECC.set_expecting false self) e
        end
    | _ => Raise (attribute_of_None "selected_service_list") self e
    end
  end.
End Methods.
End PaymentServiceSelection.

Module CertificateInstallation.
Section Methods.
Context (X : Externals.t).

Definition process_message (self : StateSECC.t) (e : Engine.t)
    (message : Message) : Outcome :=
  let '(e, msg) :=
    StateSECC.check_msg_v2 e message [cls_CertificateInstallationReq] true in
  match msg with
  | None => Return self e
  | Some msg =>
    match msg.(V2GMessageV2.body) with
    | certificate_installation_req cert_install_req =>
      let load_cert := X.(Externals.load_cert) in
      let to_exi := X.(Externals.to_exi) in
      if negb (X.(Externals.verify_signature)
                 msg.(V2GMessageV2.header).(MessageHeader.signature)
                 [(Some cert_install_req.(CertificateInstallationReq.id),
                   to_exi (exi_certificate_installation_req cert_install_req)
                     ISO_V2_MSG_DEF)]
                 cert_install_req.(CertificateInstallationReq.oem_provisioning_cert)
                 (Some [load_cert OEM_SUB_CA2_DER; load_cert OEM_SUB_CA1_DER])
                 (Some OEM_ROOT_DER))
      then
        Return self
          (StateSECC.stop_state_machine e
             "Signature verification failed for CertificateInstallationReq"
             message ResponseCode.FAILED_SIGNATURE_ERROR)
      else
        let encrypted :=
          let oem_leaf := load_cert OEM_LEAF_DER in
          match X.(Externals.load_priv_key) CONTRACT_LEAF_PEM PEM with
          | inl exc => inl (PrivateKeyReadError exc)
          | inr key => X.(Externals.encrypt_priv_key) oem_leaf key
          end in
        match encrypted with
        | inl EncryptionError =>
            Return self
              (StateSECC.stop_state_machine e
                 "EncryptionError while trying to encrypt the private key for the contract certificate"
                 message ResponseCode.FAILED)
        | inl (PrivateKeyReadError exc) =>
            Return self
              (StateSECC.stop_state_machine e
                 ("Can't read private key to encrypt for CertificateInstallationRes: "
                  ++ exc)
                 message ResponseCode.FAILED)
        | inr (dh_pub_key, encrypted_priv_key_bytes) =>
            (* The elements that need to be part of the signature *)
            let contract_cert_chain :=
              {| CertificateChain.id := Some "id1";
                 CertificateChain.certificate := load_cert CONTRACT_LEAF_DER;
                 CertificateChain.sub_certificates :=
                   Some (SubCertificates.mk
                           [load_cert MO_SUB_CA2_DER; load_cert MO_SUB_CA1_DER]) |} in
            let encrypted_priv_key :=
              {| EncryptedPrivateKey.id := "id2";
                 EncryptedPrivateKey.value := encrypted_priv_key_bytes |} in
            let dh_public_key :=
              {| DHPublicKey.id := "id3"; DHPublicKey.value := dh_pub_key |} in
            let emaid :=
              {| EMAID.id := Some "id4";
                 EMAID.value :=
                   X.(Externals.get_cert_cn) (load_cert CONTRACT_LEAF_DER) |} in
            let cps_certificate_chain :=
              {| CertificateChain.id := None;
                 CertificateChain.certificate := load_cert CPS_LEAF_DER;
                 CertificateChain.sub_certificates :=
                   Some (SubCertificates.mk
                           [load_cert CPS_SUB_CA2_DER; load_cert CPS_SUB_CA1_DER]) |} in
            let cert_install_res :=
              {| CertificateInstallationRes.response_code := ResponseCode.OK;
                 CertificateInstallationRes.cps_cert_chain := cps_certificate_chain;
                 CertificateInstallationRes.contract_cert_chain := contract_cert_chain;
                 CertificateInstallationRes.encrypted_private_key := encrypted_priv_key;
                 CertificateInstallationRes.dh_public_key := dh_public_key;
                 CertificateInstallationRes.emaid := emaid |} in
            (* Elements to sign, containing its id and the exi encoded stream *)
            let contract_cert_tuple :=
              (contract_cert_chain.(CertificateChain.id),
               to_exi (exi_certificate_chain contract_cert_chain) ISO_V2_MSG_DEF) in
            let encrypted_priv_key_tuple :=
              (Some encrypted_priv_key.(EncryptedPrivateKey.id),
               to_exi (exi_encrypted_private_key encrypted_priv_key) ISO_V2_MSG_DEF) in
            let dh_public_key_tuple :=
              (Some dh_public_key.(DHPublicKey.id),
               to_exi (exi_dh_public_key dh_public_key) ISO_V2_MSG_DEF) in
            let emaid_tuple :=
              (emaid.(EMAID.id), to_exi (exi_emaid emaid) ISO_V2_MSG_DEF) in
            let elements_to_sign :=
              [contract_cert_tuple; encrypted_priv_key_tuple;
               dh_public_key_tuple; emaid_tuple] in
            (* The private key to be used for the signature *)
            match X.(Externals.load_priv_key) CPS_LEAF_PEM PEM with
            | inr signature_key =>
                let signature :=
                  X.(Externals.create_signature) elements_to_sign signature_key in
                Return self
                  (StateSECC.create_next_message e
                     (Some (Next PaymentDetails))
                     (certificate_installation_res cert_install_res)
                     Timeouts.V2G_SECC_SEQUENCE_TIMEOUT ISO_V2_MSG_DEF
                     (Some signature))
            | inl exc =>
                Return self
                  (StateSECC.stop_state_machine e
                     ("Can't read private key needed to create signature for CertificateInstallationRes: "
                      ++ exc)
                     message ResponseCode.FAILED)
            end
        end
    | _ => Raise (attribute_of_None "id") self e
    end
  end.
End Methods.
End CertificateInstallation.

Module PaymentDetails.
Section Methods.
Context (X : Externals.t).

Definition newline : string := String (ascii_of_nat 10) EmptyString.

(** The [except] clause: the response code and the reason logged for a
    certificate error. *)
Definition failure_of (exc : CertError) : ResponseCode.t * string :=
  match exc with
  | CertSignatureError subject issuer extra_info =>
      (ResponseCode.FAILED_CERT_CHAIN_ERROR,
       "CertSignatureError for " ++ subject
       ++ ", tried to verify with issuer: " ++ issuer ++ ". "
       ++ newline ++ extra_info)
  | CertChainLengthError allowed_num_sub_cas num_sub_cas =>
      (ResponseCode.FAILED_CERT_CHAIN_ERROR,
       "CertChainLengthError, max " ++ Py.str_int allowed_num_sub_cas
       ++ " sub-CAs allowed but " ++ Py.str_int num_sub_cas
       ++ " sub-CAs provided")
  | CertExpiredError subject =>
      (ResponseCode.FAILED_CERTIFICATE_EXPIRED,
       "CertExpiredError for " ++ subject)
  | CertRevokedError subject =>
      (ResponseCode.FAILED_CERTIFICATE_REVOKED,
       "CertRevokedError for " ++ subject)
  (* Unfortunately, for other certificate-related errors
     ISO 15118-2 does not have specific enough failure codes *)
  | CertNotYetValidError subject =>
      (ResponseCode.FAILED, "CertNotYetValidError for " ++ subject)
  | CertAttributeError subject =>
      (ResponseCode.FAILED, "CertAttributeError for " ++ subject)
  end.

Definition process_message (self : StateSECC.t) (e : Engine.t)
    (message : Message) : Outcome :=
  let '(e, msg) :=
    StateSECC.check_msg_v2 e message [cls_PaymentDetailsReq] true in
  match msg with
  | None => Return self e
  | Some msg =>
    match msg.(V2GMessageV2.body) with
    | payment_details_req req =>
      let cert_chain := req.(PaymentDetailsReq.cert_chain) in
      let leaf_cert := cert_chain.(CertificateChain.certificate) in
      match cert_chain.(CertificateChain.sub_certificates) with
      | None =>
          (* [cert_chain.sub_certificates.certificates]: not one of the
             exceptions the [except] clause catches *)
          Raise (attribute_of_None "certificates") self e
      | Some sub_certificates =>
          let sub_ca_certs := sub_certificates.(SubCertificates.certificates) in
          match X.(Externals.verify_certs) leaf_cert sub_ca_certs MO_ROOT_DER with
          | None =>
              let cs := Session.set_contract_cert_chain (Some cert_chain)
                          e.(Engine.comm_session) in
              let res :=
                {| PaymentDetailsRes.response_code := ResponseCode.OK;
                   PaymentDetailsRes.gen_challenge :=
                     X.(Externals.get_random_bytes) 16;
                   PaymentDetailsRes.evse_timestamp := X.(Externals.time) |} in
              Return self
                (StateSECC.create_next_message (Engine.mk cs e.(Engine.output))
                   (Some (Next Authorization)) (payment_details_res res)
                   Timeouts.V2G_SECC_SEQUENCE_TIMEOUT ISO_V2_MSG_DEF None)
          | Some exc =>
              let '(response_code, reason) := failure_of exc in
              Return self
                (StateSECC.stop_state_machine e reason message response_code)
          end
      end
    | _ => Raise (attribute_of_None "cert_chain") self e
    end
  end.
End Methods.
End PaymentDetails.

Module Authorization.
Section Methods.
Context (X : Externals.t).

Definition process_message (self : StateSECC.t) (e : Engine.t)
    (message : Message) : Outcome :=
  let '(e, msg) :=
    StateSECC.check_msg_v2 e message [cls_AuthorizationReq] true in
  match msg with
  | None => Return self e
  | Some msg =>
    match msg.(V2GMessageV2.body) with
    | authorization_req req =>
      let cs := e.(Engine.comm_session) in
      (* the two early returns of the PnC branch, by their reason *)
      let failure : option string :=
        if cs.(Session.selected_auth_option) == Some PNC_V2 then
          match cs.(Session.contract_cert_chain) with
          | None =>
              Some "No contract certificate chain available to verify AuthorizationReq"
          | Some contract_cert_chain =>
              if negb (X.(Externals.verify_signature)
                         msg.(V2GMessageV2.header).(MessageHeader.signature)
                         [(req.(AuthorizationReq.id),
                           X.(Externals.to_exi) (exi_authorization_req req)
                             ISO_V2_MSG_DEF)]
                         contract_cert_chain.(CertificateChain.certificate)
                         None None)
              then Some "Unable to verify signature of AuthorizationReq"
              else None
          end
        else None in
      match failure with
      | Some reason =>
          Return self
            (StateSECC.stop_state_machine e reason message
               ResponseCode.FAILED_SIGNATURE_ERROR)
      | None =>
          let '(auth_status, next_state) :=
            if cs.(Session.evse_controller).(EVSEController.is_authorised)
            then (FINISHED, ChargeParameterDiscovery)
            else (ONGOING, Authorization) in
          let res :=
            {| AuthorizationRes.response_code := ResponseCode.OK;
               AuthorizationRes.evse_processing := auth_status |} in
          Return self
            (StateSECC.create_next_message e (Some (Next next_state))
               (authorization_res res)
               Timeouts.V2G_SECC_SEQUENCE_TIMEOUT ISO_V2_MSG_DEF None)
      end
    | _ => Raise (attribute_of_None "id") self e
    end
  end.
End Methods.
End Authorization.

Module ChargeParameterDiscovery.
Section Methods.
Context (X : Externals.t) (call : State -> Engine.t -> Message -> Outcome).

Definition process_message (self : StateSECC.t) (e : Engine.t)
    (message : Message) : Outcome :=
  let '(e, msg) :=
    StateSECC.check_msg_v2 e message
      [cls_ChargeParameterDiscoveryReq; cls_PowerDeliveryReq]
      self.(StateSECC.expecting) in
  match msg with
  | None => Return self e
  | Some msg =>
    match msg.(V2GMessageV2.body) with
    | power_delivery_req _ =>
        hand_over self (call PowerDelivery e message)
    | charge_parameter_discovery_req charge_params_req =>
      let cs := e.(Engine.comm_session) in
      let evse_controller := cs.(Session.evse_controller) in
      let requested_energy_mode :=
        charge_params_req.(ChargeParameterDiscoveryReq.requested_energy_mode) in
      if negb (requested_energy_mode in?
                 evse_controller.(EVSEController.get_supported_energy_transfer_modes))
      then
        Return self
          (StateSECC.stop_state_machine e
             (EnergyTransferModeEnum_value requested_energy_mode
              ++ " not offered as energy transfer mode")
             message ResponseCode.FAILED_WRONG_ENERGY_TRANSFER_MODE)
      else
        let cs := Session.set_selected_energy_mode (Some requested_energy_mode) cs in
        let e := Engine.mk cs e.(Engine.output) in
        let max_schedule_entries :=
          charge_params_req.(ChargeParameterDiscoveryReq.max_entries_sa_schedule_tuple) in
        let charge_params :
          Py.Exception
          + (option ACEVSEChargeParameter.t * option DCEVSEChargeParameter.t
             * option Z) :=
          match charge_params_req.(ChargeParameterDiscoveryReq.ac_ev_charge_parameter) with
          | Some ac_ev_charge_parameter =>
              inr (Some evse_controller.(EVSEController.get_ac_evse_charge_parameter),
                   None,
                   ac_ev_charge_parameter.(ACEVChargeParameter.departure_time))
          | None =>
              match charge_params_req.(ChargeParameterDiscoveryReq.dc_ev_charge_parameter) with
              | Some dc_ev_charge_parameter =>
                  inr (None,
                       Some evse_controller.(EVSEController.get_dc_evse_charge_parameter),
                       dc_ev_charge_parameter.(DCEVChargeParameter.departure_time))
              | None => inl (attribute_of_None "departure_time")
              end
          end in
        match charge_params with
        | inl exc => Raise exc self e
        | inr (ac_evse_charge_params, dc_evse_charge_params, departure_time) =>
          let departure_time :=
            if negb (Py.truthy_int departure_time) then 0
            else default 0 departure_time in
          let sa_schedule_list :=
            evse_controller.(EVSEController.get_sa_schedule_list)
              max_schedule_entries departure_time in
          (* [if sa_schedule_list]: the list is not empty *)
          let available := (0 <? List.length sa_schedule_list)%nat in
          let charge_params_res :=
            {| ChargeParameterDiscoveryRes.response_code := ResponseCode.OK;
               ChargeParameterDiscoveryRes.evse_processing :=
                 if available then FINISHED else ONGOING;
               ChargeParameterDiscoveryRes.sa_schedule_list :=
                 SAScheduleList.mk sa_schedule_list;
               ChargeParameterDiscoveryRes.ac_charge_parameter := ac_evse_charge_params;
               ChargeParameterDiscoveryRes.dc_charge_parameter := dc_evse_charge_params |} in
          if available then
            let cs := Session.set_offered_schedules sa_schedule_list cs in
            let next_state := Some (Next PowerDelivery) in
            (* If a SalesTariff is provided, then sign it.  The loop over
               the schedules ends with [break] in its first round. *)
            let signature :=
              match sa_schedule_list with
              | schedule :: _ =>
                  match schedule.(SAScheduleTuple.sales_tariff) with
                  | Some sales_tariff =>
                      let element :=
                        (sales_tariff.(SalesTariff.id),
                         X.(Externals.to_exi) (exi_sales_tariff sales_tariff)
                           ISO_V2_MSG_DEF) in
                      match X.(Externals.load_priv_key) MO_SUB_CA2_PEM PEM with
                      | inr key =>
                          Some (X.(Externals.create_signature) [element] key)
                      | inl _ =>
                          (* If a SalesTariff isn't signed, that's not the
                             end of the world, no reason to stop the
                             charging process here *)
                          None
                      end
                  | None => None
                  end
              | [] => None
              end in
            let self := StateSECC.set_expecting false self in
            Return self
              (StateSECC.create_next_message (Engine.mk cs e.(Engine.output))
                 next_state (charge_parameter_discovery_res charge_params_res)
                 Timeouts.V2G_SECC_SEQUENCE_TIMEOUT ISO_V2_MSG_DEF signature)
          else
            let self := StateSECC.set_expecting true self in
            Return self
              (StateSECC.create_next_message e
                 None (charge_parameter_discovery_res charge_params_res)
                 Timeouts.V2G_SECC_SEQUENCE_TIMEOUT ISO_V2_MSG_DEF None)
        end
    | _ => Raise (attribute_of_None "requested_energy_mode") self e
    end
  end.
End Methods.
End ChargeParameterDiscovery.

Module PowerDelivery.
Section Methods.
Context (call : State -> Engine.t -> Message -> Outcome).

Definition process_message (self : StateSECC.t) (e : Engine.t)
    (message : Message) : Outcome :=
  let '(e, msg) :=
    StateSECC.check_msg_v2 e message
      [cls_PowerDeliveryReq; cls_ChargeParameterDiscoveryReq;
       cls_ChargingStatusReq; cls_SessionStopReq]
      self.(StateSECC.expecting) in
  match msg with
  | None => Return self e
  | Some msg =>
    match msg.(V2GMessageV2.body) with
    | charge_parameter_discovery_req _ =>
        hand_over self (call ChargeParameterDiscovery e message)
    | charging_status_req =>
        hand_over self (call ChargingStatus e message)
    | session_stop_req _ =>
        hand_over self (call SessionStop e message)
    | power_delivery_req req =>
      let cs := e.(Engine.comm_session) in
      let sa_schedule_tuple_id := req.(PowerDeliveryReq.sa_schedule_tuple_id) in
      let charge_progress := req.(PowerDeliveryReq.charge_progress) in
      if negb (sa_schedule_tuple_id in?
                 (SAScheduleTuple.sa_schedule_tuple_id
                    <$> cs.(Session.offered_schedules)))
      then
        Return self
          (StateSECC.stop_state_machine e
             (Py.str_int sa_schedule_tuple_id
              ++ " does not match any offered tariff IDs")
             message ResponseCode.FAILED_TARIFF_SELECTION_INVALID)
      else if (charge_progress == START)
              && negb (Py.truthy req.(PowerDeliveryReq.charging_profile))
      then
        (* Although the requirements don't make this 100% clear, it is
           the intention of ISO 15118-2 for the EVCC to always send a
           charging profile if ChargeProgress is set to 'Start' *)
        Return self
          (StateSECC.stop_state_machine e
             "No charge profile provided although ChargeProgress was set to 'Start'"
             message ResponseCode.FAILED_CHARGING_PROFILE_INVALID)
      else
        let '(next_state, e) :=
          if charge_progress == START then
            let cs := Session.set_selected_schedule (Some sa_schedule_tuple_id) cs in
            let cs := Session.set_charge_progress_started true cs in
            (Next ChargingStatus, Engine.mk cs e.(Engine.output))
          else if charge_progress == STOP then
            (Next SessionStop, e)
          else
            (* ChargeProgress only has three enum values: Start, Stop, and
               Renegotiate. So this is the renegotiation case. *)
            if cs.(Session.charge_progress_started) then
              (Next ChargeParameterDiscovery, e)
            else
              (* no [return] follows this call *)
              let e :=
                StateSECC.stop_state_machine e
                  "EVCC wants to renegotiate, but charge progress has not yet started"
                  message ResponseCode.FAILED in
              (Terminate, e) in
        let res :=
          {| PowerDeliveryRes.response_code := ResponseCode.OK;
             PowerDeliveryRes.ac_evse_status :=
               Some e.(Engine.comm_session).(Session.evse_controller)
                      .(EVSEController.get_ac_evse_status);
             PowerDeliveryRes.dc_evse_status := None |} in
        let e :=
          StateSECC.create_next_message e (Some next_state)
            (power_delivery_res res)
            Timeouts.V2G_SECC_SEQUENCE_TIMEOUT ISO_V2_MSG_DEF None in
        Return (StateSECC.set_expecting false self) e
    | _ => Raise (attribute_of_None "sa_schedule_tuple_id") self e
    end
  end.
End Methods.
End PowerDelivery.

Module MeteringReceipt.
Section Methods.
Context (X : Externals.t) (call : State -> Engine.t -> Message -> Outcome).

Definition process_message (self : StateSECC.t) (e : Engine.t)
    (message : Message) : Outcome :=
  let '(e, msg) :=
    StateSECC.check_msg_v2 e message
      [cls_MeteringReceiptReq; cls_ChargingStatusReq;
       cls_CurrentDemandReq; cls_PowerDeliveryReq]
      self.(StateSECC.expecting) in
  match msg with
  | None => Return self e
  | Some msg =>
    match msg.(V2GMessageV2.body) with
    | power_delivery_req _ =>
        hand_over self (call PowerDelivery e message)
    | charging_status_req =>
        hand_over self (call ChargingStatus e message)
    | current_demand_req =>
        hand_over self (call CurrentDemand e message)
    | metering_receipt_req req =>
      let cs := e.(Engine.comm_session) in
      let evse_controller := cs.(Session.evse_controller) in
      let meter_reading :=
        req.(MeteringReceiptReq.meter_info).(MeterInfo.meter_reading) in
      let stop_reason : option string :=
        match cs.(Session.contract_cert_chain) with
        | None =>
            Some "No contract certificate chain available to verify signature of MeteringReceiptReq"
        | Some contract_cert_chain =>
            if negb (X.(Externals.verify_signature)
                       msg.(V2GMessageV2.header).(MessageHeader.signature)
                       [(req.(MeteringReceiptReq.id),
                         X.(Externals.to_exi) (exi_metering_receipt_req req)
                           ISO_V2_MSG_DEF)]
                       contract_cert_chain.(CertificateChain.certificate)
                       None None)
            then Some "Unable to verify signature of MeteringReceiptReq"
            else if negb (Py.truthy_int meter_reading)
                    || match cs.(Session.sent_meter_info) with
                       | None => false
                       | Some sent_meter_info =>
                           Py.truthy_int sent_meter_info.(MeterInfo.meter_reading)
                           && (meter_reading
                               != sent_meter_info.(MeterInfo.meter_reading))
                       end
            then
              Some "EVCC's meter info is not a copy of the SECC's meter info sent in CharginStatusRes/CurrentDemandRes"
            else None
        end in
      match stop_reason with
      | Some stop_reason =>
          Return self
            (StateSECC.stop_state_machine e stop_reason message
               ResponseCode.FAILED_METERING_SIGNATURE_NOT_VALID)
      | None =>
          let res :=
            if match cs.(Session.selected_energy_mode) with
               | None => false
               | Some mode =>
                   Py.startswith (EnergyTransferModeEnum_value mode) "AC"
               end
            then
              {| MeteringReceiptRes.response_code := ResponseCode.OK;
                 MeteringReceiptRes.ac_evse_status :=
                   Some evse_controller.(EVSEController.get_ac_evse_status);
                 MeteringReceiptRes.dc_evse_status := None |}
            else
              {| MeteringReceiptRes.response_code := ResponseCode.OK;
                 MeteringReceiptRes.ac_evse_status := None;
                 MeteringReceiptRes.dc_evse_status :=
                   Some evse_controller.(EVSEController.get_dc_evse_status) |} in
          let e :=
            StateSECC.create_next_message e None (metering_receipt_res res)
              Timeouts.V2G_SECC_SEQUENCE_TIMEOUT ISO_V2_MSG_DEF None in
          Return (StateSECC.set_expecting false self) e
      end
    | _ => Raise (attribute_of_None "meter_info") self e
    end
  end.
End Methods.
End MeteringReceipt.

Module CableCheck.
Definition process_message (self : StateSECC.t) (e : Engine.t)
    (message : Message) : Outcome :=
  Raise (Py.NotImplementedError "CableCheck not yet implemented") self e.
End CableCheck.

Module PreCharge.
Definition process_message (self : StateSECC.t) (e : Engine.t)
    (message : Message) : Outcome :=
  Raise (Py.NotImplementedError "PreCharge not yet implemented") self e.
End PreCharge.

Module ChargingStatus.
Section Methods.
Context (call : State -> Engine.t -> Message -> Outcome).

Definition process_message (self : StateSECC.t) (e : Engine.t)
    (message : Message) : Outcome :=
  let '(e, msg) :=
    StateSECC.check_msg_v2 e message
      [cls_ChargingStatusReq; cls_PowerDeliveryReq; cls_MeteringReceiptReq]
      self.(StateSECC.expecting) in
  match msg with
  | None => Return self e
  | Some msg =>
    match msg.(V2GMessageV2.body) with
    | power_delivery_req _ =>
        hand_over self (call PowerDelivery e message)
    | metering_receipt_req _ =>
        hand_over self (call MeteringReceipt e message)
    | _ =>
      let cs := e.(Engine.comm_session) in
      (* We don't care about signed meter values from the EVCC, but if you
         do, then set receipt_required to True and set the field meter_info *)
      let res :=
        {| ChargingStatusRes.response_code := ResponseCode.OK;
           ChargingStatusRes.evse_id :=
             cs.(Session.evse_controller).(EVSEController.get_evse_id);
           ChargingStatusRes.sa_schedule_tuple_id := cs.(Session.selected_schedule);
           ChargingStatusRes.ac_evse_status :=
             {| ACEVSEStatus.notification_max_delay := 0;
                ACEVSEStatus.evse_notification := NONE;
                ACEVSEStatus.rcd := false |};
           ChargingStatusRes.meter_info := None;
           ChargingStatusRes.receipt_required := false |} in
      let cs :=
        match res.(ChargingStatusRes.meter_info) with
        | Some meter_info => Session.set_sent_meter_info (Some meter_info) cs
        | None => cs
        end in
      (* Next request could be another ChargingStatusReq or a
         PowerDeliveryReq, so we remain in this state for now *)
      let next_state :=
        if res.(ChargingStatusRes.receipt_required)
        then Some (Next MeteringReceipt) else None in
      let e :=
        StateSECC.create_next_message (Engine.mk cs e.(Engine.output))
          next_state (charging_status_res res)
          Timeouts.V2G_SECC_SEQUENCE_TIMEOUT ISO_V2_MSG_DEF None in
      Return (StateSECC.set_expecting false self) e
    end
  end.
End Methods.
End ChargingStatus.

Module CurrentDemand.
Definition process_message (self : StateSECC.t) (e : Engine.t)
    (message : Message) : Outcome :=
  Raise (Py.NotImplementedError "CurrentDemand not yet implemented") self e.
End CurrentDemand.

Module WeldingDetection.
Definition process_message (self : StateSECC.t) (e : Engine.t)
    (message : Message) : Outcome :=
  Raise (Py.NotImplementedError "WeldingDetection not yet implemented") self e.
End WeldingDetection.

Module SessionStop.
Definition process_message (self : StateSECC.t) (e : Engine.t)
    (message : Message) : Outcome :=
  let '(e, msg) := StateSECC.check_msg_v2 e message [cls_SessionStopReq] true in
  match msg with
  | None => Return self e
  | Some msg =>
    match msg.(V2GMessageV2.body) with
    | session_stop_req req =>
      let cs := e.(Engine.comm_session) in
      let stopped :=
        if req.(SessionStopReq.charging_session) == TERMINATE
        then "terminated" else "paused" in
      let cs :=
        Session.set_stop_reason
          (Some (StopNotification.mk true
                   ("Communication session " ++ stopped ++ " successfully")
                   cs.(Session.peername))) cs in
      Return self
        (StateSECC.create_next_message (Engine.mk cs e.(Engine.output))
           (Some Terminate)
           (session_stop_res (SessionStopRes.mk ResponseCode.OK))
           Timeouts.V2G_SECC_SEQUENCE_TIMEOUT ISO_V2_MSG_DEF None)
    | _ => Raise (attribute_of_None "charging_session") self e
    end
  end.
End SessionStop.

(** [state(comm_session).process_message(message)] for every state class.
    A state hands a message over to a fresh instance of another state; the
    chain of such calls is bounded by [fuel], and
    [process_message_fuel] below shows that a nesting depth of two is never
    exceeded. *)
Fixpoint process_message (fuel : nat) (X : Externals.t) (state : State)
    (self : StateSECC.t) (e : Engine.t) (message : Message) : Outcome :=
  match fuel with
  | O => OutOfFuel
  | S fuel =>
      let call s e message := process_message fuel X s StateSECC.init e message in
      match state with
      | SessionSetup => SessionSetup.process_message X self e message
      | ServiceDiscovery => ServiceDiscovery.process_message call self e message
      | ServiceDetail => ServiceDetail.process_message call self e message
      | PaymentServiceSelection =>
          PaymentServiceSelection.process_message call self e message
      | CertificateInstallation =>
          CertificateInstallation.process_message X self e message
      | PaymentDetails => PaymentDetails.process_message X self e message
      | Authorization => Authorization.process_message X self e message
      | ChargeParameterDiscovery =>
          ChargeParameterDiscovery.process_message X call self e message
      | PowerDelivery => PowerDelivery.process_message call self e message
      | MeteringReceipt => MeteringReceipt.process_message X call self e message
      | CableCheck => CableCheck.process_message self e message
      | PreCharge => PreCharge.process_message self e message
      | ChargingStatus => ChargingStatus.process_message call self e message
      | CurrentDemand => CurrentDemand.process_message self e message
      | WeldingDetection => WeldingDetection.process_message self e message
      | SessionStop => SessionStop.process_message self e message
      end
  end.

(** The timeout a state is created with ([__init__]). *)
Definition state_timeout (state : State) : Z :=
  match state with
  | SessionSetup => Timeouts.V2G_EVCC_COMMUNICATION_SETUP_TIMEOUT
  | _ => Timeouts.V2G_SECC_SEQUENCE_TIMEOUT
  end.

(** [get_state_by_msg_type] *)
Definition get_state_by_msg_type (message_type : BodyBase) : option State :=
  match message_type with
  | cls_SessionSetupReq => Some SessionSetup
  | cls_ServiceDiscoveryReq => Some ServiceDiscovery
  | cls_ServiceDetailReq => Some ServiceDetail
  | cls_PaymentServiceSelectionReq => Some PaymentServiceSelection
  | cls_CertificateInstallationReq => Some CertificateInstallation
  | cls_PaymentDetailsReq => Some PaymentDetails
  | cls_AuthorizationReq => Some Authorization
  | cls_CableCheckReq => Some CableCheck
  | cls_PreChargeReq => Some PreCharge
  | cls_ChargeParameterDiscoveryReq => Some ChargeParameterDiscovery
  | cls_PowerDeliveryReq => Some PowerDelivery
  | cls_ChargingStatusReq => Some ChargingStatus
  | cls_CurrentDemandReq => Some CurrentDemand
  | cls_MeteringReceiptReq => Some MeteringReceipt
  | cls_WeldingDetectionReq => Some WeldingDetection
  | cls_SessionStopReq => Some SessionStop
  | cls_CertificateUpdateReq => None
  end.

(** ** The failed-response registries

    [iso15118/secc/failed_responses.py].  The three functions build their
    dictionary from names the module must have imported: a name is looked up
    in the global namespace of the module when the expression that mentions
    it is evaluated, and an unbound name raises [NameError].  The message
    classes themselves belong to modules that are not among the sources, so
    an instance is kept as its class and its keyword arguments, and the
    validation a constructor performs on them is not part of the model. *)
Module FailedResponses.

(** A class or enumeration, by defining module and name. *)
Definition Class : Type := string * string.

#[warnings="-register-all"]
Inductive Value :=
| VBool (b : bool)
| VInt (n : Z)
| VStr (s : string)
| VBytes (b : Bytes)
| VMember (enum : Class) (member : string)
| VList (l : list Value)
| VTuple (l : list Value)
| VObject (cls : Class) (fields : list (string * Value)).

(** [obj.name] on an instance. *)
Definition field (name : string) (v : Value) : option Value :=
  match v with
  | VObject _ fields => snd <$> List.find (fun f => fst f == name) fields
  | _ => None
  end.

(** The class of an instance. *)
Definition class_of (v : Value) : option Class :=
  match v with
  | VObject cls _ => Some cls
  | _ => None
  end.

(** Evaluation either raises or yields a value. *)
Definition M (A : Type) : Type := Py.Exception + A.
Definition ret {A} (x : A) : M A := inr x.
Definition bind {A B} (c : M A) (k : A -> M B) : M B :=
  match c with
  | inl exc => inl exc
  | inr x => k x
  end.
Notation "'do' x <- c1 ; c2" := (bind c1 (fun x => c2))
  (at level 10, x name, c1 at level 100, c2 at level 200,
   format "'[v' 'do'  x  <-  c1 ; '/' c2 ']'").

(** The bindings of the [from ... import ...] statements of the module, in
    source order: bound name, then module and name of the imported
    object. *)
Definition imports : list (string * Class) :=
    [ ("DCEVSEChargeParameter", ("iso15118.shared.messages.datatypes", "DCEVSEChargeParameter"));
      ("DCEVSEStatus", ("iso15118.shared.messages.datatypes", "DCEVSEStatus"));
      ("DCEVSEStatusCode", ("iso15118.shared.messages.datatypes", "DCEVSEStatusCode"));
      ("EVSENotification", ("iso15118.shared.messages.datatypes", "EVSENotification"));
      ("PVEVSECurrentRegulationTolerance", ("iso15118.shared.messages.datatypes", "PVEVSECurrentRegulationTolerance"));
      ("PVEVSEEnergyToBeDelivered", ("iso15118.shared.messages.datatypes", "PVEVSEEnergyToBeDelivered"));
      ("PVEVSEMaxCurrentLimit", ("iso15118.shared.messages.datatypes", "PVEVSEMaxCurrentLimit"));
      ("PVEVSEMaxPowerLimit", ("iso15118.shared.messages.datatypes", "PVEVSEMaxPowerLimit"));
      ("PVEVSEMaxVoltageLimit", ("iso15118.shared.messages.datatypes", "PVEVSEMaxVoltageLimit"));
      ("PVEVSEMinCurrentLimit", ("iso15118.shared.messages.datatypes", "PVEVSEMinCurrentLimit"));
      ("PVEVSEMinVoltageLimit", ("iso15118.shared.messages.datatypes", "PVEVSEMinVoltageLimit"));
      ("PVEVSEPeakCurrentRipple", ("iso15118.shared.messages.datatypes", "PVEVSEPeakCurrentRipple"));
      ("PVEVSEPresentCurrent", ("iso15118.shared.messages.datatypes", "PVEVSEPresentCurrent"));
      ("PVEVSEPresentVoltage", ("iso15118.shared.messages.datatypes", "PVEVSEPresentVoltage"));
      ("CableCheckReqDINSPEC", ("iso15118.shared.messages.din_spec.body", "CableCheckReq"));
      ("CableCheckResDINSPEC", ("iso15118.shared.messages.din_spec.body", "CableCheckRes"));
      ("ChargeParameterDiscoveryReqDINSPEC", ("iso15118.shared.messages.din_spec.body", "ChargeParameterDiscoveryReq"));
      ("ChargeParameterDiscoveryResDINSPEC", ("iso15118.shared.messages.din_spec.body", "ChargeParameterDiscoveryRes"));
      ("ContractAuthenticationReqDINSPEC", ("iso15118.shared.messages.din_spec.body", "ContractAuthenticationReq"));
      ("ContractAuthenticationResDINSPEC", ("iso15118.shared.messages.din_spec.body", "ContractAuthenticationRes"));
      ("CurrentDemandReqDINPEC", ("iso15118.shared.messages.din_spec.body", "CurrentDemandReq"));
      ("CurrentDemandResDINSPEC", ("iso15118.shared.messages.din_spec.body", "CurrentDemandRes"));
      ("PowerDeliveryReqDINSPEC", ("iso15118.shared.messages.din_spec.body", "PowerDeliveryReq"));
      ("PowerDeliveryResDINSPEC", ("iso15118.shared.messages.din_spec.body", "PowerDeliveryRes"));
      ("PreChargeReqDINSPEC", ("iso15118.shared.messages.din_spec.body", "PreChargeReq"));
      ("PreChargeResDINSPEC", ("iso15118.shared.messages.din_spec.body", "PreChargeRes"));
      ("ServiceDiscoveryReqDINSPEC", ("iso15118.shared.messages.din_spec.body", "ServiceDiscoveryReq"));
      ("ServiceDiscoveryResDINSPEC", ("iso15118.shared.messages.din_spec.body", "ServiceDiscoveryRes"));
      ("ServicePaymentSelectionReqDINSPEC", ("iso15118.shared.messages.din_spec.body", "ServicePaymentSelectionReq"));
      ("ServicePaymentSelectionResDINSPEC", ("iso15118.shared.messages.din_spec.body", "ServicePaymentSelectionRes"));
      ("SessionSetupReqDINSPEC", ("iso15118.shared.messages.din_spec.body", "SessionSetupReq"));
      ("SessionSetupResDINSPEC", ("iso15118.shared.messages.din_spec.body", "SessionSetupRes"));
      ("SessionStopReqDINSPEC", ("iso15118.shared.messages.din_spec.body", "SessionStopReq"));
      ("SessionStopResDINSPEC", ("iso15118.shared.messages.din_spec.body", "SessionStopRes"));
      ("WeldingDetectionReqDINSPEC", ("iso15118.shared.messages.din_spec.body", "WeldingDetectionReq"));
      ("WeldingDetectionResDINSPEC", ("iso15118.shared.messages.din_spec.body", "WeldingDetectionRes"));
      ("AuthOptionListDINSPEC", ("iso15118.shared.messages.din_spec.datatypes", "AuthOptionList"));
      ("ChargeServiceDINSPEC", ("iso15118.shared.messages.din_spec.datatypes", "ChargeService"));
      ("DCEVSEStatusCodeDINSPEC", ("iso15118.shared.messages.din_spec.datatypes", "DCEVSEStatusCode"));
      ("EVSENotificationDINSPEC", ("iso15118.shared.messages.din_spec.datatypes", "EVSENotification"));
      ("ResponseCodeDINSPEC", ("iso15118.shared.messages.din_spec.datatypes", "ResponseCode"));
      ("ServiceCategoryDINSPEC", ("iso15118.shared.messages.din_spec.datatypes", "ServiceCategory"));
      ("ServiceDetailsDINSPEC", ("iso15118.shared.messages.din_spec.datatypes", "ServiceDetails"));
      ("ServiceIDDINSPEC", ("iso15118.shared.messages.din_spec.datatypes", "ServiceID"));
      ("AuthEnum", ("iso15118.shared.messages.enums", "AuthEnum"));
      ("EnergyTransferModeEnum", ("iso15118.shared.messages.enums", "EnergyTransferModeEnum"));
      ("EVSEProcessing", ("iso15118.shared.messages.enums", "EVSEProcessing"));
      ("IsolationLevel", ("iso15118.shared.messages.enums", "IsolationLevel"));
      ("Namespace", ("iso15118.shared.messages.enums", "Namespace"));
      ("UnitSymbol", ("iso15118.shared.messages.enums", "UnitSymbol"));
      ("ISOV20PayloadTypes", ("iso15118.shared.messages.enums", "ISOV20PayloadTypes"));
      ("EMAID", ("iso15118.shared.messages.iso15118_2.body", "EMAID"));
      ("EMAID", ("iso15118.shared.messages.iso15118_2.body", "EMAID"));
      ("AuthorizationReqV2", ("iso15118.shared.messages.iso15118_2.body", "AuthorizationReq"));
      ("AuthorizationResV2", ("iso15118.shared.messages.iso15118_2.body", "AuthorizationRes"));
      ("CableCheckReq", ("iso15118.shared.messages.iso15118_2.body", "CableCheckReq"));
      ("CableCheckRes", ("iso15118.shared.messages.iso15118_2.body", "CableCheckRes"));
      ("CertificateInstallationReqV2", ("iso15118.shared.messages.iso15118_2.body", "CertificateInstallationReq"));
      ("CertificateInstallationResV2", ("iso15118.shared.messages.iso15118_2.body", "CertificateInstallationRes"));
      ("CertificateUpdateReq", ("iso15118.shared.messages.iso15118_2.body", "CertificateUpdateReq"));
      ("CertificateUpdateRes", ("iso15118.shared.messages.iso15118_2.body", "CertificateUpdateRes"));
      ("ChargeParameterDiscoveryReq", ("iso15118.shared.messages.iso15118_2.body", "ChargeParameterDiscoveryReq"));
      ("ChargeParameterDiscoveryRes", ("iso15118.shared.messages.iso15118_2.body", "ChargeParameterDiscoveryRes"));
      ("ChargingStatusReq", ("iso15118.shared.messages.iso15118_2.body", "ChargingStatusReq"));
      ("ChargingStatusRes", ("iso15118.shared.messages.iso15118_2.body", "ChargingStatusRes"));
      ("CurrentDemandReq", ("iso15118.shared.messages.iso15118_2.body", "CurrentDemandReq"));
      ("CurrentDemandRes", ("iso15118.shared.messages.iso15118_2.body", "CurrentDemandRes"));
      ("MeteringReceiptReq", ("iso15118.shared.messages.iso15118_2.body", "MeteringReceiptReq"));
      ("MeteringReceiptRes", ("iso15118.shared.messages.iso15118_2.body", "MeteringReceiptRes"));
      ("PaymentDetailsReq", ("iso15118.shared.messages.iso15118_2.body", "PaymentDetailsReq"));
      ("PaymentDetailsRes", ("iso15118.shared.messages.iso15118_2.body", "PaymentDetailsRes"));
      ("PaymentServiceSelectionReq", ("iso15118.shared.messages.iso15118_2.body", "PaymentServiceSelectionReq"));
      ("PaymentServiceSelectionRes", ("iso15118.shared.messages.iso15118_2.body", "PaymentServiceSelectionRes"));
      ("PowerDeliveryReqV2", ("iso15118.shared.messages.iso15118_2.body", "PowerDeliveryReq"));
      ("PowerDeliveryResV2", ("iso15118.shared.messages.iso15118_2.body", "PowerDeliveryRes"));
      ("PreChargeReq", ("iso15118.shared.messages.iso15118_2.body", "PreChargeReq"));
      ("PreChargeRes", ("iso15118.shared.messages.iso15118_2.body", "PreChargeRes"));
      ("ServiceDetailReqV2", ("iso15118.shared.messages.iso15118_2.body", "ServiceDetailReq"));
      ("ServiceDetailResV2", ("iso15118.shared.messages.iso15118_2.body", "ServiceDetailRes"));
      ("ServiceDiscoveryReqV2", ("iso15118.shared.messages.iso15118_2.body", "ServiceDiscoveryReq"));
      ("ServiceDiscoveryResV2", ("iso15118.shared.messages.iso15118_2.body", "ServiceDiscoveryRes"));
      ("SessionSetupReqV2", ("iso15118.shared.messages.iso15118_2.body", "SessionSetupReq"));
      ("SessionSetupResV2", ("iso15118.shared.messages.iso15118_2.body", "SessionSetupRes"));
      ("SessionStopReqV2", ("iso15118.shared.messages.iso15118_2.body", "SessionStopReq"));
      ("SessionStopResV2", ("iso15118.shared.messages.iso15118_2.body", "SessionStopRes"));
      ("WeldingDetectionReqV2", ("iso15118.shared.messages.iso15118_2.body", "WeldingDetectionReq"));
      ("WeldingDetectionResV2", ("iso15118.shared.messages.iso15118_2.body", "WeldingDetectionRes"));
      ("ACEVSEStatus", ("iso15118.shared.messages.iso15118_2.datatypes", "ACEVSEStatus"));
      ("CertificateChainV2", ("iso15118.shared.messages.iso15118_2.datatypes", "CertificateChain"));
      ("ChargeService", ("iso15118.shared.messages.iso15118_2.datatypes", "ChargeService"));
      ("DHPublicKey", ("iso15118.shared.messages.iso15118_2.datatypes", "DHPublicKey"));
      ("EncryptedPrivateKey", ("iso15118.shared.messages.iso15118_2.datatypes", "EncryptedPrivateKey"));
      ("EnergyTransferModeList", ("iso15118.shared.messages.iso15118_2.datatypes", "EnergyTransferModeList"));
      ("ACChargeLoopReq", ("iso15118.shared.messages.iso15118_20.ac", "ACChargeLoopReq"));
      ("ACChargeLoopRes", ("iso15118.shared.messages.iso15118_20.ac", "ACChargeLoopRes"));
      ("ACChargeParameterDiscoveryReq", ("iso15118.shared.messages.iso15118_20.ac", "ACChargeParameterDiscoveryReq"));
      ("ACChargeParameterDiscoveryRes", ("iso15118.shared.messages.iso15118_20.ac", "ACChargeParameterDiscoveryRes"));
      ("ACChargeParameterDiscoveryResParams", ("iso15118.shared.messages.iso15118_20.ac", "ACChargeParameterDiscoveryResParams"));
      ("ScheduledACChargeLoopResParams", ("iso15118.shared.messages.iso15118_20.ac", "ScheduledACChargeLoopResParams"));
      ("AuthorizationReqV20", ("iso15118.shared.messages.iso15118_20.common_messages", "AuthorizationReq"));
      ("AuthorizationResV20", ("iso15118.shared.messages.iso15118_20.common_messages", "AuthorizationRes"));
      ("SubCertificates", ("iso15118.shared.messages.iso15118_20.common_messages", "SubCertificates"));
      ("ServiceList", ("iso15118.shared.messages.iso15118_20.common_messages", "ServiceList"));
      ("AuthorizationSetupReq", ("iso15118.shared.messages.iso15118_20.common_messages", "AuthorizationSetupReq"));
      ("AuthorizationSetupRes", ("iso15118.shared.messages.iso15118_20.common_messages", "AuthorizationSetupRes"));
      ("CertificateChainV20", ("iso15118.shared.messages.iso15118_20.common_messages", "CertificateChain"));
      ("CertificateInstallationReqV20", ("iso15118.shared.messages.iso15118_20.common_messages", "CertificateInstallationReq"));
      ("CertificateInstallationResV20", ("iso15118.shared.messages.iso15118_20.common_messages", "CertificateInstallationRes"));
      ("DynamicScheduleExchangeResParams", ("iso15118.shared.messages.iso15118_20.common_messages", "DynamicScheduleExchangeResParams"));
      ("ECDHCurve", ("iso15118.shared.messages.iso15118_20.common_messages", "ECDHCurve"));
      ("EIMAuthSetupResParams", ("iso15118.shared.messages.iso15118_20.common_messages", "EIMAuthSetupResParams"));
      ("MeteringConfirmationReq", ("iso15118.shared.messages.iso15118_20.common_messages", "MeteringConfirmationReq"));
      ("MeteringConfirmationRes", ("iso15118.shared.messages.iso15118_20.common_messages", "MeteringConfirmationRes"));
      ("PowerDeliveryReqV20", ("iso15118.shared.messages.iso15118_20.common_messages", "PowerDeliveryReq"));
      ("PowerDeliveryResV20", ("iso15118.shared.messages.iso15118_20.common_messages", "PowerDeliveryRes"));
      ("PriceLevelSchedule", ("iso15118.shared.messages.iso15118_20.common_messages", "PriceLevelSchedule"));
      ("PriceLevelScheduleEntryList", ("iso15118.shared.messages.iso15118_20.common_messages", "PriceLevelScheduleEntryList"));
      ("ScheduleExchangeReq", ("iso15118.shared.messages.iso15118_20.common_messages", "ScheduleExchangeReq"));
      ("ScheduleExchangeRes", ("iso15118.shared.messages.iso15118_20.common_messages", "ScheduleExchangeRes"));
      ("Service", ("iso15118.shared.messages.iso15118_20.common_messages", "Service"));
      ("ServiceDetailReqV20", ("iso15118.shared.messages.iso15118_20.common_messages", "ServiceDetailReq"));
      ("ServiceDetailResV20", ("iso15118.shared.messages.iso15118_20.common_messages", "ServiceDetailRes"));
      ("ServiceDiscoveryReqV20", ("iso15118.shared.messages.iso15118_20.common_messages", "ServiceDiscoveryReq"));
      ("ServiceDiscoveryResV20", ("iso15118.shared.messages.iso15118_20.common_messages", "ServiceDiscoveryRes"));
      ("ServiceParameterList", ("iso15118.shared.messages.iso15118_20.common_messages", "ServiceParameterList"));
      ("ServiceSelectionReq", ("iso15118.shared.messages.iso15118_20.common_messages", "ServiceSelectionReq"));
      ("ServiceSelectionRes", ("iso15118.shared.messages.iso15118_20.common_messages", "ServiceSelectionRes"));
      ("SessionSetupReqV20", ("iso15118.shared.messages.iso15118_20.common_messages", "SessionSetupReq"));
      ("SessionSetupResV20", ("iso15118.shared.messages.iso15118_20.common_messages", "SessionSetupRes"));
      ("SessionStopReqV20", ("iso15118.shared.messages.iso15118_20.common_messages", "SessionStopReq"));
      ("SessionStopResV20", ("iso15118.shared.messages.iso15118_20.common_messages", "SessionStopRes"));
      ("SignedInstallationData", ("iso15118.shared.messages.iso15118_20.common_messages", "SignedInstallationData"));
      ("MessageHeaderV20", ("iso15118.shared.messages.iso15118_20.common_types", "MessageHeader"));
      ("Processing", ("iso15118.shared.messages.iso15118_20.common_types", "Processing"));
      ("RationalNumber", ("iso15118.shared.messages.iso15118_20.common_types", "RationalNumber"));
      ("ResponseCodeV20", ("iso15118.shared.messages.iso15118_20.common_types", "ResponseCode"));
      ("DCChargeParameterDiscoveryReq", ("iso15118.shared.messages.iso15118_20.dc", "DCChargeParameterDiscoveryReq"));
      ("DCChargeParameterDiscoveryRes", ("iso15118.shared.messages.iso15118_20.dc", "DCChargeParameterDiscoveryRes"));
      ("DCChargeParameterDiscoveryResParams", ("iso15118.shared.messages.iso15118_20.dc", "DCChargeParameterDiscoveryResParams")) ].

(** The global namespace after the imports: a later binding of a name
    replaces an earlier one. *)
Definition module_globals : gmap string Class :=
  foldl (fun m b => <[b.1 := b.2]> m) ∅ imports.

(** Evaluating a global name. *)
Definition name (n : string) : M Class :=
  match module_globals !! n with
  | Some c => ret c
  | None => inl (Py.NameError n)
  end.

(** [E.MEMBER] for an enumeration bound to the name [E]. *)
Definition attr (enum member : string) : M Value :=
  do c <- name enum; ret (VMember c member).

Definition v_bool (b : bool) : M Value := ret (VBool b).
Definition v_int (n : Z) : M Value := ret (VInt n).
Definition v_str (s : string) : M Value := ret (VStr s).
Definition v_bytes (b : Bytes) : M Value := ret (VBytes b).

(** Operands are evaluated from left to right. *)
Fixpoint sequence {A} (l : list (M A)) : M (list A) :=
  match l with
  | [] => ret []
  | c :: r => do x <- c; do xs <- sequence r; ret (x :: xs)
  end.

Fixpoint keywords (l : list (string * M Value)) : M (list (string * Value)) :=
  match l with
  | [] => ret []
  | (k, c) :: r => do x <- c; do xs <- keywords r; ret ((k, x) :: xs)
  end.

Definition v_list (l : list (M Value)) : M Value :=
  do xs <- sequence l; ret (VList xs).
Definition v_tuple (l : list (M Value)) : M Value :=
  do xs <- sequence l; ret (VTuple xs).

(** [C(k1=e1, ..., kn=en)]: the callee, then the arguments in order. *)
Definition new (cls : string) (args : list (string * M Value)) : M Value :=
  do c <- name cls; do fields <- keywords args; ret (VObject c fields).

(** A dictionary display [{k1: v1, ..., kn: vn}]: each key, then its
    value, in order. *)
Fixpoint dict_from (d : gmap Class Value) (entries : list (M Class * M Value))
  : M (gmap Class Value) :=
  match entries with
  | [] => ret d
  | (k, v) :: r => do k <- k; do v <- v; dict_from (<[k := v]> d) r
  end.
Definition dict := dict_from ∅.

(** A response whose [response_code] is a member named [FAILED...]. *)
Definition response_code_is_failed (v : Value) : bool :=
  match field "response_code" v with
  | Some (VMember _ member) => Py.startswith member "FAILED"
  | _ => false
  end.

(** The registry was built, holds [n] request types, and every value
    passes the test [good]. *)
Definition built_with (good : Value -> bool) (n : nat)
    (registry : M (gmap Class Value)) : bool :=
  match registry with
  | inr d => (size d =? n)%nat && forallb (fun kv => good kv.2) (map_to_list d)
  | inl _ => false
  end.

(** A registry entry of ISO 15118-20: the triple
    [(response_record, namespace, payload_type)] with a failed response. *)
Definition is_failed_triple (v : Value) : bool :=
  match v with
  | VTuple [VObject cls fields; VMember _ _; VMember _ _] =>
      response_code_is_failed (VObject cls fields)
  | _ => false
  end.

Definition init_failed_responses_din_spec_70121 : M (gmap Class Value) :=
  dict
    [ (name "SessionSetupReqDINSPEC",
       new "SessionSetupResDINSPEC"
         [("response_code", attr "ResponseCodeDINSPEC" "FAILED");
          ("evse_id", v_str "1234567")]);
      (name "ServiceDiscoveryReqDINSPEC",
       new "ServiceDiscoveryResDINSPEC"
         [("response_code", attr "ResponseCodeDINSPEC" "FAILED");
          ("auth_option_list", new "AuthOptionListDINSPEC"
             [("auth_options", v_list [attr "AuthEnum" "EIM_V2"])]);
          ("charge_service", new "ChargeServiceDINSPEC"
             [("service_tag", new "ServiceDetailsDINSPEC"
                 [("service_id", attr "ServiceIDDINSPEC" "CHARGING");
                  ("service_category", attr "ServiceCategoryDINSPEC" "CHARGING")]);
              ("free_service", v_bool false);
              ("energy_transfer_type", attr "EnergyTransferModeEnum" "DC_EXTENDED")])]);
      (name "ServicePaymentSelectionReqDINSPEC",
       new "ServicePaymentSelectionResDINSPEC"
         [("response_code", attr "ResponseCodeDINSPEC" "FAILED")]);
      (name "ContractAuthenticationReqDINSPEC",
       new "ContractAuthenticationResDINSPEC"
         [("response_code", attr "ResponseCodeDINSPEC" "FAILED");
          ("evse_processing", attr "EVSEProcessing" "FINISHED")]);
      (name "ChargeParameterDiscoveryReqDINSPEC",
       new "ChargeParameterDiscoveryResDINSPEC"
         [("response_code", attr "ResponseCodeDINSPEC" "FAILED");
          ("evse_processing", attr "EVSEProcessing" "FINISHED");
          ("dc_charge_parameter", new "DCEVSEChargeParameter"
             [("dc_evse_status", new "DCEVSEStatus"
                 [("notification_max_delay", v_int 1000);
                  ("evse_notification", attr "EVSENotificationDINSPEC" "STOP_CHARGING");
                  ("evse_isolation_status", attr "IsolationLevel" "INVALID");
                  ("evse_status_code", attr "DCEVSEStatusCodeDINSPEC" "EVSE_NOT_READY")]);
              ("evse_maximum_power_limit", new "PVEVSEMaxPowerLimit"
                 [("multiplier", v_int 0);
                  ("value", v_int 0);
                  ("unit", attr "UnitSymbol" "WATT")]);
              ("evse_maximum_current_limit", new "PVEVSEMaxCurrentLimit"
                 [("multiplier", v_int 0);
                  ("value", v_int 0);
                  ("unit", attr "UnitSymbol" "AMPERE")]);
              ("evse_maximum_voltage_limit", new "PVEVSEMaxVoltageLimit"
                 [("multiplier", v_int 0);
                  ("value", v_int 0);
                  ("unit", attr "UnitSymbol" "VOLTAGE")]);
              ("evse_minimum_current_limit", new "PVEVSEMinCurrentLimit"
                 [("multiplier", v_int 0);
                  ("value", v_int 0);
                  ("unit", attr "UnitSymbol" "AMPERE")]);
              ("evse_minimum_voltage_limit", new "PVEVSEMinVoltageLimit"
                 [("multiplier", v_int 0);
                  ("value", v_int 0);
                  ("unit", attr "UnitSymbol" "VOLTAGE")]);
              ("evse_current_regulation_tolerance", new "PVEVSECurrentRegulationTolerance"
                 [("multiplier", v_int 0);
                  ("value", v_int 0);
                  ("unit", attr "UnitSymbol" "AMPERE")]);
              ("evse_peak_current_ripple", new "PVEVSEPeakCurrentRipple"
                 [("multiplier", v_int 0);
                  ("value", v_int 0);
                  ("unit", attr "UnitSymbol" "AMPERE")]);
              ("evse_energy_to_be_delivered", new "PVEVSEEnergyToBeDelivered"
                 [("multiplier", v_int 0);
                  ("value", v_int 0);
                  ("unit", attr "UnitSymbol" "WATT_HOURS")])])]);
      (name "CableCheckReqDINSPEC",
       new "CableCheckResDINSPEC"
         [("response_code", attr "ResponseCodeDINSPEC" "FAILED");
          ("dc_evse_status", new "DCEVSEStatus"
             [("notification_max_delay", v_int 1000);
              ("evse_notification", attr "EVSENotificationDINSPEC" "STOP_CHARGING");
              ("evse_isolation_status", attr "IsolationLevel" "INVALID");
              ("evse_status_code", attr "DCEVSEStatusCodeDINSPEC" "EVSE_NOT_READY")]);
          ("evse_processing", attr "EVSEProcessing" "FINISHED")]);
      (name "PreChargeReqDINSPEC",
       new "PreChargeResDINSPEC"
         [("response_code", attr "ResponseCodeDINSPEC" "FAILED");
          ("dc_evse_status", new "DCEVSEStatus"
             [("notification_max_delay", v_int 1000);
              ("evse_notification", attr "EVSENotificationDINSPEC" "STOP_CHARGING");
              ("evse_isolation_status", attr "IsolationLevel" "INVALID");
              ("evse_status_code", attr "DCEVSEStatusCodeDINSPEC" "EVSE_NOT_READY")]);
          ("evse_present_voltage", new "PVEVSEPresentVoltage"
             [("multiplier", v_int 0);
              ("value", v_int 0);
              ("unit", attr "UnitSymbol" "VOLTAGE")])]);
      (name "PowerDeliveryReqDINSPEC",
       new "PowerDeliveryResDINSPEC"
         [("response_code", attr "ResponseCodeDINSPEC" "FAILED");
          ("dc_evse_status", new "DCEVSEStatus"
             [("notification_max_delay", v_int 1000);
              ("evse_notification", attr "EVSENotificationDINSPEC" "STOP_CHARGING");
              ("evse_isolation_status", attr "IsolationLevel" "INVALID");
              ("evse_status_code", attr "DCEVSEStatusCodeDINSPEC" "EVSE_NOT_READY")])]);
      (name "CurrentDemandReqDINPEC",
       new "CurrentDemandResDINSPEC"
         [("response_code", attr "ResponseCodeDINSPEC" "FAILED");
          ("dc_evse_status", new "DCEVSEStatus"
             [("notification_max_delay", v_int 1000);
              ("evse_notification", attr "EVSENotificationDINSPEC" "STOP_CHARGING");
              ("evse_isolation_status", attr "IsolationLevel" "INVALID");
              ("evse_status_code", attr "DCEVSEStatusCodeDINSPEC" "EVSE_NOT_READY")]);
          ("evse_present_voltage", new "PVEVSEPresentVoltage"
             [("multiplier", v_int 0);
              ("value", v_int 0);
              ("unit", attr "UnitSymbol" "VOLTAGE")]);
          ("evse_present_current", new "PVEVSEPresentCurrent"
             [("multiplier", v_int 0);
              ("value", v_int 0);
              ("unit", attr "UnitSymbol" "AMPERE")]);
          ("evse_current_limit_achieved", v_bool false);
          ("evse_voltage_limit_achieved", v_bool false);
          ("evse_power_limit_achieved", v_bool false);
          ("evse_max_voltage_limit", new "PVEVSEMaxVoltageLimit"
             [("multiplier", v_int 0);
              ("value", v_int 0);
              ("unit", attr "UnitSymbol" "VOLTAGE")]);
          ("evse_max_current_limit", new "PVEVSEMaxCurrentLimit"
             [("multiplier", v_int 0);
              ("value", v_int 0);
              ("unit", attr "UnitSymbol" "AMPERE")]);
          ("evse_max_power_limit", new "PVEVSEMaxPowerLimit"
             [("multiplier", v_int 0);
              ("value", v_int 0);
              ("unit", attr "UnitSymbol" "WATT")])]);
      (name "WeldingDetectionReqDINSPEC",
       new "WeldingDetectionResDINSPEC"
         [("response_code", attr "ResponseCodeDINSPEC" "FAILED");
          ("dc_evse_status", new "DCEVSEStatus"
             [("notification_max_delay", v_int 1000);
              ("evse_notification", attr "EVSENotificationDINSPEC" "STOP_CHARGING");
              ("evse_isolation_status", attr "IsolationLevel" "INVALID");
              ("evse_status_code", attr "DCEVSEStatusCodeDINSPEC" "EVSE_NOT_READY")]);
          ("evse_present_voltage", new "PVEVSEPresentVoltage"
             [("multiplier", v_int 0);
              ("value", v_int 0);
              ("unit", attr "UnitSymbol" "VOLTAGE")])]);
      (name "SessionStopReqDINSPEC",
       new "SessionStopResDINSPEC"
         [("response_code", attr "ResponseCodeDINSPEC" "FAILED")]) ].

Definition init_failed_responses_iso_v2 : M (gmap Class Value) :=
  dict
    [ (name "SessionSetupReqV2",
       new "SessionSetupResV2"
         [("response_code", attr "ResponseCodeV2" "FAILED");
          ("evse_id", v_str "1234567")]);
      (name "ServiceDiscoveryReqV2",
       new "ServiceDiscoveryResV2"
         [("response_code", attr "ResponseCodeV2" "FAILED");
          ("auth_option_list", new "AuthOptionList"
             [("auth_options", v_list [attr "AuthEnum" "EIM_V2"])]);
          ("charge_service", new "ChargeService"
             [("service_id", attr "ServiceID" "CHARGING");
              ("service_category", attr "ServiceCategory" "CHARGING");
              ("free_service", v_bool false);
              ("supported_energy_transfer_mode", new "EnergyTransferModeList"
                 [("energy_modes", v_list [attr "EnergyTransferModeEnum" "DC_CORE"])])])]);
      (name "ServiceDetailReqV2",
       new "ServiceDetailResV2"
         [("response_code", attr "ResponseCodeV2" "FAILED");
          ("service_id", v_int 0)]);
      (name "PaymentServiceSelectionReq",
       new "PaymentServiceSelectionRes"
         [("response_code", attr "ResponseCodeV2" "FAILED")]);
      (name "CertificateInstallationReqV2",
       new "CertificateInstallationResV2"
         [("response_code", attr "ResponseCodeV2" "FAILED");
          ("cps_cert_chain", new "CertificateChainV2"
             [("certificate", v_bytes (Py.bytes 0))]);
          ("contract_cert_chain", new "CertificateChainV2"
             [("certificate", v_bytes (Py.bytes 0))]);
          ("encrypted_private_key", new "EncryptedPrivateKey"
             [("id", v_str "");
              ("value", v_bytes (Py.bytes 0))]);
          ("dh_public_key", new "DHPublicKey"
             [("id", v_str "");
              ("value", v_bytes (Py.bytes 0))]);
          ("emaid", new "EMAID"
             [("value", v_str "123456789ABCDE")])]);
      (name "CertificateUpdateReq",
       new "CertificateUpdateRes"
         [("response_code", attr "ResponseCodeV2" "FAILED");
          ("cps_cert_chain", new "CertificateChainV2"
             [("certificate", v_bytes (Py.bytes 0))]);
          ("contract_cert_chain", new "CertificateChainV2"
             [("certificate", v_bytes (Py.bytes 0))]);
          ("encrypted_private_key", new "EncryptedPrivateKey"
             [("id", v_str "");
              ("value", v_bytes (Py.bytes 0))]);
          ("dh_public_key", new "DHPublicKey"
             [("id", v_str "");
              ("value", v_bytes (Py.bytes 0))]);
          ("emaid", new "EMAID"
             [("value", v_str "123456789ABCDE")])]);
      (name "PaymentDetailsReq",
       new "PaymentDetailsRes"
         [("response_code", attr "ResponseCodeV2" "FAILED");
          ("gen_challenge", v_bytes (Py.bytes 16));
          ("evse_timestamp", v_int 0)]);
      (name "AuthorizationReqV2",
       new "AuthorizationResV2"
         [("response_code", attr "ResponseCodeV2" "FAILED");
          ("evse_processing", attr "EVSEProcessing" "FINISHED")]);
      (name "ChargeParameterDiscoveryReq",
       new "ChargeParameterDiscoveryRes"
         [("response_code", attr "ResponseCodeV2" "FAILED");
          ("evse_processing", attr "EVSEProcessing" "FINISHED")]);
      (name "PowerDeliveryReqV2",
       new "PowerDeliveryResV2"
         [("response_code", attr "ResponseCodeV2" "FAILED")]);
      (name "ChargingStatusReq",
       new "ChargingStatusRes"
         [("response_code", attr "ResponseCodeV2" "FAILED");
          ("evse_id", v_str "1234567");
          ("sa_schedule_tuple_id", v_int 1);
          ("ac_evse_status", new "ACEVSEStatus"
             [("notification_max_delay", v_int 0);
              ("evse_notification", attr "EVSENotification" "NONE");
              ("rcd", v_bool false)])]);
      (name "CableCheckReq",
       new "CableCheckRes"
         [("response_code", attr "ResponseCodeV2" "FAILED");
          ("dc_evse_status", new "DCEVSEStatus"
             [("evse_notification", attr "EVSENotification" "NONE");
              ("notification_max_delay", v_int 0);
              ("evse_isolation_status", attr "IsolationLevel" "VALID");
              ("evse_status_code", attr "DCEVSEStatusCode" "EVSE_READY")]);
          ("evse_processing", attr "EVSEProcessing" "FINISHED")]);
      (name "PreChargeReq",
       new "PreChargeRes"
         [("response_code", attr "ResponseCodeV2" "FAILED");
          ("dc_evse_status", new "DCEVSEStatus"
             [("evse_notification", attr "EVSENotification" "NONE");
              ("notification_max_delay", v_int 0);
              ("evse_isolation_status", attr "IsolationLevel" "VALID");
              ("evse_status_code", attr "DCEVSEStatusCode" "EVSE_READY")]);
          ("evse_present_voltage", new "PVEVSEPresentVoltage"
             [("multiplier", v_int 0);
              ("value", v_int 230);
              ("unit", v_str "V")])]);
      (name "CurrentDemandReq",
       new "CurrentDemandRes"
         [("response_code", attr "ResponseCodeV2" "FAILED");
          ("dc_evse_status", new "DCEVSEStatus"
             [("evse_notification", attr "EVSENotification" "NONE");
              ("notification_max_delay", v_int 0);
              ("evse_isolation_status", attr "IsolationLevel" "VALID");
              ("evse_status_code", attr "DCEVSEStatusCode" "EVSE_READY")]);
          ("evse_present_voltage", new "PVEVSEPresentVoltage"
             [("multiplier", v_int 0);
              ("value", v_int 230);
              ("unit", v_str "V")]);
          ("evse_present_current", new "PVEVSEPresentCurrent"
             [("multiplier", v_int 0);
              ("value", v_int 10);
              ("unit", v_str "A")]);
          ("evse_current_limit_achieved", v_bool false);
          ("evse_voltage_limit_achieved", v_bool false);
          ("evse_power_limit_achieved", v_bool false);
          ("evse_id", v_str "1234567");
          ("sa_schedule_tuple_id", v_int 1)]);
      (name "MeteringReceiptReq",
       new "MeteringReceiptRes"
         [("response_code", attr "ResponseCodeV2" "FAILED")]);
      (name "WeldingDetectionReqV2",
       new "WeldingDetectionResV2"
         [("response_code", attr "ResponseCodeV2" "FAILED");
          ("dc_evse_status", new "DCEVSEStatus"
             [("evse_notification", attr "EVSENotification" "NONE");
              ("notification_max_delay", v_int 0);
              ("evse_isolation_status", attr "IsolationLevel" "VALID");
              ("evse_status_code", attr "DCEVSEStatusCode" "EVSE_READY")]);
          ("evse_present_voltage", new "PVEVSEPresentVoltage"
             [("multiplier", v_int 0);
              ("value", v_int 230);
              ("unit", v_str "V")])]);
      (name "SessionStopReqV2",
       new "SessionStopResV2"
         [("response_code", attr "ResponseCodeV2" "FAILED")]) ].

Definition init_failed_responses_iso_v20 : M (gmap Class Value) :=
  do header <- new "MessageHeaderV20"
      [("session_id", v_str (Py.upper (Py.hex (Py.bytes 1))));
       ("timestamp", v_int 1)];
  dict
    [ (name "SessionSetupReqV20",
       v_tuple
         [new "SessionSetupResV20"
            [("header", ret header);
             ("response_code", attr "ResponseCodeV20" "FAILED");
             ("evse_id", v_str "")];
          attr "Namespace" "ISO_V20_COMMON_MSG";
          attr "ISOV20PayloadTypes" "MAINSTREAM"]);
      (name "AuthorizationReqV20",
       v_tuple
         [new "AuthorizationResV20"
            [("header", ret header);
             ("response_code", attr "ResponseCodeV20" "FAILED");
             ("evse_processing", attr "Processing" "FINISHED")];
          attr "Namespace" "ISO_V20_COMMON_MSG";
          attr "ISOV20PayloadTypes" "MAINSTREAM"]);
      (name "AuthorizationSetupReq",
       v_tuple
         [new "AuthorizationSetupRes"
            [("header", ret header);
             ("response_code", attr "ResponseCodeV20" "FAILED");
             ("auth_services", v_list [attr "AuthEnum" "EIM"]);
             ("cert_install_service", v_bool false);
             ("eim_as_res", new "EIMAuthSetupResParams" [])];
          attr "Namespace" "ISO_V20_COMMON_MSG";
          attr "ISOV20PayloadTypes" "MAINSTREAM"]);
      (name "CertificateInstallationReqV20",
       v_tuple
         [new "CertificateInstallationResV20"
            [("header", ret header);
             ("response_code", attr "ResponseCodeV20" "FAILED");
             ("evse_processing", attr "Processing" "FINISHED");
             ("cps_certificate_chain", new "CertificateChainV20"
                [("certificate", v_bytes (Py.bytes 0))]);
             ("signed_installation_data", new "SignedInstallationData"
                [("contract_cert_chain", new "CertificateChainV20"
                    [("certificate", v_bytes (Py.bytes 0));
                     ("sub_certificates", new "SubCertificates"
                        [("certificates", v_list [v_bytes (Py.bytes 0)])])]);
                 ("ecdh_curve", attr "ECDHCurve" "x448");
                 ("dh_public_key", v_bytes (Py.bytes 0));
                 ("x448_encrypted_private_key", v_bytes (Py.bytes 84));
                 ("id", v_str "")]);
             ("remaining_contract_cert_chains", v_int 0)];
          attr "Namespace" "ISO_V20_COMMON_MSG";
          attr "ISOV20PayloadTypes" "MAINSTREAM"]);
      (name "ServiceDiscoveryReqV20",
       v_tuple
         [new "ServiceDiscoveryResV20"
            [("header", ret header);
             ("response_code", attr "ResponseCodeV20" "FAILED");
             ("service_renegotiation_supported", v_bool false);
             ("energy_service_list", new "ServiceList"
                [("services", v_list [new "Service"
                    [("service_id", v_int 0);
                     ("free_service", v_bool false)]])])];
          attr "Namespace" "ISO_V20_COMMON_MSG";
          attr "ISOV20PayloadTypes" "MAINSTREAM"]);
      (name "ServiceDetailReqV20",
       v_tuple
         [new "ServiceDetailResV20"
            [("header", ret header);
             ("response_code", attr "ResponseCodeV20" "FAILED");
             ("service_id", v_int 0);
             ("service_parameter_list", new "ServiceParameterList"
                [("parameter_sets", v_list [])])];
          attr "Namespace" "ISO_V20_COMMON_MSG";
          attr "ISOV20PayloadTypes" "MAINSTREAM"]);
      (name "ServiceSelectionReq",
       v_tuple
         [new "ServiceSelectionRes"
            [("header", ret header);
             ("response_code", attr "ResponseCodeV20" "FAILED")];
          attr "Namespace" "ISO_V20_COMMON_MSG";
          attr "ISOV20PayloadTypes" "MAINSTREAM"]);
      (name "ACChargeParameterDiscoveryReq",
       v_tuple
         [new "ACChargeParameterDiscoveryRes"
            [("header", ret header);
             ("response_code", attr "ResponseCodeV20" "FAILED");
             ("ac_params", new "ACChargeParameterDiscoveryResParams"
                [("evse_max_charge_power", new "RationalNumber"
                    [("exponent", v_int 0);
                     ("value", v_int 0)]);
                 ("evse_min_charge_power", new "RationalNumber"
                    [("exponent", v_int 0);
                     ("value", v_int 0)]);
                 ("evse_nominal_frequency", new "RationalNumber"
                    [("exponent", v_int 0);
                     ("value", v_int 0)])])];
          attr "Namespace" "ISO_V20_AC";
          attr "ISOV20PayloadTypes" "AC_MAINSTREAM"]);
      (name "DCChargeParameterDiscoveryReq",
       v_tuple
         [new "DCChargeParameterDiscoveryRes"
            [("header", ret header);
             ("response_code", attr "ResponseCodeV20" "FAILED");
             ("dc_params", new "DCChargeParameterDiscoveryResParams"
                [("evse_max_charge_power", new "RationalNumber"
                    [("exponent", v_int 0);
                     ("value", v_int 0)]);
                 ("evse_min_charge_power", new "RationalNumber"
                    [("exponent", v_int 0);
                     ("value", v_int 0)]);
                 ("evse_max_charge_current", new "RationalNumber"
                    [("exponent", v_int 0);
                     ("value", v_int 0)]);
                 ("evse_min_charge_current", new "RationalNumber"
                    [("exponent", v_int 0);
                     ("value", v_int 0)]);
                 ("evse_max_voltage", new "RationalNumber"
                    [("exponent", v_int 0);
                     ("value", v_int 0)]);
                 ("evse_min_voltage", new "RationalNumber"
                    [("exponent", v_int 0);
                     ("value", v_int 0)])])];
          attr "Namespace" "ISO_V20_DC";
          attr "ISOV20PayloadTypes" "DC_MAINSTREAM"]);
      (name "ScheduleExchangeReq",
       v_tuple
         [new "ScheduleExchangeRes"
            [("header", ret header);
             ("response_code", attr "ResponseCodeV20" "FAILED");
             ("evse_processing", attr "Processing" "ONGOING");
             ("dynamic_params", new "DynamicScheduleExchangeResParams"
                [("price_level_schedule", new "PriceLevelSchedule"
                    [("time_anchor", v_int 0);
                     ("schedule_id", v_int 1);
                     ("num_price_levels", v_int 0);
                     ("schedule_entries", new "PriceLevelScheduleEntryList"
                        [("entries", v_list [])])])])];
          attr "Namespace" "ISO_V20_COMMON_MSG";
          attr "ISOV20PayloadTypes" "MAINSTREAM"]);
      (name "PowerDeliveryReqV20",
       v_tuple
         [new "PowerDeliveryResV20"
            [("header", ret header);
             ("response_code", attr "ResponseCodeV20" "FAILED")];
          attr "Namespace" "ISO_V20_COMMON_MSG";
          attr "ISOV20PayloadTypes" "MAINSTREAM"]);
      (name "ACChargeLoopReq",
       v_tuple
         [new "ACChargeLoopRes"
            [("header", ret header);
             ("response_code", attr "ResponseCodeV20" "FAILED");
             ("scheduled_ac_charge_loop_res", new "ScheduledACChargeLoopResParams" [])];
          attr "Namespace" "ISO_V20_AC";
          attr "ISOV20PayloadTypes" "AC_MAINSTREAM"]);
      (name "MeteringConfirmationReq",
       v_tuple
         [new "MeteringConfirmationRes"
            [("header", ret header);
             ("response_code", attr "ResponseCodeV20" "FAILED")];
          attr "Namespace" "ISO_V20_COMMON_MSG";
          attr "ISOV20PayloadTypes" "MAINSTREAM"]);
      (name "SessionStopReqV20",
       v_tuple
         [new "SessionStopResV20"
            [("header", ret header);
             ("response_code", attr "ResponseCodeV20" "FAILED")];
          attr "Namespace" "ISO_V20_COMMON_MSG";
          attr "ISOV20PayloadTypes" "MAINSTREAM"]) ].

End FailedResponses.

Module FailedResponsesChecks.
Import FailedResponses.

(** *** What a registry entry is checked for *)

(** The class of the response that answers a request: the class of the same
    module whose name has [Res] in place of the final [Req]. *)
Definition response_class (request : Class) : option Class :=
  let n := String.length request.2 in
  if String.substring (n - 3) 3 request.2 == "Req"
  then Some (request.1, String.substring 0 (n - 3) request.2 ++ "Res")
  else None.

(** A record of the response class of the request with a response code
    named [FAILED...]. *)
Definition is_failed_response_to (request : Class) (v : Value) : bool :=
  (class_of v == response_class request) && response_code_is_failed v.

(** The namespace and the payload type under which the messages of a module
    of ISO 15118-20 are encoded. *)
Definition encoding_of (module : string) : option (string * string) :=
  if module == "iso15118.shared.messages.iso15118_20.common_messages"
  then Some ("ISO_V20_COMMON_MSG", "MAINSTREAM")
  else if module == "iso15118.shared.messages.iso15118_20.ac"
  then Some ("ISO_V20_AC", "AC_MAINSTREAM")
  else if module == "iso15118.shared.messages.iso15118_20.dc"
  then Some ("ISO_V20_DC", "DC_MAINSTREAM")
  else None.

(** The header every failed response of ISO 15118-20 is built with:
    [MessageHeader(session_id="00", timestamp=1)]. *)
Definition is_placeholder_header (v : option Value) : bool :=
  match v with
  | Some (VObject cls [(k1, VStr session_id); (k2, VInt timestamp)]) =>
      (cls == ("iso15118.shared.messages.iso15118_20.common_types",
               "MessageHeader"))
      && (k1 == "session_id") && (session_id == "00")
      && (k2 == "timestamp") && (timestamp == 1)
  | _ => false
  end.

(** An entry of the ISO 15118-20 registry: the failed response to the
    request, with the placeholder header, and the namespace and payload type
    of the module that defines the request. *)
Definition is_failed_triple_for (request : Class) (v : Value) : bool :=
  match v with
  | VTuple [response; VMember namespace_enum namespace;
            VMember payload_enum payload] =>
      is_failed_response_to request response
      && is_placeholder_header (field "header" response)
      && (namespace_enum == ("iso15118.shared.messages.enums", "Namespace"))
      && (payload_enum
          == ("iso15118.shared.messages.enums", "ISOV20PayloadTypes"))
      && (encoding_of request.1 == Some (namespace, payload))
  | _ => false
  end.

(** The registry was built, holds [n] request types, and every entry
    passes the test [good]. *)
Definition built_from (good : Class -> Value -> bool) (n : nat)
    (registry : M (gmap Class Value)) : bool :=
  match registry with
  | inr d =>
      (size d =? n)%nat && forallb (fun kv => good kv.1 kv.2) (map_to_list d)
  | inl _ => false
  end.
End FailedResponsesChecks.

(** ** DIN SPEC 70121: data types and timeouts

    [iso15118/shared/messages/din_spec/datatypes.py] and [timeouts.py].
    Both modules are declarations: enumerations, and pydantic models whose
    fields are declared with [Field(default, **constraints)].  A class body
    is kept as the list of its declarations, in source order. *)

(** *** Python's [Enum]

    The body of an enumeration class is a list of definitions
    [NAME = value].  A definition whose value equals the value of an earlier
    one does not make a new member: its name becomes an alias of the earlier
    member. *)
Module Enum.

(** The class body. *)
Definition t (V : Type) : Type := list (string * V).

(** A member, by its canonical name and its value. *)
Definition member (V : Type) : Type := (string * V)%type.
Definition name {V} (m : member V) : string := m.1.
Definition value {V} (m : member V) : V := m.2.

Section Lookup.
Context {V : Type} (eqb : V -> V -> bool).

(** [E(value)]: the first member defined with an equal value ([None]:
    ValueError). *)
Definition by_value (defs : t V) (v : V) : option (member V) :=
  List.find (fun d => eqb d.2 v) defs.

(** [E.NAME] and [E["NAME"]]: the member the name is bound to ([None]:
    AttributeError, KeyError). *)
Definition by_name (defs : t V) (n : string) : option (member V) :=
  d ← List.find (fun d => d.1 == n) defs; by_value defs d.2.

(** [list(E)]: the members in definition order, aliases left out. *)
Definition members (defs : t V) : list (member V) :=
  List.filter
    (fun d => match by_value defs d.2 with
              | Some m => m.1 == d.1
              | None => false
              end)
    defs.
End Lookup.
End Enum.

(** *** Pydantic models *)
Module Pydantic.

(** An argument of [Field]: a literal, or a name bound elsewhere (the
    integer limits of [iso15118.shared.messages.enums]). *)
Inductive Arg :=
| AInt (n : Z)
| AStr (s : string)
| AName (name : string).

(** [name: annotation = Field(default, **keywords)], the default being
    [...] for a required field and [None] for an optional one. *)
Record FieldInfo := field {
  name : string;
  annotation : string;
  required : bool;
  keywords : list (string * Arg) }.

(** [class name(bases)] with the fields of its body. *)
Record Model := model {
  cls : string;
  bases : list string;
  fields : list FieldInfo }.

Definition keyword (k : string) (f : FieldInfo) : option Arg :=
  snd <$> List.find (fun kw => kw.1 == k) f.(keywords).

(** The keywords [Field] gives a meaning to; any other keyword is kept as
    extra schema information and constrains nothing. *)
Definition alias (f : FieldInfo) : option string :=
  match keyword "alias" f with
  | Some (AStr s) => Some s
  | _ => None
  end.

Definition bound (k : string) (f : FieldInfo) : option Z :=
  match keyword k f with
  | Some (AInt n) => Some n
  | _ => None
  end.

(** The name of the field in a serialised message: its alias, or its own
    name when it has none. *)
Definition public_name (f : FieldInfo) : string :=
  default f.(name) (alias f).

(** The fields of a model with those it inherits, the inherited ones
    first; [depth] bounds the chain of base classes followed. *)
Fixpoint all_fields (models : list Model) (depth : nat) (c : string)
  : list FieldInfo :=
  match depth with
  | O => []
  | S depth =>
      match List.find (fun m => m.(cls) == c) models with
      | Some m =>
          ((m.(bases) ≫= all_fields models depth) ++ m.(fields))%list
      | None => []
      end
  end.

End Pydantic.

Module DinSpec.
Import Pydantic.

Definition module : string := "iso15118.shared.messages.din_spec.datatypes".

(** [class ServiceID(IntEnum)] *)
Definition ServiceID : Enum.t Z :=
  [("CHARGING", 1); ("CERTIFICATE", 2); ("INTERNET", 3); ("CUSTOM", 4)].

(** [class ServiceCategory(str, Enum)] *)
Definition ServiceCategory : Enum.t string :=
  [("CHARGING", "EVCharging"); ("CERTIFICATE", "ContractCertificate");
   ("INTERNET", "Internet"); ("CUSTOM", "OtherCustom")].

(** [class ServiceName(str, Enum)] *)
Definition ServiceName : Enum.t string :=
  [("CHARGING", "AC_DC_Charging"); ("CERTIFICATE", "Certificate");
   ("INTERNET", "InternetAccess"); ("CUSTOM", "UseCaseInformation")].

(** [class EVSENotification(str, Enum)] *)
Definition EVSENotification : Enum.t string :=
  [("NONE", "None"); ("STOP_CHARGING", "StopCharging");
   ("RE_NEGOTIATION", "ReNegotiation")].

(** [class ValueType(str, Enum)] *)
Definition ValueType : Enum.t string :=
  [("BOOL_TYPE", "bool"); ("BYTE_TYPE", "byte"); ("SHORT_TYPE", "short");
   ("INT_TYPE", "int"); ("PHYSICAL_VALUE_TYPE", "physicalValue");
   ("STRING_TYPE", "string")].

(** [class CostKind(str, Enum)] *)
Definition CostKind : Enum.t string :=
  [("RELATIVE_PRICE_PERCENTAGE", "relativePricePercentage");
   ("RENEWABLE_GENERATION_PERCENTAGE", "RenewableGenerationPercentage");
   ("CARBON_DIOXIDE_EMISSION", "CarbonDioxideEmission")].

(** [class DCEVSEStatusCode(str, Enum)] *)
Definition DCEVSEStatusCode : Enum.t string :=
  [("EVSE_NOT_READY", "EVSE_NotReady"); ("EVSE_READY", "EVSE_Ready");
   ("EVSE_SHUTDOWN", "EVSE_Shutdown");
   ("EVSE_UTILITY_INTERUPT_EVENT", "EVSE_UtilityInterruptEvent");
   ("EVSE_ISOLATION_MONITORING_ACTIVE", "EVSE_IsolationMonitoringActive");
   ("EVSE_EMERGENCY_SHUTDOWN", "EVSE_EmergencyShutdown");
   ("EVSE_MALFUNCTION", "EVSE_Malfunction"); ("RESERVED_8", "Reserved_8");
   ("RESERVED_9", "Reserved_9"); ("RESERVED_A", "Reserved_A");
   ("RESERVED_B", "Reserved_B"); ("RESERVED_C", "Reserved_C")].

(** [class IsolationLevel(str, Enum)] *)
Definition IsolationLevel : Enum.t string :=
  [("INVALID", "Invalid"); ("VALID", "Valid"); ("WARNING", "Warning");
   ("FAULT", "Fault")].

(** [class PaymentOption(str, Enum)] *)
Definition PaymentOption : Enum.t string :=
  [("CONTRACT", "Contract"); ("EXTERNAL_PAYMENT", "ExternalPayment")].

(** [class FaultCode(str, Enum)] *)
Definition FaultCode : Enum.t string :=
  [("PARSING_ERROR", "ParsingError");
   ("NO_TLS_ROOT_CERTIFICATE_AVAILABLE", "NoTLSRootCertificatAvailable");
   ("UNKNOWN_ERROR", "UnknownError")].

(** [class ResponseCode(str, Enum)] *)
Definition ResponseCode : Enum.t string :=
  [("OK", "OK"); ("OK_NEW_SESSION_ESTABLISHED", "OK_NewSessionEstablished");
   ("OK_OLD_SESSION_JOINED", "OK_OldSessionJoined");
   ("OK_CERTIFICATE_EXPIRES_SOON", "OK_CertificateExpiresSoon");
   ("FAILED", "FAILED"); ("FAILED_SEQUENCE_ERROR", "FAILED_SequenceError");
   ("FAILED_SERVICE_ID_INVALID", "FAILED_ServiceIDInvalid");
   ("FAILED_UNKNOWN_SESSION", "FAILED_UnknownSession");
   ("FAILED_SERVICE_SELECTION_INVALID", "FAILED_ServiceSelectionInvalid");
   ("FAILED_PAYMENT_SELECTION_INVALID", "FAILED_PaymentSelectionInvalid");
   ("FAILED_CERTIFICATE_EXPIRED", "FAILED_CertificateExpired");
   ("FAILED_SIGNATURE_ERROR", "FAILED_SignatureError");
   ("FAILED_NO_CERTIFICATE_AVAILABLE", "FAILED_NoCertificateAvailable");
   ("FAILED_CERT_CHAIN_ERROR", "FAILED_CertChainError");
   ("FAILED_CHALLENGE_INVALID", "FAILED_ChallengeInvalid");
   ("FAILED_CONTRACT_CANCELED", "FAILED_ContractCanceled");
   ("FAILED_WRONG_CHARGE_PARAMETER", "FAILED_WrongChargeParameter");
   ("FAILED_POWER_DELIVERY_NOT_APPLIED", "FAILED_PowerDeliveryNotApplied");
   ("FAILED_TARIFF_SELECTION_INVALID", "FAILED_TariffSelectionInvalid");
   ("FAILED_CHARGING_PROFILE_INVALID", "FAILED_ChargingProfileInvalid");
   ("FAILED_EVSE_PRESENT_VOLTAGE_TO_LOW", "FAILED_EVSEPresentVoltageToLow");
   ("FAILED_METERING_SIGNATURE_NOT_VALID", "FAILED_MeteringSignatureNotValid");
   ("FAILED_WRONG_ENERGY_TRANSFER_MODE", "FAILED_WrongEnergyTransferMode")].

(** The enumerations of the module, by class name, with the values read as
    written (an [IntEnum] has integers, the others strings). *)
Definition int_enums : list (string * Enum.t Z) :=
  [("ServiceID", ServiceID)].

Definition str_enums : list (string * Enum.t string) :=
  [("ServiceCategory", ServiceCategory);
   ("ServiceName", ServiceName);
   ("EVSENotification", EVSENotification);
   ("ValueType", ValueType);
   ("CostKind", CostKind);
   ("DCEVSEStatusCode", DCEVSEStatusCode);
   ("IsolationLevel", IsolationLevel);
   ("PaymentOption", PaymentOption);
   ("FaultCode", FaultCode);
   ("ResponseCode", ResponseCode)].

(** The models of the module. *)
Definition models : list Model :=
  [ model "EnergyTransferModeList" ["BaseModel"]
      [ field "energy_modes" "List[EnergyTransferModeEnum]" true
          [("max_items", AInt 6); ("alias", AStr "EnergyTransferMode")] ];
    model "ServiceDetails" ["BaseModel"]
      [ field "service_id" "ServiceID" true
          [("ge", AInt 0); ("le", AInt 65535); ("alias", AStr "ServiceID")];
        field "service_name" "ServiceName" false
          [("max_length", AInt 32); ("alias", AStr "ServiceName")];
        field "service_category" "ServiceCategory" true
          [("alias", AStr "ServiceCategory")];
        field "service_scope" "str" false
          [("max_length", AInt 64); ("alias", AStr "ServiceScope")] ];
    model "ChargeService" ["BaseModel"]
      [ field "service_tag" "ServiceDetails" true
          [("alias", AStr "ServiceTag")];
        field "free_service" "bool" true
          [("alias", AStr "FreeService")];
        field "energy_transfer_type" "EnergyTransferModeEnum" true
          [("alias", AStr "EnergyTransferType")] ];
    model "PaymentOptionType" ["BaseModel"]
      [ field "paymentOptionType" "str" true
          [("alias", AStr "PaymentOptionType")] ];
    model "ContractID" ["BaseModel"]
      [ field "contract_id" "str" true
          [("max_length", AInt 24); ("alias", AStr "ContractID")] ];
    model "EVSEStatus" ["BaseModel"]
      [ field "notification_max_delay" "int" true
          [("ge", AInt 0); ("le", AInt 65535);
           ("alias", AStr "NotificationMaxDelay")];
        field "evse_notification" "EVSENotification" true
          [("alias", AStr "EVSENotification")] ];
    model "ACEVSEStatus" ["EVSEStatus"]
      [ field "rcd" "bool" true
          [("alias", AStr "RCD")] ];
    model "ACEVSEChargeParameter" ["BaseModel"]
      [ field "ac_evse_status" "ACEVSEStatus" true
          [("alias", AStr "AC_EVSEStatus")];
        field "evse_nominal_voltage" "PVEVSENominalVoltage" true
          [("alias", AStr "EVSENominalVoltage")];
        field "evse_max_current" "PVEVSEMaxCurrent" true
          [("alias", AStr "EVSEMaxCurrent")] ];
    model "EVChargeParameter" ["BaseModel"] [];
    model "ACEVChargeParameter" ["EVChargeParameter"]
      [ field "departure_time" "int" false
          [("ge", AInt 0); ("le", AName "UINT_32_MAX");
           ("alias", AStr "DepartureTime")];
        field "e_amount" "PVEAmount" true
          [("alias", AStr "EAmount")];
        field "ev_max_voltage" "PVEVMaxVoltage" true
          [("alias", AStr "EVMaxVoltage")];
        field "ev_max_current" "PVEVMaxCurrent" true
          [("alias", AStr "EVMaxCurrent")];
        field "ev_min_current" "PVEVMinCurrent" true
          [("alias", AStr "EVMinCurrent")] ];
    model "ServiceList" ["BaseModel"]
      [ field "services" "List[ServiceDetails]" true
          [("max_items", AInt 8); ("alias", AStr "Service")] ];
    model "Parameter" ["BaseModel"]
      [ field "name" "str" true
          [("alias", AStr "Name")];
        field "bool_value" "bool" false
          [("alias", AStr "boolValue")];
        field "byte_value" "int" false
          [("ge", AName "INT_8_MIN"); ("le", AName "INT_8_MAX");
           ("alias", AStr "byteValue")];
        field "short_value" "int" false
          [("ge", AName "INT_16_MIN"); ("le", AName "INT_16_MAX");
           ("alias", AStr "shortValue")];
        field "int_value" "int" false
          [("alias", AStr "intValue")];
        field "physical_value" "PhysicalValue" false
          [("alias", AStr "physicalValue")];
        field "str_value" "str" false
          [("alias", AStr "stringValue")];
        field "value_type" "ValueType" true
          [("alias", AStr "ValueType")] ];
    model "ParameterSet" ["BaseModel"]
      [ field "parameter_set_id" "int" true
          [("ge", AInt 0); ("le", AInt 65535);
           ("alias", AStr "ParameterSetID")];
        field "parameter" "List[Parameter]" true
          [("max_items", AInt 16); ("alias", AStr "Parameter")] ];
    model "ServiceParameterList" ["BaseModel"]
      [ field "parameter_set" "List[ParameterSet]" true
          [("max_items", AInt 255); ("alias", AStr "ParameterSet")] ];
    model "SelectedService" ["BaseModel"]
      [ field "service_id" "int" true
          [("ge", AInt 0); ("le", AInt 65535); ("alias", AStr "ServiceID")];
        field "parameter_set_id" "int" false
          [("ge", AInt 0); ("le", AInt 65535);
           ("alias", AStr "ParameterSetID")] ];
    model "SelectedServiceList" ["BaseModel"]
      [ field "selected_service" "List[SelectedService]" true
          [("max_items", AInt 16); ("alias", AStr "SelectedService")] ];
    model "Cost" ["BaseModel"]
      [ field "cost_kind" "CostKind" true
          [("alias", AStr "costKind")];
        field "amount" "int" true
          [("alias", AStr "amount")];
        field "amount_multiplier" "int" false
          [("ge", AInt (-3)); ("le", AInt 3);
           ("alias", AStr "amountMultiplier")] ];
    model "ConsumptionCost" ["BaseModel"]
      [ field "start_value" "PVStartValue" true
          [("alias", AStr "startValue")];
        field "cost" "List[Cost]" true
          [("max_items", AInt 3); ("alias", AStr "Cost")] ];
    model "RelativeTimeInterval" ["BaseModel"]
      [ field "start" "int" true
          [("ge", AInt 0); ("le", AInt 16777214); ("alias", AStr "start")];
        field "duration" "int" false
          [("ge", AInt 0); ("le", AInt 86400); ("alias", AStr "duration")] ];
    model "PMaxScheduleEntryDetails" ["BaseModel"]
      [ field "p_max" "int" true
          [("ge", AInt 0); ("le", AInt 255); ("alias", AStr "PMax")];
        field "time_interval" "RelativeTimeInterval" true
          [("alias", AStr "RelativeTimeInterval")] ];
    model "PMaxScheduleEntry" ["BaseModel"]
      [ field "p_max_schedule_id" "int" true
          [("ge", AInt 0); ("le", AInt 255); ("alias", AStr "PMaxScheduleID")];
        field "entry_details" "List[PMaxScheduleEntryDetails]" true
          [("max_items", AInt 1024); ("alias", AStr "PMaxScheduleEntry")] ];
    model "SalesTariffEntry" ["BaseModel"] [];
    model "SalesTariff" ["BaseModel"] [];
    model "SAScheduleTupleEntry" ["BaseModel"]
      [ field "sa_schedule_tuple_id" "int" true
          [("ge", AInt 1); ("le", AInt 255);
           ("alias", AStr "SAScheduleTupleID")];
        field "p_max_schedule" "PMaxScheduleEntry" true
          [("alias", AStr "PMaxSchedule")];
        field "sales_tariff" "SalesTariff" false
          [("alias", AStr "SalesTariff")] ];
    model "SAScheduleList" ["BaseModel"]
      [ field "values" "List[SAScheduleTupleEntry]" true
          [("max_items", AInt 3); ("alias", AStr "SAScheduleTuple")] ];
    model "ProfileEntryDetails" ["BaseModel"]
      [ field "start" "int" true
          [("alias", AStr "ChargingProfileEntryStart")];
        field "max_power" "int" true
          [("ge", AInt 1); ("le", AInt 255);
           ("alias", AStr "ChargingProfileMaxPower")] ];
    model "ChargingProfile" ["BaseModel"]
      [ field "sa_schedule_tuple_id" "int" true
          [("ge", AInt 0); ("le", AInt 65535);
           ("alias", AStr "SAScheduleTupleID")];
        field "profile_entries" "List[ProfileEntryDetails]" true
          [("max_items", AInt 24); ("alias", AStr "ProfileEntry")] ];
    model "DCEVStatus" ["BaseModel"]
      [ field "ev_ready" "bool" true
          [("alias", AStr "EVReady")];
        field "ev_cabin_conditioning" "bool" false
          [("alias", AStr "EVCabinConditioning")];
        field "ev_ress_conditioning" "bool" false
          [("alias", AStr "EVRESSConditioning")];
        field "ev_error_code" "DCEVErrorCode" true
          [("alias", AStr "EVErrorCode")];
        field "ev_ress_soc" "int" true
          [("ge", AInt 0); ("le", AInt 100); ("alias", AStr "EVRESSSOC")] ];
    model "DCEVChargeParameter" ["EVChargeParameter"]
      [ field "dc_ev_status" "DCEVStatus" true
          [("alias", AStr "DC_EVStatus")];
        field "ev_maximum_current_limit" "PVEVMaxCurrentLimit" true
          [("alias", AStr "EVMaximumCurrentLimit")];
        field "ev_maximum_power_limit" "PVEVMaxPowerLimit" false
          [("alias", AStr "EVMaximumPowerLimit")];
        field "ev_maximum_voltage_limit" "PVEVMaxVoltageLimit" true
          [("alias", AStr "EVMaximumVoltageLimit")];
        field "ev_energy_capacity" "PVEVEnergyCapacity" false
          [("alias", AStr "EVEnergyCapacity")];
        field "ev_energy_request" "PVEVEnergyRequest" false
          [("alias", AStr "EVEnergyRequest")];
        field "full_soc" "int" false
          [("ge", AInt 0); ("le", AInt 100); ("alias", AStr "FullSOC")];
        field "bulk_soc" "int" false
          [("ge", AInt 0); ("le", AInt 100); ("alias", AStr "BulkSOC")] ];
    model "DCEVPowerDeliveryParameter" ["BaseModel"]
      [ field "dc_ev_status" "DCEVStatus" true
          [("alias", AStr "DC_EVStatus")];
        field "bulk_charging_complete" "bool" false
          [("alis", AStr "BulkChargingComplete")];
        field "charging_complete" "bool" true
          [("alias", AStr "ChargingComplete")] ];
    model "AuthOptionList" ["BaseModel"]
      [ field "auth_options" "List[PaymentOption]" true
          [("min_items", AInt 1); ("max_items", AInt 2);
           ("alias", AStr "PaymentOption")] ];
    model "Notification" ["BaseModel"]
      [ field "fault_code" "FaultCode" true
          [("alias", AStr "FaultCode")];
        field "fault_msg" "str" false
          [("max_length", AInt 64); ("alias", AStr "FaultMsg")] ] ].

(** The fields of a class of the module, inherited ones included. *)
Definition fields_of (c : string) : list FieldInfo :=
  all_fields models (List.length models) c.

(** [Notification.__str__]: the fault code, a [str] by its mixin, followed
    by the fault message in parentheses when there is one that is not
    empty. *)
Definition Notification_str (fault_code : Enum.member string)
    (fault_msg : option string) : string :=
  let additional_info :=
    match fault_msg with
    | Some msg => if msg == "" then "" else " (" ++ msg ++ ")"
    | None => ""
    end in
  Enum.value fault_code ++ additional_info.

(** [timeouts.py]: [class Timeouts(float, Enum)], in seconds.  Every value
    of the class body goes through [float]; a value is kept as the decimal
    it is written as, [decimal m e] standing for [m / 10 ^ e] ([1.5] is
    [decimal 15 1], [2] is [decimal 2 0]).  The values are few and far
    apart, so [==] of the floats is equality of the decimals. *)
Module Timeouts.

Record Seconds := decimal { mantissa : Z; exponent : nat }.

Definition float_eqb (x y : Seconds) : bool :=
  x.(mantissa) * 10 ^ Z.of_nat y.(exponent)
  =? y.(mantissa) * 10 ^ Z.of_nat x.(exponent).

Definition definitions : Enum.t Seconds :=
  [ ("V2G_SECC_READYTOCHARGE_PERFORMANCE_TIME", decimal 148 0);
    ("V2G_EVCC_READYTOCHARGE_TIMEOUT", decimal 150 0);
    ("V2G_SECC_COMMUNICATIONSETUP_PERFORMANCE_TIME", decimal 18 0);
    ("V2G_EVCC_COMMUNICATIONSETUP_TIMEOUT", decimal 20 0);
    ("V2G_SECC_CABLE_CHECK_PERFORMANCE_TIME", decimal 38 0);
    ("V2G_EVCC_CABLE_CHECK_TIMEOUT", decimal 40 0);
    ("V2G_SECC_PRE_CHARGE_PERFORMANCE_TIME", decimal 5 0);
    ("V2G_EVCC_PRE_CHARGE_TIMEOUT", decimal 7 0);
    ("V2G_SECC_CPState_Detection_Timeout", decimal 15 1);
    ("V2G_SECC_CPOscillator_Retain_time", decimal 15 1);
    ("SUPPORTED_APP_PROTOCOL_REQ", decimal 2 0);
    ("SESSION_SETUP_REQ", decimal 2 0);
    ("SERVICE_DISCOVERY_REQ", decimal 2 0);
    ("SERVICE_PAYMENT_SELECTION_REQ", decimal 2 0);
    ("CONTRACT_AUTHENTICATION_REQ", decimal 2 0);
    ("CHARGE_PARAMETER_DISCOVERY_REQ", decimal 2 0);
    ("POWER_DELIVERY_REQ", decimal 2 0);
    ("CABLE_CHECK_REQ", decimal 2 0);
    ("PRE_CHARGE_REQ", decimal 2 0);
    ("CURRENT_DEMAND_REQ", decimal 25 2);
    ("WELDING_DETECTION_REQ", decimal 2 0);
    ("SESSION_STOP_REQ", decimal 2 0);
    ("SUPPORTED_APP_PROTOCOL_RES", decimal 15 1);
    ("SESSION_SETUP_RES", decimal 15 1);
    ("SERVICE_DISCOVERY_RES", decimal 15 1);
    ("SERVICE_PAYMENT_SELECTION_RES", decimal 15 1);
    ("CONTRACT_AUTHENTICATION_RES", decimal 15 1);
    ("CHARGE_PARAMETER_DISCOVERY_RES", decimal 15 1);
    ("POWER_DELIVERY_RES", decimal 15 1);
    ("CABLE_CHECK_RES", decimal 15 1);
    ("PRE_CHARGE_RES", decimal 15 1);
    ("CURRENT_DEMAND_RES", decimal 25 3);
    ("WELDING_DETECTION_RES", decimal 15 1);
    ("SESSION_STOP_RES", decimal 15 1);
    ("V2G_SECC_SEQUENCE_TIMEOUT", decimal 60 0);
    ("V2G_EVCC_SEQUENCE_PERFORMANCE_TIME", decimal 59 0) ].

Definition by_name : string -> option (Enum.member Seconds) :=
  Enum.by_name float_eqb definitions.
Definition by_value : Seconds -> option (Enum.member Seconds) :=
  Enum.by_value float_eqb definitions.
Definition members : list (Enum.member Seconds) :=
  Enum.members float_eqb definitions.
End Timeouts.

End DinSpec.

Module RegistryAgainstDinSpec.
Import FailedResponses.

(** *** The DIN SPEC 70121 registry against the declarations it uses

    What the constructor of a model of [din_spec/datatypes.py] is given in
    [failed_responses.py], checked against the declaration of the model:
    every keyword is a declared field, every required field is given, an
    integer is within the [ge] and [le] of its field, a list within its
    [min_items] and [max_items]; and a member of an enumeration of that
    module is one the enumeration defines. *)

(** The integer a value stands for: an [int], or a member of an [IntEnum]
    of the module. *)
Definition int_of (v : Value) : option Z :=
  match v with
  | VInt n => Some n
  | VMember enum member =>
      if enum.1 == DinSpec.module then
        defs ← snd <$> List.find (fun E => E.1 == enum.2) DinSpec.int_enums;
        Enum.value <$> Enum.by_name Z.eqb defs member
      else None
  | _ => None
  end.

Definition at_least (limit : option Z) (n : Z) : bool :=
  match limit with
  | Some l => l <=? n
  | None => true
  end.

Definition at_most (limit : option Z) (n : Z) : bool :=
  match limit with
  | Some l => n <=? l
  | None => true
  end.

(** The constraints of a field on the value it is given. *)
Definition within (f : Pydantic.FieldInfo) (v : Value) : bool :=
  match int_of v with
  | Some n => at_least (Pydantic.bound "ge" f) n && at_most (Pydantic.bound "le" f) n
  | None => true
  end
  && match v with
     | VList l =>
         let n := Z.of_nat (List.length l) in
         at_least (Pydantic.bound "min_items" f) n
         && at_most (Pydantic.bound "max_items" f) n
     | _ => true
     end.

(** [E.MEMBER] for an enumeration of the module: the member is defined. *)
Definition member_defined (enum : Class) (member : string) : bool :=
  if enum.1 == DinSpec.module then
    match List.find (fun E => E.1 == enum.2) DinSpec.int_enums,
          List.find (fun E => E.1 == enum.2) DinSpec.str_enums with
    | Some E, _ => bool_decide (is_Some (Enum.by_name Z.eqb E.2 member))
    | None, Some E => bool_decide (is_Some (Enum.by_name String.eqb E.2 member))
    | None, None => false
    end
  else true.

(** [C(k1=v1, ..., kn=vn)] for a model of the module. *)
Definition object_declared (cls : Class) (given : list (string * Value)) : bool :=
  if cls.1 == DinSpec.module then
    let declared := DinSpec.fields_of cls.2 in
    bool_decide (cls.2 ∈ Pydantic.cls <$> DinSpec.models)
    && forallb
         (fun kv =>
            match List.find (fun f => f.(Pydantic.name) == kv.1) declared with
            | Some f => within f kv.2
            | None => false
            end)
         given
    && forallb
         (fun f => implb f.(Pydantic.required)
                     (f.(Pydantic.name) in? given.*1))
         declared
  else true.

Fixpoint conforms (v : Value) : bool :=
  match v with
  | VMember enum member => member_defined enum member
  | VList l | VTuple l => forallb conforms l
  | VObject cls given =>
      object_declared cls given && forallb (fun kv => conforms kv.2) given
  | _ => true
  end.

(** The classes and enumerations of the module that a value mentions. *)
Fixpoint mentions (v : Value) : list string :=
  match v with
  | VMember enum _ => if enum.1 == DinSpec.module then [enum.2] else []
  | VList l | VTuple l => List.flat_map mentions l
  | VObject cls given =>
      ((if cls.1 == DinSpec.module then [cls.2] else [])
       ++ List.flat_map (fun kv => mentions kv.2) given)%list
  | _ => []
  end.
End RegistryAgainstDinSpec.

(** ** Reading an outcome *)

(** The session context and output slot as [process_message] left them. *)
Definition engine_of (o : Outcome) : option Engine.t :=
  match o with
  | Return _ e | Raise _ _ e => Some e
  | OutOfFuel => None
  end.

Definition session_of (o : Outcome) : option Session.t :=
  Engine.comm_session <$> engine_of o.

(** The content of the output slot, if it was filled. *)
Definition output_of (o : Outcome) : option Output.t :=
  engine_of o ≫= Engine.output.

(** The response code of the queued response. *)
Definition response_code_of (o : Outcome) : option ResponseCode.t :=
  (fun out => response_code out.(Output.payload)) <$> output_of o.

(** The successor state named in the output slot ([None]: remain). *)
Definition next_state_of (o : Outcome) : option NextState :=
  output_of o ≫= Output.next_state.

(** The exception that left [process_message], if any. *)
Definition raised (o : Outcome) : option Py.Exception :=
  match o with
  | Raise exc _ _ => Some exc
  | _ => None
  end.

(** [process_message], called on the state instance [self] with the engine
    in [e], aborted the session with [code]: it returned after
    [stop_state_machine] and changed nothing else. *)
Definition aborted (self : StateSECC.t) (e : Engine.t) (message : Message)
    (code : ResponseCode.t) (o : Outcome) : Prop :=
  exists reason,
    o = Return self (StateSECC.stop_state_machine e reason message code).

(** The schedule tuple id [id] is that of one of the offered schedules. *)
Definition offered_tariff (cs : Session.t) (id : Z) : Prop :=
  exists schedule,
    schedule ∈ cs.(Session.offered_schedules)
    /\ schedule.(SAScheduleTuple.sa_schedule_tuple_id) = id.

(** The meter reading last sent to the EV, if any. *)
Definition last_sent_reading (cs : Session.t) : option Z :=
  cs.(Session.sent_meter_info) ≫= MeterInfo.meter_reading.

(** The service with id [id] is among the offered value-added services. *)
Definition offered_service (cs : Session.t) (id : Z) : Prop :=
  exists service,
    service ∈ cs.(Session.offered_services)
    /\ service.(ServiceDetails.service_id) = id.

(** The ids of the selected services. *)
Definition selected_ids (req : PaymentServiceSelectionReq.t) : list Z :=
  SelectedService.service_id
  <$> req.(PaymentServiceSelectionReq.selected_service_list)
         .(SelectedServiceList.selected_service).

(** An ISO 15118-2 message with the given header and body. *)
Definition v2g_message (header : MessageHeader.t) (body : Body) : Message :=
  MessageV2 (V2GMessageV2.mk header body).

(** ** Further observations of an outcome and of a request *)

(** The state instance as [process_message] left it. *)
Definition self_of (o : Outcome) : option StateSECC.t :=
  match o with
  | Return self _ | Raise _ self _ => Some self
  | OutOfFuel => None
  end.

(** The queued response and the signature queued with it. *)
Definition payload_of (o : Outcome) : option Response :=
  Output.payload <$> output_of o.

Definition signature_of (o : Outcome) : option (option Signature.t) :=
  Output.signature <$> output_of o.

(** The stop reason of the session after the call. *)
Definition stop_reason_of (o : Outcome) : option (option StopNotification.t) :=
  Session.stop_reason <$> session_of o.

(** The states whose [process_message] is a [raise]. *)
Definition stub_states : list State :=
  [CableCheck; PreCharge; CurrentDemand; WeldingDetection].

(** The request a response record answers: [XRes] answers [XReq]. *)
Definition answered_request (r : Response) : MessageType :=
  match r with
  | session_setup_res _ => type_V2 cls_SessionSetupReq
  | service_discovery_res _ => type_V2 cls_ServiceDiscoveryReq
  | service_detail_res _ => type_V2 cls_ServiceDetailReq
  | payment_service_selection_res _ => type_V2 cls_PaymentServiceSelectionReq
  | certificate_installation_res _ => type_V2 cls_CertificateInstallationReq
  | payment_details_res _ => type_V2 cls_PaymentDetailsReq
  | authorization_res _ => type_V2 cls_AuthorizationReq
  | charge_parameter_discovery_res _ => type_V2 cls_ChargeParameterDiscoveryReq
  | power_delivery_res _ => type_V2 cls_PowerDeliveryReq
  | charging_status_res _ => type_V2 cls_ChargingStatusReq
  | metering_receipt_res _ => type_V2 cls_MeteringReceiptReq
  | session_stop_res _ => type_V2 cls_SessionStopReq
  | failed_response faulty _ => faulty
  end.

(** The next states that the answer to a request of the given type can
    name, [None] standing for remaining in the current state; an abort names
    [Terminate] whatever the request. *)
Definition successors (t : BodyBase) : list (option NextState) :=
  match t with
  | cls_SessionSetupReq => [Some (Next ServiceDiscovery)]
  | cls_ServiceDiscoveryReq | cls_ServiceDetailReq
  | cls_PaymentServiceSelectionReq | cls_ChargingStatusReq
  | cls_MeteringReceiptReq => [None]
  | cls_CertificateInstallationReq => [Some (Next PaymentDetails)]
  | cls_PaymentDetailsReq => [Some (Next Authorization)]
  | cls_AuthorizationReq =>
      [Some (Next ChargeParameterDiscovery); Some (Next Authorization)]
  | cls_ChargeParameterDiscoveryReq => [Some (Next PowerDelivery); None]
  | cls_PowerDeliveryReq =>
      [Some (Next ChargingStatus); Some (Next SessionStop);
       Some (Next ChargeParameterDiscovery)]
  | cls_SessionStopReq => []
  | cls_CertificateUpdateReq | cls_CableCheckReq | cls_PreChargeReq
  | cls_CurrentDemandReq | cls_WeldingDetectionReq => []
  end.

(** The session attributes that no state of this module assigns. *)
Definition settings_of (cs : Session.t)
  : bool * Config.t * EVSEController.t * string :=
  (cs.(Session.is_tls), cs.(Session.config), cs.(Session.evse_controller),
   cs.(Session.peername)).

(** The identity of the session: what SessionSetup assigns. *)
Definition identity_of (cs : Session.t) : string * option string :=
  (cs.(Session.session_id), cs.(Session.evcc_id)).

(** The departure time a ChargeParameterDiscoveryReq announces: that of its
    AC parameters if it has them, else that of its DC parameters. *)
Definition departure_time_of (req : ChargeParameterDiscoveryReq.t) : option Z :=
  match req.(ChargeParameterDiscoveryReq.ac_ev_charge_parameter),
        req.(ChargeParameterDiscoveryReq.dc_ev_charge_parameter) with
  | Some ac, _ => ac.(ACEVChargeParameter.departure_time)
  | None, Some dc => dc.(DCEVChargeParameter.departure_time)
  | None, None => None
  end.

(** The schedules the EVSE controller offers for a request. *)
Definition schedules_for (cs : Session.t) (req : ChargeParameterDiscoveryReq.t)
  : list SAScheduleTuple.t :=
  cs.(Session.evse_controller).(EVSEController.get_sa_schedule_list)
    req.(ChargeParameterDiscoveryReq.max_entries_sa_schedule_tuple)
    (default 0 (departure_time_of req)).

(** A request that names a supported energy-transfer mode and carries AC or
    DC parameters. *)
Definition well_formed (cs : Session.t) (req : ChargeParameterDiscoveryReq.t)
  : Prop :=
  req.(ChargeParameterDiscoveryReq.requested_energy_mode)
    ∈ cs.(Session.evse_controller).(EVSEController.get_supported_energy_transfer_modes)
  /\ (is_Some req.(ChargeParameterDiscoveryReq.ac_ev_charge_parameter)
      \/ is_Some req.(ChargeParameterDiscoveryReq.dc_ev_charge_parameter)).

(** ** Concrete sessions for the examples *)

Module Sample.

Definition externals : Externals.t :=
  {| Externals.PrivateKey := unit;
     Externals.get_random_bytes := fun n => replicate n xf9;
     Externals.time := 1650000000;
     Externals.load_cert := fun _ => [x30];
     Externals.load_priv_key := fun _ _ => inr tt;
     Externals.verify_signature := fun _ _ _ _ _ => true;
     Externals.verify_certs := fun _ _ _ => None;
     Externals.encrypt_priv_key := fun _ _ => inr ([x04], [x01]);
     Externals.create_signature := fun elements _ => Signature.mk elements [x01];
     Externals.get_cert_cn := fun _ => "UKSWI123456789A";
     Externals.to_exi := fun _ _ => [x01] |}.

Definition ac_evse_status : ACEVSEStatus.t :=
  {| ACEVSEStatus.notification_max_delay := 0;
     ACEVSEStatus.evse_notification := NONE;
     ACEVSEStatus.rcd := false |}.

Definition dc_evse_status : DCEVSEStatus.t :=
  {| DCEVSEStatus.notification_max_delay := 0;
     DCEVSEStatus.evse_notification := NONE;
     DCEVSEStatus.evse_isolation_status := Some VALID;
     DCEVSEStatus.evse_status_code := EVSE_READY |}.

Definition pv (value : Z) (unit : UnitSymbol) : PhysicalValue.t :=
  PhysicalValue.mk 0 value unit.

Definition schedule (id : Z) : SAScheduleTuple.t :=
  {| SAScheduleTuple.sa_schedule_tuple_id := id;
     SAScheduleTuple.p_max_schedule := [PMaxScheduleEntry.mk (pv 11000 WATT) 0 (Some 3600)];
     SAScheduleTuple.sales_tariff := None |}.

Definition evse_controller : EVSEController.t :=
  {| EVSEController.get_evse_id := "UK123E1234";
     EVSEController.get_supported_energy_transfer_modes := [DC_EXTENDED];
     EVSEController.get_ac_evse_charge_parameter :=
       ACEVSEChargeParameter.mk ac_evse_status (pv 400 VOLTAGE) (pv 32 AMPERE);
     EVSEController.get_dc_evse_charge_parameter :=
       DCEVSEChargeParameter.mk dc_evse_status (pv 300 AMPERE) (pv 150000 WATT)
         (pv 600 VOLTAGE) (pv 0 AMPERE) (pv 0 VOLTAGE) None (pv 0 AMPERE) None;
     EVSEController.get_ac_evse_status := ac_evse_status;
     EVSEController.get_dc_evse_status := dc_evse_status;
     EVSEController.get_sa_schedule_list := fun _ _ => [schedule 1];
     EVSEController.is_authorised := true |}.

Definition config : Config.t :=
  {| Config.supported_auth_options := [EIM; PNC];
     Config.free_charging_service := false;
     Config.allow_cert_install_service := true;
     Config.free_cert_install_service := true |}.

(** A session right after the connection was accepted. *)
Definition comm_session : Session.t :=
  {| Session.session_id := "";
     Session.evcc_id := None;
     Session.is_tls := false;
     Session.config := config;
     Session.evse_controller := evse_controller;
     Session.offered_auth_options := [];
     Session.selected_auth_option := None;
     Session.offered_services := [];
     Session.offered_schedules := [];
     Session.selected_energy_mode := None;
     Session.selected_schedule := None;
     Session.contract_cert_chain := None;
     Session.charge_progress_started := false;
     Session.sent_meter_info := None;
     Session.stop_reason := None;
     Session.peername := "fe80::1" |}.

Definition engine (cs : Session.t) : Engine.t := Engine.mk cs None.

Definition header (session_id : string) : MessageHeader.t :=
  MessageHeader.mk session_id None.

Definition contract_cert_chain : CertificateChain.t :=
  {| CertificateChain.id := None;
     CertificateChain.certificate := [x30];
     CertificateChain.sub_certificates := Some (SubCertificates.mk [[x30]]) |}.

Definition meter_info (reading : option Z) : MeterInfo.t :=
  {| MeterInfo.meter_id := "meter";
     MeterInfo.meter_reading := reading;
     MeterInfo.sig_meter_reading := None;
     MeterInfo.meter_status := None;
     MeterInfo.t_meter := None |}.

End Sample.

(** * Properties *)

(** ** Proof steps shared by the properties *)

(** Case split on the innermost scrutinee of the goal. *)
Ltac split_match :=
  match goal with
  | |- context [match ?x with _ => _ end] =>
      lazymatch x with
      | context [match _ with _ => _ end] => fail
      | _ => destruct x eqn:?
      end
  end.

(** Decide the membership tests between closed terms (the message type
    against the expected types of a state). *)
Ltac eval_in :=
  repeat match goal with
  | |- context [bool_decide (?x ∈ ?l)] =>
      let b := eval vm_compute in (bool_decide (x ∈ l)) in
      match b with
      | true => change (bool_decide (x ∈ l)) with true
      | false => change (bool_decide (x ∈ l)) with false
      end
  end.

(** Unfold [process_message] of a known state on a known kind of message, up
    to and including the check of the message type. *)
Ltac unfold_states :=
  cbn [process_message];
  unfold SessionSetup.process_message, ServiceDiscovery.process_message,
    ServiceDetail.process_message, PaymentServiceSelection.process_message,
    CertificateInstallation.process_message, PaymentDetails.process_message,
    Authorization.process_message, ChargeParameterDiscovery.process_message,
    PowerDelivery.process_message, MeteringReceipt.process_message,
    ChargingStatus.process_message, SessionStop.process_message,
    CableCheck.process_message, PreCharge.process_message,
    CurrentDemand.process_message, WeldingDetection.process_message,
    hand_over, v2g_message, StateSECC.check_msg_v2;
  cbn [V2GMessageV2.body V2GMessageV2.header get_message_type take
       StateSECC.expecting StateSECC.init];
  eval_in;
  cbn beta iota zeta delta [V2GMessageV2.body V2GMessageV2.header].

(** ** The built-ins on small inputs *)

Example hex_of_zero_bytes :
  Py.hex (Py.bytes 1) = "00" /\ Py.hex (Py.bytes 8) = "0000000000000000".
Proof. by split. Qed.

Example upper_of_hex : Py.upper (Py.hex [xf9; xee; x85; x05]) = "F9EE8505".
Proof. reflexivity. Qed.

Example str_int_examples :
  Py.str_int 0 = "0" /\ Py.str_int 255 = "255" /\ Py.str_int (-7) = "-7".
Proof. by repeat split. Qed.

Example truthy_int_examples :
  Py.truthy_int None = false /\ Py.truthy_int (Some 0) = false
  /\ Py.truthy_int (Some 5) = true.
Proof. by repeat split. Qed.

Example failed_codes :
  ResponseCode.is_failed ResponseCode.FAILED_TARIFF_SELECTION_INVALID = true
  /\ ResponseCode.is_failed ResponseCode.OK_OLD_SESSION_JOINED = false.
Proof. by split. Qed.

(** ** Nested calls are bounded *)

(** No chain of hand-overs is longer than one: a depth of two gives every
    call its result, and more changes nothing. *)
Lemma process_message_fuel (fuel : nat) (X : Externals.t) (state : State)
    (self : StateSECC.t) (e : Engine.t) (message : Message) :
  process_message (S (S fuel)) X state self e message
  = process_message 2 X state self e message.
Proof.
  destruct message as [| | [header body] |]; destruct state;
    destruct self as [[] rc]; try reflexivity;
    destruct body; reflexivity.
Qed.

(** With that depth [process_message] returns or raises on every state,
    state instance, session and message. *)
Lemma process_message_total (X : Externals.t) (state : State)
    (self : StateSECC.t) (e : Engine.t) (message : Message) :
  is_Some (engine_of (process_message 2 X state self e message)).
Proof.
  destruct message as [| | [header body] |]; destruct state;
    destruct self as [[] rc]; try (eexists; reflexivity);
    destruct body; try (eexists; reflexivity).
  all: unfold_states; try unfold_states.
  all: repeat first [ solve [eexists; reflexivity] | split_match; cbn [engine_of] ].
Qed.

(** What an abort leaves behind: the failed response with the given code,
    [Terminate] as next state, and a session changed in its stop reason
    only. *)
Lemma aborted_inv (self : StateSECC.t) (e : Engine.t) (message : Message)
    (code : ResponseCode.t) (o : Outcome) :
  aborted self e message code o ->
  response_code_of o = Some code
  /\ next_state_of o = Some Terminate
  /\ raised o = None
  /\ exists reason,
       session_of o
       = Some (Session.set_stop_reason
                 (Some (StopNotification.mk false reason
                          e.(Engine.comm_session).(Session.peername)))
                 e.(Engine.comm_session)).
Proof.
  intros [reason ->]. repeat split. by exists reason.
Qed.

(** ** Session identity (SessionSetup) *)

(** C1, as the code has it: for every SessionSetupReq, the state answers
    without raising and names ServiceDiscovery as next state; when the
    header carries the one-byte zero id ["00"] the response code is
    OK_NewSessionEstablished and a freshly generated id is stored; when it
    carries any other id equal to the current id of the session the response
    code is OK_OldSessionJoined and the stored id is kept; for every other id
    a freshly generated id is stored and the response code is
    OK_NewSessionEstablished. *)
Theorem SessionSetup_session_id (fuel : nat) (X : Externals.t)
    (self : StateSECC.t) (e : Engine.t) (header : MessageHeader.t)
    (req : SessionSetupReq.t) :
  let current := e.(Engine.comm_session).(Session.session_id) in
  let received := header.(MessageHeader.session_id) in
  let fresh := Py.upper (Py.hex (X.(Externals.get_random_bytes) 8)) in
  let o := process_message (S fuel) X SessionSetup self e
             (v2g_message header (session_setup_req req)) in
  raised o = None
  /\ next_state_of o = Some (Next ServiceDiscovery)
  /\ (received = "00" ->
      response_code_of o = Some ResponseCode.OK_NEW_SESSION_ESTABLISHED
      /\ Session.session_id <$> session_of o = Some fresh)
  /\ (received <> "00" -> received = current ->
      response_code_of o = Some ResponseCode.OK_OLD_SESSION_JOINED
      /\ Session.session_id <$> session_of o = Some current)
  /\ (received <> "00" -> received <> current ->
      response_code_of o = Some ResponseCode.OK_NEW_SESSION_ESTABLISHED
      /\ Session.session_id <$> session_of o = Some fresh).
Proof.
  intros current received fresh o. subst o. unfold_states.
  change (Py.hex (Py.bytes 1)) with "00".
  fold received current fresh.
  destruct (decide (received = "00")) as [Hz | Hz].
  - rewrite (bool_decide_eq_true_2 _ Hz). cbn. by repeat split.
  - rewrite (bool_decide_eq_false_2 _ Hz).
    destruct (decide (received = current)) as [Hc | Hc].
    + rewrite (bool_decide_eq_true_2 _ Hc). cbn. by repeat split.
    + rewrite (bool_decide_eq_false_2 _ Hc). cbn. by repeat split.
Qed.

(** The three cases of [SessionSetup_session_id] at a session whose id is
    F9F9EE8505F55838. *)
Lemma SessionSetup_session_id_witness :
  let cs := Session.set_session_id "F9F9EE8505F55838" Sample.comm_session in
  let run id :=
    process_message 1 Sample.externals SessionSetup StateSECC.init
      (Sample.engine cs)
      (v2g_message (Sample.header id)
         (session_setup_req (SessionSetupReq.mk "0A1B2C3D4E5F"))) in
  (response_code_of (run "00") = Some ResponseCode.OK_NEW_SESSION_ESTABLISHED
   /\ Session.session_id <$> session_of (run "00") = Some "F9F9F9F9F9F9F9F9")
  /\ (response_code_of (run "F9F9EE8505F55838")
      = Some ResponseCode.OK_OLD_SESSION_JOINED
      /\ Session.session_id <$> session_of (run "F9F9EE8505F55838")
         = Some "F9F9EE8505F55838")
  /\ (response_code_of (run "0102030405060708")
      = Some ResponseCode.OK_NEW_SESSION_ESTABLISHED
      /\ Session.session_id <$> session_of (run "0102030405060708")
         = Some "F9F9F9F9F9F9F9F9").
Proof.
  intros cs run.
  pose proof (fun id =>
    SessionSetup_session_id 0 Sample.externals StateSECC.init
      (Sample.engine cs) (Sample.header id)
      (SessionSetupReq.mk "0A1B2C3D4E5F")) as H.
  cbn zeta in H.
  split; [|split].
  - destruct (H "00") as (_ & _ & H1 & _). by apply H1.
  - destruct (H "F9F9EE8505F55838") as (_ & _ & _ & H2 & _). by apply H2.
  - destruct (H "0102030405060708") as (_ & _ & _ & _ & H3). by apply H3.
Defined.

(** C1 fails as stated: the 8-byte all-zero id is not what the state
    compares with (that is the one-byte ["00"]); when the session's current
    id is itself all zero, a request with the 8-byte all-zero id joins the
    old session, and no fresh id is stored. *)
Lemma SessionSetup_zero_id_joins_old_session :
  let zero8 := Py.hex (Py.bytes 8) in
  let cs := Session.set_session_id zero8 Sample.comm_session in
  let o :=
    process_message 1 Sample.externals SessionSetup StateSECC.init
      (Sample.engine cs)
      (v2g_message (Sample.header zero8)
         (session_setup_req (SessionSetupReq.mk "0A1B2C3D4E5F"))) in
  zero8 = "0000000000000000"
  /\ response_code_of o = Some ResponseCode.OK_OLD_SESSION_JOINED
  /\ Session.session_id <$> session_of o = Some zero8
  /\ Py.upper (Py.hex (Sample.externals.(Externals.get_random_bytes) 8))
     = "F9F9F9F9F9F9F9F9".
Proof. vm_compute. repeat split. Qed.

(** ** Energy-transfer mode (ChargeParameterDiscovery) *)

(** C4: for every ChargeParameterDiscoveryReq handled by
    ChargeParameterDiscovery: when the requested energy-transfer mode is not
    among the modes the EVSE controller supports, the session is aborted with
    FAILED_WrongEnergyTransferMode and the selected energy mode of the
    session stays as it was; when it is among them, the selected energy mode
    of the session becomes the requested mode. *)
Theorem ChargeParameterDiscovery_energy_mode (fuel : nat) (X : Externals.t)
    (self : StateSECC.t) (e : Engine.t) (header : MessageHeader.t)
    (req : ChargeParameterDiscoveryReq.t) :
  let cs := e.(Engine.comm_session) in
  let message := v2g_message header (charge_parameter_discovery_req req) in
  let requested := req.(ChargeParameterDiscoveryReq.requested_energy_mode) in
  let supported :=
    cs.(Session.evse_controller).(EVSEController.get_supported_energy_transfer_modes) in
  let o := process_message (S fuel) X ChargeParameterDiscovery self e message in
  (requested ∉ supported ->
   aborted self e message ResponseCode.FAILED_WRONG_ENERGY_TRANSFER_MODE o
   /\ Session.selected_energy_mode <$> session_of o
      = Some cs.(Session.selected_energy_mode))
  /\ (requested ∈ supported ->
      Session.selected_energy_mode <$> session_of o = Some (Some requested)).
Proof.
  intros cs message requested supported o. subst o message.
  destruct self as [[] rc]; unfold_states; fold cs requested supported.
  all: split; intros Hin.
  all: try (rewrite (bool_decide_eq_false_2 _ Hin); cbn; split; [by eexists | done]).
  all: rewrite (bool_decide_eq_true_2 _ Hin); cbn.
  all: repeat (split_match; cbn); done.
Qed.

(** [ChargeParameterDiscovery_energy_mode] where the EVSE supports DC_extended
    only: AC_single_phase_core is refused, DC_extended is selected. *)
Lemma ChargeParameterDiscovery_energy_mode_witness :
  let run mode :=
    process_message 1 Sample.externals ChargeParameterDiscovery StateSECC.init
      (Sample.engine Sample.comm_session)
      (v2g_message (Sample.header "F9F9EE8505F55838")
         (charge_parameter_discovery_req
            (ChargeParameterDiscoveryReq.mk None mode None
               (Some (DCEVChargeParameter.mk None (Sample.pv 200 AMPERE)
                        (Sample.pv 400 VOLTAGE)))))) in
  response_code_of (run AC_SINGLE_PHASE_CORE)
  = Some ResponseCode.FAILED_WRONG_ENERGY_TRANSFER_MODE
  /\ Session.selected_energy_mode <$> session_of (run AC_SINGLE_PHASE_CORE)
     = Some None
  /\ Session.selected_energy_mode <$> session_of (run DC_EXTENDED)
     = Some (Some DC_EXTENDED).
Proof.
  intros run.
  pose proof (fun mode =>
    ChargeParameterDiscovery_energy_mode 0 Sample.externals StateSECC.init
      (Sample.engine Sample.comm_session) (Sample.header "F9F9EE8505F55838")
      (ChargeParameterDiscoveryReq.mk None mode None
         (Some (DCEVChargeParameter.mk None (Sample.pv 200 AMPERE)
                  (Sample.pv 400 VOLTAGE))))) as H.
  cbn zeta in H.
  destruct (H AC_SINGLE_PHASE_CORE) as [Hno _].
  destruct (H DC_EXTENDED) as [_ Hyes].
  destruct Hno as [Habort Hmode].
  { cbn. intros [Heq | Hnil]%elem_of_cons; [discriminate Heq | by apply elem_of_nil in Hnil]. }
  split; [by apply aborted_inv in Habort as [? _] |].
  split; [exact Hmode |].
  apply Hyes. cbn. by left.
Defined.

(** ** Tariff, charging profile and charge progress (PowerDelivery) *)

Lemma offered_tariff_elem_of (cs : Session.t) (id : Z) :
  id ∈ (SAScheduleTuple.sa_schedule_tuple_id <$> cs.(Session.offered_schedules))
  <-> offered_tariff cs id.
Proof.
  rewrite list_elem_of_fmap. unfold offered_tariff.
  split; intros (s & H1 & H2); exists s; by split.
Qed.

(** C6: for every PowerDeliveryReq handled by PowerDelivery whose schedule
    tuple id is that of none of the offered schedules, the session is aborted
    with FAILED_TariffSelectionInvalid. *)
Theorem PowerDelivery_tariff_not_offered (fuel : nat) (X : Externals.t)
    (self : StateSECC.t) (e : Engine.t) (header : MessageHeader.t)
    (req : PowerDeliveryReq.t) :
  let message := v2g_message header (power_delivery_req req) in
  (forall schedule, schedule ∈ e.(Engine.comm_session).(Session.offered_schedules) ->
     schedule.(SAScheduleTuple.sa_schedule_tuple_id)
     <> req.(PowerDeliveryReq.sa_schedule_tuple_id)) ->
  aborted self e message ResponseCode.FAILED_TARIFF_SELECTION_INVALID
    (process_message (S fuel) X PowerDelivery self e message).
Proof.
  intros message Hnone. subst message.
  assert (~ offered_tariff e.(Engine.comm_session)
              req.(PowerDeliveryReq.sa_schedule_tuple_id)) as Hno.
  { intros (s & Hs & Hid). by apply (Hnone s). }
  rewrite <- offered_tariff_elem_of in Hno.
  destruct self as [[] rc]; unfold_states.
  all: rewrite (bool_decide_eq_false_2 _ Hno); cbn; by eexists.
Qed.

(** [PowerDelivery_tariff_not_offered] where schedule 1 was offered and the
    EV names schedule 2. *)
Lemma PowerDelivery_tariff_not_offered_witness :
  response_code_of
    (process_message 1 Sample.externals PowerDelivery StateSECC.init
       (Sample.engine
          (Session.set_offered_schedules [Sample.schedule 1] Sample.comm_session))
       (v2g_message (Sample.header "F9F9EE8505F55838")
          (power_delivery_req
             (PowerDeliveryReq.mk START 2
                (Some (ChargingProfile.mk
                         [ProfileEntryDetails.mk 0 (Sample.pv 11000 WATT) None]))))))
  = Some ResponseCode.FAILED_TARIFF_SELECTION_INVALID.
Proof.
  eapply aborted_inv.
  apply (PowerDelivery_tariff_not_offered 0 Sample.externals StateSECC.init
           (Sample.engine
              (Session.set_offered_schedules [Sample.schedule 1] Sample.comm_session))).
  cbn. intros schedule [-> | Hnil]%elem_of_cons; [cbn; lia | by apply elem_of_nil in Hnil].
Defined.

(** C5, as the code has it: for every PowerDeliveryReq handled by
    PowerDelivery whose schedule tuple id is that of an offered schedule,
    with charge progress Start and no charging profile, the session is
    aborted with FAILED_ChargingProfileInvalid; the next state is Terminate,
    not ChargingStatus. *)
Theorem PowerDelivery_start_without_profile (fuel : nat) (X : Externals.t)
    (self : StateSECC.t) (e : Engine.t) (header : MessageHeader.t)
    (req : PowerDeliveryReq.t) :
  let message := v2g_message header (power_delivery_req req) in
  let o := process_message (S fuel) X PowerDelivery self e message in
  offered_tariff e.(Engine.comm_session) req.(PowerDeliveryReq.sa_schedule_tuple_id) ->
  req.(PowerDeliveryReq.charge_progress) = START ->
  req.(PowerDeliveryReq.charging_profile) = None ->
  aborted self e message ResponseCode.FAILED_CHARGING_PROFILE_INVALID o
  /\ next_state_of o = Some Terminate.
Proof.
  intros message o Hoffered Hstart Hprofile. subst o message.
  rewrite <- offered_tariff_elem_of in Hoffered.
  destruct self as [[] rc]; unfold_states.
  all: rewrite (bool_decide_eq_true_2 _ Hoffered), Hstart, Hprofile; cbn.
  all: split; [by eexists | done].
Qed.

(** [PowerDelivery_start_without_profile] where schedule 1 was offered and is
    named by the EV. *)
Lemma PowerDelivery_start_without_profile_witness :
  let o :=
    process_message 1 Sample.externals PowerDelivery StateSECC.init
      (Sample.engine
         (Session.set_offered_schedules [Sample.schedule 1] Sample.comm_session))
      (v2g_message (Sample.header "F9F9EE8505F55838")
         (power_delivery_req (PowerDeliveryReq.mk START 1 None))) in
  response_code_of o = Some ResponseCode.FAILED_CHARGING_PROFILE_INVALID
  /\ next_state_of o = Some Terminate.
Proof.
  intros o.
  destruct (PowerDelivery_start_without_profile 0 Sample.externals StateSECC.init
              (Sample.engine
                 (Session.set_offered_schedules [Sample.schedule 1]
                    Sample.comm_session))
              (Sample.header "F9F9EE8505F55838")
              (PowerDeliveryReq.mk START 1 None)) as [Habort Hnext].
  - exists (Sample.schedule 1). split; [by left | reflexivity].
  - reflexivity.
  - reflexivity.
  - split; [by apply aborted_inv in Habort as [? _] | exact Hnext].
Defined.

(** C5 fails as stated: the tariff is checked before the charging profile,
    so a request with charge progress Start and no charging profile that
    names a schedule that was not offered is answered with
    FAILED_TariffSelectionInvalid. *)
Lemma PowerDelivery_start_without_profile_unknown_tariff :
  let req := PowerDeliveryReq.mk START 1 None in
  let o :=
    process_message 1 Sample.externals PowerDelivery StateSECC.init
      (Sample.engine Sample.comm_session)
      (v2g_message (Sample.header "F9F9EE8505F55838") (power_delivery_req req)) in
  Sample.comm_session.(Session.offered_schedules) = []
  /\ req.(PowerDeliveryReq.charge_progress) = START
  /\ req.(PowerDeliveryReq.charging_profile) = None
  /\ response_code_of o = Some ResponseCode.FAILED_TARIFF_SELECTION_INVALID.
Proof. by vm_compute. Qed.

(** C9, as the code has it: for every PowerDeliveryReq with charge progress
    Renegotiate handled by PowerDelivery whose schedule tuple id is that of
    an offered schedule: if the charge progress of the session has started,
    the response is OK and the next state is ChargeParameterDiscovery; if it
    has not, the session is stopped as failed (the stop reason records it)
    and the next state is Terminate. *)
Theorem PowerDelivery_renegotiate (fuel : nat) (X : Externals.t)
    (self : StateSECC.t) (e : Engine.t) (header : MessageHeader.t)
    (req : PowerDeliveryReq.t) :
  let cs := e.(Engine.comm_session) in
  let o := process_message (S fuel) X PowerDelivery self e
             (v2g_message header (power_delivery_req req)) in
  offered_tariff cs req.(PowerDeliveryReq.sa_schedule_tuple_id) ->
  req.(PowerDeliveryReq.charge_progress) = RENEGOTIATE ->
  raised o = None
  /\ (cs.(Session.charge_progress_started) = true ->
      response_code_of o = Some ResponseCode.OK
      /\ next_state_of o = Some (Next ChargeParameterDiscovery)
      /\ session_of o = Some cs)
  /\ (cs.(Session.charge_progress_started) = false ->
      next_state_of o = Some Terminate
      /\ session_of o ≫= Session.stop_reason
         = Some (StopNotification.mk false
                   "EVCC wants to renegotiate, but charge progress has not yet started"
                   cs.(Session.peername))).
Proof.
  intros cs o Hoffered Hprogress. subst o.
  rewrite <- offered_tariff_elem_of in Hoffered.
  destruct self as [[] rc]; unfold_states.
  all: rewrite (bool_decide_eq_true_2 _ Hoffered), Hprogress; cbn.
  all: fold cs; destruct (Session.charge_progress_started cs); cbn.
  all: split; [done |]; split; intros [=]; repeat split.
  all: by destruct e.
Qed.

(** [PowerDelivery_renegotiate] where schedule 1 was offered and is named by
    the EV, once after and once before the charge progress started. *)
Lemma PowerDelivery_renegotiate_witness :
  let run started :=
    process_message 1 Sample.externals PowerDelivery StateSECC.init
      (Sample.engine
         (Session.set_charge_progress_started started
            (Session.set_offered_schedules [Sample.schedule 1] Sample.comm_session)))
      (v2g_message (Sample.header "F9F9EE8505F55838")
         (power_delivery_req (PowerDeliveryReq.mk RENEGOTIATE 1 None))) in
  next_state_of (run true) = Some (Next ChargeParameterDiscovery)
  /\ next_state_of (run false) = Some Terminate.
Proof.
  intros run.
  pose proof (fun started =>
    PowerDelivery_renegotiate 0 Sample.externals StateSECC.init
      (Sample.engine
         (Session.set_charge_progress_started started
            (Session.set_offered_schedules [Sample.schedule 1] Sample.comm_session)))
      (Sample.header "F9F9EE8505F55838")
      (PowerDeliveryReq.mk RENEGOTIATE 1 None)) as H.
  cbn zeta in H.
  assert (forall started,
    offered_tariff
      (Session.set_charge_progress_started started
         (Session.set_offered_schedules [Sample.schedule 1] Sample.comm_session)) 1)
    as Hoffered.
  { intros started. exists (Sample.schedule 1). split; [by left | reflexivity]. }
  split.
  - destruct (H true (Hoffered true) eq_refl) as (_ & Hstarted & _).
    by destruct (Hstarted eq_refl) as (_ & ? & _).
  - destruct (H false (Hoffered false) eq_refl) as (_ & _ & Hnot).
    by destruct (Hnot eq_refl) as (? & _).
Defined.

(** C9 fails as stated: the tariff is checked before the charge progress is
    looked at, so a renegotiation that names a schedule that was not offered
    is aborted with FAILED_TariffSelectionInvalid although the charge
    progress has started. *)
Lemma PowerDelivery_renegotiate_unknown_tariff :
  let cs := Session.set_charge_progress_started true Sample.comm_session in
  let req := PowerDeliveryReq.mk RENEGOTIATE 1 None in
  let o :=
    process_message 1 Sample.externals PowerDelivery StateSECC.init
      (Sample.engine cs)
      (v2g_message (Sample.header "F9F9EE8505F55838") (power_delivery_req req)) in
  cs.(Session.charge_progress_started) = true
  /\ cs.(Session.offered_schedules) = []
  /\ next_state_of o = Some Terminate
  /\ response_code_of o = Some ResponseCode.FAILED_TARIFF_SELECTION_INVALID.
Proof. by vm_compute. Qed.

(** What C9 says of a renegotiation before the charge progress started is
    not what the code does either: no [return] follows the call of
    [stop_state_machine], so the state goes on to queue a PowerDeliveryRes
    with the response code OK in place of the failed response. *)
Lemma PowerDelivery_renegotiate_not_started_answers_OK (fuel : nat)
    (X : Externals.t) (self : StateSECC.t) (e : Engine.t)
    (header : MessageHeader.t) (req : PowerDeliveryReq.t) :
  let cs := e.(Engine.comm_session) in
  let o := process_message (S fuel) X PowerDelivery self e
             (v2g_message header (power_delivery_req req)) in
  offered_tariff cs req.(PowerDeliveryReq.sa_schedule_tuple_id) ->
  req.(PowerDeliveryReq.charge_progress) = RENEGOTIATE ->
  cs.(Session.charge_progress_started) = false ->
  response_code_of o = Some ResponseCode.OK.
Proof.
  intros cs o Hoffered Hprogress Hstarted. subst o.
  rewrite <- offered_tariff_elem_of in Hoffered.
  destruct self as [[] rc]; unfold_states.
  all: rewrite (bool_decide_eq_true_2 _ Hoffered), Hprogress; cbn.
  all: fold cs; by rewrite Hstarted.
Qed.

(** ** Meter reading of a receipt (MeteringReceipt) *)

(** C7, as the code has it: for every MeteringReceiptReq handled by
    MeteringReceipt while the session holds a contract certificate chain
    against which the signature of the request verifies: a request without a
    meter reading is aborted with FAILED_MeteringSignatureNotValid; a request
    with a reading other than zero is aborted with that code when a reading
    other than zero was last sent and differs from it, and is answered OK
    when the two are equal or when no reading was sent at all. *)
Theorem MeteringReceipt_meter_reading (fuel : nat) (X : Externals.t)
    (self : StateSECC.t) (e : Engine.t) (header : MessageHeader.t)
    (req : MeteringReceiptReq.t) (chain : CertificateChain.t) :
  let cs := e.(Engine.comm_session) in
  let message := v2g_message header (metering_receipt_req req) in
  let received := req.(MeteringReceiptReq.meter_info).(MeterInfo.meter_reading) in
  let o := process_message (S fuel) X MeteringReceipt self e message in
  cs.(Session.contract_cert_chain) = Some chain ->
  X.(Externals.verify_signature) header.(MessageHeader.signature)
    [(req.(MeteringReceiptReq.id),
      X.(Externals.to_exi) (exi_metering_receipt_req req) ISO_V2_MSG_DEF)]
    chain.(CertificateChain.certificate) None None = true ->
  (received = None ->
   aborted self e message ResponseCode.FAILED_METERING_SIGNATURE_NOT_VALID o)
  /\ (forall r s, received = Some r -> r <> 0 ->
        last_sent_reading cs = Some s -> s <> 0 ->
        (r <> s ->
         aborted self e message ResponseCode.FAILED_METERING_SIGNATURE_NOT_VALID o)
        /\ (r = s -> response_code_of o = Some ResponseCode.OK))
  /\ (forall r, received = Some r -> r <> 0 ->
        last_sent_reading cs = None ->
        response_code_of o = Some ResponseCode.OK).
Proof.
  intros cs message received o Hchain Hsig. subst o message received.
  unfold last_sent_reading.
  destruct self as [[] rc]; unfold_states; fold cs.
  all: rewrite Hchain, Hsig; cbn [negb].
  all: split; [intros ->; cbn; by eexists |].
  all: split; [intros r s -> Hr | intros r -> Hr].
  all: cbn [Py.truthy_int]; rewrite (bool_decide_eq_false_2 _ Hr); cbn [negb orb].
  all: destruct (Session.sent_meter_info cs) as [sent |]; cbn; try done.
  - intros -> Hs. cbn. rewrite (bool_decide_eq_false_2 _ Hs). cbn.
    split; intros Hrs.
    + rewrite bool_decide_eq_false_2 by congruence. cbn. by eexists.
    + subst s. rewrite bool_decide_eq_true_2 by done. cbn.
      by repeat split_match.
  - intros ->. cbn. by repeat split_match.
  - intros _. by repeat split_match.
  - intros -> Hs. cbn. rewrite (bool_decide_eq_false_2 _ Hs). cbn.
    split; intros Hrs.
    + rewrite bool_decide_eq_false_2 by congruence. cbn. by eexists.
    + subst s. rewrite bool_decide_eq_true_2 by done. cbn.
      by repeat split_match.
  - intros ->. cbn. by repeat split_match.
  - intros _. by repeat split_match.
Qed.

(** [MeteringReceipt_meter_reading] at a session that last sent the reading
    1200: the receipts for 1200, for 1300 and without a reading. *)
Lemma MeteringReceipt_meter_reading_witness :
  let cs :=
    Session.set_sent_meter_info (Some (Sample.meter_info (Some 1200)))
      (Session.set_contract_cert_chain (Some Sample.contract_cert_chain)
         Sample.comm_session) in
  let run reading :=
    process_message 1 Sample.externals MeteringReceipt StateSECC.init
      (Sample.engine cs)
      (v2g_message (Sample.header "F9F9EE8505F55838")
         (metering_receipt_req
            (MeteringReceiptReq.mk (Some "id1") "F9F9EE8505F55838" (Some 1)
               (Sample.meter_info reading)))) in
  response_code_of (run (Some 1200)) = Some ResponseCode.OK
  /\ response_code_of (run (Some 1300))
     = Some ResponseCode.FAILED_METERING_SIGNATURE_NOT_VALID
  /\ response_code_of (run None)
     = Some ResponseCode.FAILED_METERING_SIGNATURE_NOT_VALID.
Proof.
  intros cs run.
  pose proof (fun reading =>
    MeteringReceipt_meter_reading 0 Sample.externals StateSECC.init
      (Sample.engine cs) (Sample.header "F9F9EE8505F55838")
      (MeteringReceiptReq.mk (Some "id1") "F9F9EE8505F55838" (Some 1)
         (Sample.meter_info reading))
      Sample.contract_cert_chain eq_refl eq_refl) as H.
  cbn zeta in H.
  split; [| split].
  - destruct (H (Some 1200)) as (_ & Hsent & _).
    assert (1200 <> 0) as Hnz by lia.
    exact (proj2 (Hsent 1200 1200 eq_refl Hnz eq_refl Hnz) eq_refl).
  - destruct (H (Some 1300)) as (_ & Hsent & _).
    assert (1300 <> 0 /\ 1200 <> 0 /\ 1300 <> 1200) as (Hr & Hs & Hrs) by lia.
    by destruct (aborted_inv _ _ _ _ _
                   (proj1 (Hsent 1300 1200 eq_refl Hr eq_refl Hs) Hrs)) as [? _].
  - destruct (H None) as (Hnone & _).
    by destruct (aborted_inv _ _ _ _ _ (Hnone eq_refl)) as [? _].
Defined.

(** C7 fails as stated: the reading of the receipt is compared only when a
    reading was sent before.  The states of this module never store one, and
    then a verifiable receipt with any reading other than zero is answered
    OK. *)
Lemma MeteringReceipt_without_sent_reading :
  let cs :=
    Session.set_contract_cert_chain (Some Sample.contract_cert_chain)
      Sample.comm_session in
  let req :=
    MeteringReceiptReq.mk (Some "id1") "F9F9EE8505F55838" (Some 1)
      (Sample.meter_info (Some 5)) in
  let o :=
    process_message 1 Sample.externals MeteringReceipt StateSECC.init
      (Sample.engine cs)
      (v2g_message (Sample.header "F9F9EE8505F55838") (metering_receipt_req req)) in
  req.(MeteringReceiptReq.meter_info).(MeterInfo.meter_reading) = Some 5
  /\ last_sent_reading cs = None
  /\ response_code_of o = Some ResponseCode.OK.
Proof. by vm_compute. Qed.

(** ** Selection of services and payment (PaymentServiceSelection) *)

Lemma offered_service_elem_of (cs : Session.t) (id : Z) :
  id ∈ (ServiceDetails.service_id <$> cs.(Session.offered_services))
  <-> offered_service cs id.
Proof.
  rewrite list_elem_of_fmap. unfold offered_service.
  split; intros (s & H1 & H2); exists s; by split.
Qed.

(** The loop over the selected services ends at the first service, other
    than the charge service, that was not offered; if there is none, its
    flag tells whether the charge service was seen. *)
Lemma selected_services_loop_spec (offered : list ServiceDetails.t)
    (selected : list SelectedService.t) (flag : bool) :
  let ids := SelectedService.service_id <$> selected in
  match PaymentServiceSelection.selected_services_loop offered selected flag with
  | inl id =>
      id ∈ ids /\ id <> ServiceID.CHARGING
      /\ id ∉ (ServiceDetails.service_id <$> offered)
  | inr seen =>
      (forall id, id ∈ ids -> id <> ServiceID.CHARGING ->
         id ∈ (ServiceDetails.service_id <$> offered))
      /\ seen = flag || bool_decide (ServiceID.CHARGING ∈ ids)
  end.
Proof.
  revert flag. induction selected as [| service rest IH]; intros flag; cbn.
  - split; [by intros id ?%elem_of_nil | by rewrite orb_false_r].
  - case_bool_decide as Hcharging.
    + specialize (IH true). destruct PaymentServiceSelection.selected_services_loop.
      * destruct IH as (? & ? & ?). split; [by right | done].
      * destruct IH as [Hothers ->]. split.
        -- intros id [-> | ?]%elem_of_cons ?; [done | by apply Hothers].
        -- rewrite Hcharging.
           rewrite (bool_decide_eq_true_2 (ServiceID.CHARGING ∈ _ :: _))
             by by left.
           by rewrite orb_true_r.
    + case_bool_decide as Hoffered; cbn.
      * specialize (IH flag). destruct PaymentServiceSelection.selected_services_loop.
        -- destruct IH as (? & ? & ?). split; [by right | done].
        -- destruct IH as [Hothers ->]. split.
           ++ intros id [-> | ?]%elem_of_cons ?; [done | by apply Hothers].
           ++ f_equal. apply bool_decide_ext. rewrite elem_of_cons.
              split; [by right | intros [? | ?]; [congruence | done]].
      * split; [by left | done].
Qed.

(** Members of [AuthEnum] are told apart by their values, so the test on
    values is the test on members. *)
Lemma auth_option_elem_of (a : AuthEnum) (l : list AuthEnum) :
  AuthEnum_value a ∈ (AuthEnum_value <$> l) <-> a ∈ l.
Proof.
  rewrite list_elem_of_fmap. split.
  - intros (b & Hvalue & Hb). by destruct a, b.
  - intros Ha. by exists a.
Qed.

Lemma AuthEnum_of_value_value (a : AuthEnum) :
  AuthEnum_of_value (AuthEnum_value a) = Some a.
Proof. by destruct a. Qed.

(** C8, as the code has it: for every PaymentServiceSelectionReq handled by
    PaymentServiceSelection: if a selected service other than the charge
    service was not offered, the session is aborted with
    FAILED_ServiceSelectionInvalid; otherwise, if the charge service is not
    among the selected services, with FAILED_NoChargeServiceSelected;
    otherwise, if the selected auth option was not offered, with
    FAILED_PaymentSelectionInvalid; otherwise the response is OK and the
    selected auth option of the session is the selected one. *)
Theorem PaymentServiceSelection_validation (fuel : nat) (X : Externals.t)
    (self : StateSECC.t) (e : Engine.t) (header : MessageHeader.t)
    (req : PaymentServiceSelectionReq.t) :
  let cs := e.(Engine.comm_session) in
  let message := v2g_message header (payment_service_selection_req req) in
  let o := process_message (S fuel) X PaymentServiceSelection self e message in
  let selected := selected_ids req in
  let auth := req.(PaymentServiceSelectionReq.selected_auth_option) in
  let others_offered :=
    forall id, id ∈ selected -> id <> ServiceID.CHARGING -> offered_service cs id in
  (~ others_offered ->
   aborted self e message ResponseCode.FAILED_SERVICE_SELECTION_INVALID o)
  /\ (others_offered -> ServiceID.CHARGING ∉ selected ->
      aborted self e message ResponseCode.FAILED_NO_CHARGE_SERVICE_SELECTED o)
  /\ (others_offered -> ServiceID.CHARGING ∈ selected ->
      auth ∉ cs.(Session.offered_auth_options) ->
      aborted self e message ResponseCode.FAILED_PAYMENT_SELECTION_INVALID o)
  /\ (others_offered -> ServiceID.CHARGING ∈ selected ->
      auth ∈ cs.(Session.offered_auth_options) ->
      raised o = None
      /\ response_code_of o = Some ResponseCode.OK
      /\ Session.selected_auth_option <$> session_of o = Some (Some auth)).
Proof.
  intros cs message o selected auth others_offered.
  subst o message others_offered.
  pose proof (selected_services_loop_spec cs.(Session.offered_services)
    req.(PaymentServiceSelectionReq.selected_service_list)
       .(SelectedServiceList.selected_service) false) as Hloop.
  cbn zeta in Hloop. fold (selected_ids req) in Hloop. fold selected in Hloop.
  destruct self as [[] rc]; unfold_states; fold cs auth.
  all: destruct PaymentServiceSelection.selected_services_loop as [id | seen].
  all: try (destruct Hloop as (Hid & Hcharging & Hoffered);
            assert (~ (forall id, id ∈ selected -> id <> ServiceID.CHARGING ->
                         offered_service cs id)) as Hnot
              by (intros Hall; apply Hoffered, offered_service_elem_of;
                  by apply Hall);
            split; [intros _; by eexists |];
            split; [| split]; intros Hall; by destruct Hnot).
  all: destruct Hloop as [Hothers ->]; cbn [orb].
  all: assert (forall id, id ∈ selected -> id <> ServiceID.CHARGING ->
                 offered_service cs id) as Hall
         by (intros id ? ?; by apply offered_service_elem_of, Hothers).
  all: split; [by intros Hnot |].
  all: split; [intros _ Hno; rewrite (bool_decide_eq_false_2 _ Hno); cbn;
               by eexists |].
  all: split; intros _ Hyes Hauth; rewrite (bool_decide_eq_true_2 _ Hyes);
         cbn [negb].
  all: try (rewrite bool_decide_eq_false_2 by (by rewrite auth_option_elem_of);
            cbn; by eexists).
  all: rewrite bool_decide_eq_true_2 by (by rewrite auth_option_elem_of).
  all: cbn; by rewrite AuthEnum_of_value_value.
Qed.

(** [PaymentServiceSelection_validation] after a ServiceDiscoveryRes that
    offered the certificate service and external payment only: the four
    outcomes. *)
Lemma PaymentServiceSelection_validation_witness :
  let cs :=
    Session.set_offered_auth_options [EIM_V2]
      (Session.set_offered_services
         [ServiceDetails.mk 2 (Some ServiceName.CERTIFICATE)
            ServiceCategory.CERTIFICATE true]
         Sample.comm_session) in
  let run auth ids :=
    process_message 1 Sample.externals PaymentServiceSelection StateSECC.init
      (Sample.engine cs)
      (v2g_message (Sample.header "F9F9EE8505F55838")
         (payment_service_selection_req
            (PaymentServiceSelectionReq.mk auth
               (SelectedServiceList.mk
                  ((fun id => SelectedService.mk id None) <$> ids))))) in
  response_code_of (run EIM_V2 [1; 3])
  = Some ResponseCode.FAILED_SERVICE_SELECTION_INVALID
  /\ response_code_of (run EIM_V2 [2])
     = Some ResponseCode.FAILED_NO_CHARGE_SERVICE_SELECTED
  /\ response_code_of (run PNC_V2 [1; 2])
     = Some ResponseCode.FAILED_PAYMENT_SELECTION_INVALID
  /\ response_code_of (run EIM_V2 [1; 2]) = Some ResponseCode.OK.
Proof.
  intros cs run.
  pose proof (fun auth ids =>
    PaymentServiceSelection_validation 0 Sample.externals StateSECC.init
      (Sample.engine cs) (Sample.header "F9F9EE8505F55838")
      (PaymentServiceSelectionReq.mk auth
         (SelectedServiceList.mk
            ((fun id => SelectedService.mk id None) <$> ids)))) as H.
  cbn zeta in H.
  assert (offered_service cs 2) as Hcert
    by (eexists; split; [by left | reflexivity]).
  split; [| split; [| split]].
  - destruct (H EIM_V2 [1; 3]) as (Hinvalid & _).
    eapply aborted_inv, Hinvalid. intros Hall.
    destruct (Hall 3) as (s & Hs & Hid); [by right; left | done |].
    apply elem_of_cons in Hs as [-> | Hs]; [done | by apply elem_of_nil in Hs].
  - destruct (H EIM_V2 [2]) as (_ & Hnocharge & _).
    eapply aborted_inv, Hnocharge.
    + intros id [-> | Hid]%elem_of_cons _; [done | by apply elem_of_nil in Hid].
    + intros [Heq | Hid]%elem_of_cons; [done | by apply elem_of_nil in Hid].
  - destruct (H PNC_V2 [1; 2]) as (_ & _ & Hauth & _).
    eapply aborted_inv, Hauth.
    + intros id [-> | [-> | Hid]%elem_of_cons]%elem_of_cons Hne;
        [done | done | by apply elem_of_nil in Hid].
    + by left.
    + intros [Heq | Hid]%elem_of_cons; [done | by apply elem_of_nil in Hid].
  - destruct (H EIM_V2 [1; 2]) as (_ & _ & _ & Hok).
    apply Hok.
    + intros id [-> | [-> | Hid]%elem_of_cons]%elem_of_cons Hne;
        [done | done | by apply elem_of_nil in Hid].
    + by left.
    + by left.
Defined.

(** C8 fails as stated: the services are looked at before the flag for the
    charge service is, so a selection without the charge service that names
    a service that was not offered is aborted with
    FAILED_ServiceSelectionInvalid, not FAILED_NoChargeServiceSelected. *)
Lemma PaymentServiceSelection_without_charge_service :
  let req :=
    PaymentServiceSelectionReq.mk EIM_V2
      (SelectedServiceList.mk [SelectedService.mk 2 None]) in
  let o :=
    process_message 1 Sample.externals PaymentServiceSelection StateSECC.init
      (Sample.engine Sample.comm_session)
      (v2g_message (Sample.header "F9F9EE8505F55838")
         (payment_service_selection_req req)) in
  selected_ids req = [2]
  /\ ServiceID.CHARGING = 1
  /\ Sample.comm_session.(Session.offered_services) = []
  /\ response_code_of o = Some ResponseCode.FAILED_SERVICE_SELECTION_INVALID.
Proof. by vm_compute. Qed.

(** ** Offered value-added services (ServiceDiscovery) *)

(** C10: for every ServiceDiscoveryReq handled by ServiceDiscovery, the
    response is a ServiceDiscoveryRes with code OK whose service list is
    absent when no value-added service is offered, and holds the offered
    services when there is one; none is offered without TLS, with the
    certificate installation service disabled, or with a category filter
    other than ContractCertificate, and one is offered otherwise. *)
Theorem ServiceDiscovery_service_list (fuel : nat) (X : Externals.t)
    (self : StateSECC.t) (e : Engine.t) (header : MessageHeader.t)
    (req : ServiceDiscoveryReq.t) :
  let cs := e.(Engine.comm_session) in
  let allowed := cs.(Session.config).(Config.allow_cert_install_service) in
  let filter := req.(ServiceDiscoveryReq.service_category) in
  let o := process_message (S fuel) X ServiceDiscovery self e
             (v2g_message header (service_discovery_req req)) in
  exists res offered,
    raised o = None
    /\ Output.payload <$> output_of o = Some (service_discovery_res res)
    /\ res.(ServiceDiscoveryRes.response_code) = ResponseCode.OK
    /\ Session.offered_services <$> session_of o = Some offered
    /\ (offered = [] /\ res.(ServiceDiscoveryRes.service_list) = None
        \/ offered <> []
           /\ res.(ServiceDiscoveryRes.service_list) = Some (ServiceList.mk offered))
    /\ (cs.(Session.is_tls) = false -> offered = [])
    /\ (allowed = false -> offered = [])
    /\ (forall c, filter = Some c -> c <> ServiceCategory.CERTIFICATE -> offered = [])
    /\ (cs.(Session.is_tls) = true -> allowed = true ->
        filter = None \/ filter = Some ServiceCategory.CERTIFICATE ->
        offered <> []).
Proof.
  intros cs allowed filter o. subst o allowed filter.
  destruct self as [[] rc]; unfold_states.
  all: unfold ServiceDiscovery.get_services; cbn; fold cs.
  all: destruct (Session.is_tls cs),
         (Config.allow_cert_install_service (Session.config cs)),
         (ServiceDiscoveryReq.service_category req) as [[] |]; cbn.
  all: eexists _, _.
  all: do 4 (split; [reflexivity |]).
  all: split; [first [by left | by right] |].
  all: repeat split; try done.
  all: try (by intros c [= <-]).
  all: try (by intros ? ? [[=] | [=]]).
Qed.

(** ** Exceptions that leave [process_message] *)

(** C2 does not hold of the code: in the states CableCheck, PreCharge,
    CurrentDemand and WeldingDetection, [process_message] raises
    NotImplementedError on every message, whatever the state instance and
    the session; nothing is queued and no state is named. *)
Theorem stub_states_raise (fuel : nat) (X : Externals.t) (self : StateSECC.t)
    (e : Engine.t) (message : Message) :
  process_message (S fuel) X CableCheck self e message
  = Raise (Py.NotImplementedError "CableCheck not yet implemented") self e
  /\ process_message (S fuel) X PreCharge self e message
     = Raise (Py.NotImplementedError "PreCharge not yet implemented") self e
  /\ process_message (S fuel) X CurrentDemand self e message
     = Raise (Py.NotImplementedError "CurrentDemand not yet implemented") self e
  /\ process_message (S fuel) X WeldingDetection self e message
     = Raise (Py.NotImplementedError "WeldingDetection not yet implemented") self e.
Proof. by repeat split. Qed.

(** The exception also leaves a state that is implemented: MeteringReceipt,
    once it has seen its first request, hands a CurrentDemandReq over to
    CurrentDemand. *)
Lemma MeteringReceipt_current_demand_raises (fuel : nat) (X : Externals.t)
    (rc : option ResponseCode.t) (e : Engine.t) (header : MessageHeader.t) :
  raised (process_message (S (S fuel)) X MeteringReceipt
            (StateSECC.mk false rc) e (v2g_message header current_demand_req))
  = Some (Py.NotImplementedError "CurrentDemand not yet implemented").
Proof. reflexivity. Qed.

(** PaymentDetails reads the sub-certificates of the chain before it
    verifies anything; a chain without them (the element is optional) makes
    the attribute access fail outside of what the state catches. *)
Lemma PaymentDetails_without_sub_certificates_raises (fuel : nat)
    (X : Externals.t) (self : StateSECC.t) (e : Engine.t)
    (header : MessageHeader.t) (emaid : string) (id : option string)
    (certificate : Bytes) :
  process_message (S fuel) X PaymentDetails self e
    (v2g_message header
       (payment_details_req
          (PaymentDetailsReq.mk emaid (CertificateChain.mk id certificate None))))
  = Raise (attribute_of_None "certificates") self e.
Proof. reflexivity. Qed.

(** Apart from these, nothing raises: an exception that leaves
    [process_message] is the NotImplementedError of a stub state or the
    AttributeError of an absent optional element. *)
Lemma process_message_raises_only (X : Externals.t) (state : State)
    (self : StateSECC.t) (e : Engine.t) (message : Message) (exc : Py.Exception) :
  raised (process_message 2 X state self e message) = Some exc ->
  (exists msg, exc = Py.NotImplementedError msg)
  \/ exc = attribute_of_None "certificates"
  \/ exc = attribute_of_None "departure_time".
Proof.
  destruct message as [| | [header body] |]; destruct state;
    destruct self as [[] rc]; try discriminate;
    try (intros [= <-]; left; eexists; reflexivity);
    destruct body; try discriminate;
    try (intros [= <-]; left; eexists; reflexivity).
  all: unfold_states; try unfold_states.
  all: repeat first
    [ discriminate
    | (intros [= <-]; first [ by left; eexists | by right; left | by right; right ])
    | split_match; cbn [raised] ].
Qed.

(** ** The failed-response registries *)

(** C3 does not hold of the code: building the ISO 15118-2 registry raises
    NameError at its first entry, because the module never binds the name
    ResponseCodeV2. *)
Theorem init_failed_responses_iso_v2_raises :
  FailedResponses.init_failed_responses_iso_v2
  = inl (Py.NameError "ResponseCodeV2").
Proof. vm_compute. reflexivity. Qed.

(** The names the ISO 15118-2 registry uses and the module does not import. *)
Lemma failed_responses_unbound_names :
  Forall (fun n => FailedResponses.module_globals !! n = None)
    ["ResponseCodeV2"; "AuthOptionList"; "ServiceID"; "ServiceCategory"].
Proof. repeat constructor. Qed.

Lemma built_with_spec (good : FailedResponses.Value -> bool) (n : nat)
    (registry : FailedResponses.M (gmap FailedResponses.Class FailedResponses.Value)) :
  FailedResponses.built_with good n registry = true ->
  exists d,
    registry = inr d /\ size d = n
    /\ map_Forall (fun _ v => good v = true) d.
Proof.
  destruct registry as [exc | d]; [discriminate |]. cbn.
  intros [Hn Hall]%andb_prop. exists d. split; [done |].
  split; [by apply Nat.eqb_eq |].
  apply map_Forall_to_list, Forall_forall. intros [k v] Hkv.
  rewrite forallb_forall in Hall. apply (Hall (k, v)).
  by apply list_elem_of_In.
Qed.

(** The DIN SPEC 70121 registry is built: eleven request types, each mapped
    to a response record with the response code FAILED. *)
Lemma init_failed_responses_din_spec_70121_failed :
  exists d,
    FailedResponses.init_failed_responses_din_spec_70121 = inr d
    /\ size d = 11%nat
    /\ map_Forall (fun _ v => FailedResponses.response_code_is_failed v = true) d.
Proof. apply built_with_spec. vm_compute. reflexivity. Qed.

(** The ISO 15118-20 registry is built: fourteen request types, each mapped
    to a triple of a response record with the response code FAILED, a
    namespace and a payload type. *)
Lemma init_failed_responses_iso_v20_failed :
  exists d,
    FailedResponses.init_failed_responses_iso_v20 = inr d
    /\ size d = 14%nat
    /\ map_Forall (fun _ v => FailedResponses.is_failed_triple v = true) d.
Proof. apply built_with_spec. vm_compute. reflexivity. Qed.

(** ** Every state, every message *)

(** The check of the message type either lets an ISO 15118-2 message of one
    of the expected types through, leaving everything as it was, or stops the
    state machine with FAILED_SequenceError. *)
Lemma check_msg_v2_cases (e : Engine.t) (message : Message)
    (expected : list BodyBase) (expect_first : bool) :
  (exists msg,
     message = MessageV2 msg
     /\ get_message_type msg.(V2GMessageV2.body) ∈ expected
     /\ StateSECC.check_msg_v2 e message expected expect_first = (e, Some msg))
  \/ (exists reason,
        StateSECC.check_msg_v2 e message expected expect_first
        = (StateSECC.stop_state_machine e reason message
             ResponseCode.FAILED_SEQUENCE_ERROR, None)).
Proof.
  destruct message as [| | msg |]; try (right; eexists; reflexivity).
  unfold StateSECC.check_msg_v2.
  match goal with
  | |- context [if ?b then (e, Some msg) else _] => destruct b eqn:Hb
  end; [left | right; by eexists].
  exists msg. split; [done |]. split; [| done].
  destruct expect_first; apply bool_decide_eq_true in Hb; [| done].
  destruct expected as [| t l]; [by apply elem_of_nil in Hb |].
  cbn in Hb. apply list_elem_of_singleton in Hb as ->. by left.
Qed.

(** Unfold [process_message] of a known state by one level. *)
Ltac unfold_state :=
  cbn [process_message];
  unfold SessionSetup.process_message, ServiceDiscovery.process_message,
    ServiceDetail.process_message, PaymentServiceSelection.process_message,
    CertificateInstallation.process_message, PaymentDetails.process_message,
    Authorization.process_message, ChargeParameterDiscovery.process_message,
    PowerDelivery.process_message, MeteringReceipt.process_message,
    ChargingStatus.process_message, SessionStop.process_message,
    CableCheck.process_message, PreCharge.process_message,
    CurrentDemand.process_message, WeldingDetection.process_message.

(** Split on the outcome of the check of the message type. *)
Ltac check_msg :=
  lazymatch goal with
  | |- context [StateSECC.check_msg_v2 ?e ?m ?l ?b] =>
      let msg := fresh "msg" in
      let reason := fresh "reason" in
      let Hm := fresh in
      let Hin := fresh "Hexpected" in
      let H := fresh in
      pose proof (check_msg_v2_cases e m l b) as H;
      destruct (StateSECC.check_msg_v2 e m l b);
      destruct H as [(msg & Hm & Hin & [= -> ->]) | (reason & [= -> ->])];
      [ first [ subst m | injection Hm as <- ] | ];
      cbn beta iota zeta
  end.

(** A request of a type the state does not expect was let through. *)
Ltac not_expected :=
  match goal with
  | H : ?x ∈ ?l |- _ =>
      exfalso; revert H;
      refine (bool_decide_eq_false_1 (x ∈ l) _);
      vm_compute; reflexivity
  end.

(** Every way a call of [process_message] can go, for a goal of the form
    [o = process_message (S (S fuel)) X state self e message -> _]: by state, by the
    outcome of the check of the message type and by the kind of request,
    into the state a request is handed over to, down to the results. *)
Ltac by_cases tac :=
  lazymatch goal with
  | |- context [process_message (S (S ?fuel)) _ ?state _ _ _] =>
      let n := fresh "n" in
      let Hn := fresh "Hn" in
      remember (S fuel) as n eqn:Hn;
      destruct state;
      unfold_state;
      try check_msg;
      try lazymatch goal with
      | |- context [V2GMessageV2.body ?msg] =>
          let header := fresh "header" in
          let body := fresh "body" in
          destruct msg as [header body]; destruct body
      end;
      cbn beta iota zeta delta [V2GMessageV2.body V2GMessageV2.header hand_over];
      subst n
  end;
  try (unfold_state; check_msg;
       cbn beta iota zeta delta [V2GMessageV2.body V2GMessageV2.header hand_over]);
  cbn [ChargingStatusRes.meter_info ChargingStatusRes.receipt_required];
  repeat split_match;
  try match goal with
  | H : ServiceDiscovery.get_services _ _ = _ |- _ =>
      unfold ServiceDiscovery.get_services in H; injection H as <- <-
  end;
  intros ->;
  first [ not_expected | tac ].

(** X1: whenever [process_message] returns with a response whose code
    starts with FAILED, the next state is Terminate, the response is the
    failed response registered for the type of the inbound message, and the
    stop reason of the session records an unsuccessful end. *)
Theorem failed_response_terminates (fuel : nat) (X : Externals.t)
    (state : State) (self : StateSECC.t) (e : Engine.t) (message : Message)
    (code : ResponseCode.t) :
  let o := process_message (S (S fuel)) X state self e message in
  raised o = None ->
  response_code_of o = Some code ->
  ResponseCode.is_failed code = true ->
  next_state_of o = Some Terminate
  /\ payload_of o = Some (failed_response (message_type message) code)
  /\ exists reason,
       stop_reason_of o
       = Some (Some (StopNotification.mk false reason
                       e.(Engine.comm_session).(Session.peername))).
Proof.
  intros o. subst o.
  remember (process_message (S (S fuel)) X state self e message) as o eqn:Ho.
  revert Ho.
  by_cases ltac:(first
    [ discriminate
    | intros _ Hc Hf; cbn in Hc; injection Hc as <-;
      first [ discriminate Hf
            | split; [reflexivity | split; [reflexivity | eexists; reflexivity]] ] ]).
Qed.

(** [failed_response_terminates] for a PowerDeliveryReq that names a
    schedule that was not offered. *)
Lemma failed_response_terminates_witness :
  let message :=
    v2g_message (Sample.header "F9F9EE8505F55838")
      (power_delivery_req (PowerDeliveryReq.mk START 2 None)) in
  let o :=
    process_message 2 Sample.externals PowerDelivery StateSECC.init
      (Sample.engine Sample.comm_session) message in
  response_code_of o = Some ResponseCode.FAILED_TARIFF_SELECTION_INVALID
  /\ next_state_of o = Some Terminate
  /\ payload_of o
     = Some (failed_response (type_V2 cls_PowerDeliveryReq)
               ResponseCode.FAILED_TARIFF_SELECTION_INVALID)
  /\ exists reason,
       stop_reason_of o
       = Some (Some (StopNotification.mk false reason "fe80::1")).
Proof.
  intros message o. split; [reflexivity |].
  apply (failed_response_terminates 0 Sample.externals PowerDelivery
           StateSECC.init (Sample.engine Sample.comm_session) message
           ResponseCode.FAILED_TARIFF_SELECTION_INVALID); reflexivity.
Defined.

(** X2: whenever [process_message] returns: if the next state is
    Terminate, the session holds a stop reason for the peer of the session,
    and that reason reports success only for a SessionStopReq answered OK;
    if the next state is not Terminate, the stop reason of the session is as
    it was. *)
Theorem terminate_records_stop_reason (fuel : nat) (X : Externals.t)
    (state : State) (self : StateSECC.t) (e : Engine.t) (message : Message) :
  let cs := e.(Engine.comm_session) in
  let o := process_message (S (S fuel)) X state self e message in
  raised o = None ->
  (next_state_of o = Some Terminate ->
   exists n,
     stop_reason_of o = Some (Some n)
     /\ n.(StopNotification.peer_ip_address) = cs.(Session.peername)
     /\ (n.(StopNotification.successful) = true ->
         response_code_of o = Some ResponseCode.OK
         /\ exists header req,
              message = v2g_message header (session_stop_req req)))
  /\ (next_state_of o <> Some Terminate ->
      stop_reason_of o = Some cs.(Session.stop_reason)).
Proof.
  intros cs o. subst o cs.
  remember (process_message (S (S fuel)) X state self e message) as o eqn:Ho.
  revert Ho.
  by_cases ltac:(first
    [ discriminate
    | intros _; split;
      [ first [ discriminate
              | intros _; eexists; split; [reflexivity |]; split; [reflexivity |];
                first [ discriminate
                      | intros _; split; [reflexivity |]; eexists _, _; reflexivity ] ]
      | first [ reflexivity | intros H; by destruct H ] ] ]).
Qed.

(** [terminate_records_stop_reason] for a SessionStopReq that ends the
    session: the stop reason reports success. *)
Lemma terminate_records_stop_reason_witness :
  let message :=
    v2g_message (Sample.header "F9F9EE8505F55838")
      (session_stop_req (SessionStopReq.mk TERMINATE)) in
  let o :=
    process_message 2 Sample.externals SessionStop StateSECC.init
      (Sample.engine Sample.comm_session) message in
  next_state_of o = Some Terminate
  /\ exists n,
       stop_reason_of o = Some (Some n)
       /\ n.(StopNotification.peer_ip_address) = "fe80::1"
       /\ n.(StopNotification.successful) = true.
Proof.
  intros message o. split; [reflexivity |].
  destruct (terminate_records_stop_reason 0 Sample.externals SessionStop
              StateSECC.init (Sample.engine Sample.comm_session) message
              eq_refl) as [Hstop _].
  destruct (Hstop eq_refl) as (n & Hn & Hpeer & _).
  exists n. split; [exact Hn |]. split; [exact Hpeer |].
  by injection Hn as <-.
Defined.

(** X3: no call of [process_message], whether it returns or raises,
    assigns the TLS flag, the configuration, the EVSE controller or the
    peer of the session; and in every state but SessionSetup the session id
    and the EVCC id stay as they were. *)
Theorem session_settings_and_identity_kept (fuel : nat) (X : Externals.t)
    (state : State) (self : StateSECC.t) (e : Engine.t) (message : Message) :
  let cs := e.(Engine.comm_session) in
  let o := process_message (S (S fuel)) X state self e message in
  settings_of <$> session_of o = Some (settings_of cs)
  /\ (state <> SessionSetup ->
      identity_of <$> session_of o = Some (identity_of cs)).
Proof.
  intros cs o. subst o cs.
  remember (process_message (S (S fuel)) X state self e message) as o eqn:Ho.
  revert Ho.
  by_cases ltac:(split; [reflexivity | first [reflexivity | intros H; by destruct H]]).
Qed.

(** X4: what the session has acquired is never taken back: once charge
    progress has started the flag stays set, and a selected payment option,
    a stored contract certificate chain, a selected energy-transfer mode and
    a selected schedule are replaced at most, never cleared. *)
Theorem session_progress_kept (fuel : nat) (X : Externals.t)
    (state : State) (self : StateSECC.t) (e : Engine.t) (message : Message)
    (cs' : Session.t) :
  let cs := e.(Engine.comm_session) in
  let o := process_message (S (S fuel)) X state self e message in
  session_of o = Some cs' ->
  (cs.(Session.charge_progress_started) = true ->
   cs'.(Session.charge_progress_started) = true)
  /\ (is_Some cs.(Session.selected_auth_option) ->
      is_Some cs'.(Session.selected_auth_option))
  /\ (is_Some cs.(Session.contract_cert_chain) ->
      is_Some cs'.(Session.contract_cert_chain))
  /\ (is_Some cs.(Session.selected_energy_mode) ->
      is_Some cs'.(Session.selected_energy_mode))
  /\ (is_Some cs.(Session.selected_schedule) ->
      is_Some cs'.(Session.selected_schedule)).
Proof.
  intros cs o. subst o cs.
  remember (process_message (S (S fuel)) X state self e message) as o eqn:Ho.
  revert Ho.
  by_cases ltac:(intros [= <-]; cbn;
                 try rewrite AuthEnum_of_value_value;
                 repeat split; first [done | by eexists]).
Qed.

(** [session_progress_kept] for a charging loop: a ChargingStatusReq leaves
    the started charge progress and the selected schedule in place. *)
Lemma session_progress_kept_witness :
  let cs :=
    Session.set_charge_progress_started true
      (Session.set_selected_schedule (Some 1) Sample.comm_session) in
  let o :=
    process_message 2 Sample.externals ChargingStatus StateSECC.init
      (Sample.engine cs)
      (v2g_message (Sample.header "F9F9EE8505F55838") charging_status_req) in
  exists cs',
    session_of o = Some cs'
    /\ cs'.(Session.charge_progress_started) = true
    /\ is_Some cs'.(Session.selected_schedule).
Proof.
  intros cs o. eexists. split; [reflexivity |].
  destruct (session_progress_kept 0 Sample.externals ChargingStatus
              StateSECC.init (Sample.engine cs)
              (v2g_message (Sample.header "F9F9EE8505F55838")
                 charging_status_req) _ eq_refl)
    as (Hstarted & _ & _ & _ & Hschedule).
  split; [exact (Hstarted eq_refl) | exact (Hschedule (ex_intro _ 1 eq_refl))].
Defined.

(** X5: whenever [process_message] returns, it has queued a response; the
    response answers the kind of message that came in (the response record
    paired with the request, or the failed response registered for the
    inbound type), whichever state received it; and the next state is
    Terminate or one of the successors of the request type. *)
Theorem response_answers_request (fuel : nat) (X : Externals.t)
    (state : State) (self : StateSECC.t) (e : Engine.t) (message : Message) :
  let o := process_message (S (S fuel)) X state self e message in
  raised o = None ->
  exists out,
    output_of o = Some out
    /\ answered_request out.(Output.payload) = message_type message
    /\ (out.(Output.next_state) = Some Terminate
        \/ exists t,
             message_type message = type_V2 t
             /\ out.(Output.next_state) ∈ successors t).
Proof.
  intros o. subst o.
  remember (process_message (S (S fuel)) X state self e message) as o eqn:Ho.
  revert Ho.
  by_cases ltac:(first
    [ discriminate
    | intros _; eexists; split; [reflexivity |]; split; [reflexivity |];
      first [ by left
            | right; eexists; split; [reflexivity |]; cbn;
              repeat first [ by left | apply list_elem_of_further ] ] ]).
Qed.

(** [response_answers_request] for an AuthorizationReq of a session that
    chose external payment: the response is an AuthorizationRes and the next
    state is among the successors of the request. *)
Lemma response_answers_request_witness :
  let message :=
    v2g_message (Sample.header "F9F9EE8505F55838")
      (authorization_req (AuthorizationReq.mk None None)) in
  let o :=
    process_message 2 Sample.externals Authorization StateSECC.init
      (Sample.engine
         (Session.set_selected_auth_option (Some EIM) Sample.comm_session))
      message in
  exists out,
    output_of o = Some out
    /\ answered_request out.(Output.payload) = type_V2 cls_AuthorizationReq
    /\ (out.(Output.next_state) = Some Terminate
        \/ exists t,
             type_V2 cls_AuthorizationReq = type_V2 t
             /\ out.(Output.next_state) ∈ successors t).
Proof.
  intros message o.
  apply (response_answers_request 0 Sample.externals Authorization
           StateSECC.init
           (Sample.engine
              (Session.set_selected_auth_option (Some EIM) Sample.comm_session))
           message).
  reflexivity.
Defined.

(** ** Hand-over between states *)

(** X6: a state that is implemented does one of three things with an
    ISO 15118-2 message: it refuses it with FAILED_SequenceError, it handles
    it itself, which it does only when [get_state_by_msg_type] maps the type
    of the request to this very state, or it hands the message over to a
    fresh instance of the state that [get_state_by_msg_type] gives for the
    type of the request and returns what that instance left. *)
Theorem hand_over_follows_get_state_by_msg_type (fuel : nat) (X : Externals.t)
    (state : State) (self : StateSECC.t) (e : Engine.t)
    (header : MessageHeader.t) (body : Body) :
  let message := v2g_message header body in
  let o := process_message (S (S fuel)) X state self e message in
  state ∉ stub_states ->
  aborted self e message ResponseCode.FAILED_SEQUENCE_ERROR o
  \/ exists target,
       get_state_by_msg_type (get_message_type body) = Some target
       /\ (target = state
           \/ o = hand_over self
                    (process_message (S fuel) X target StateSECC.init e message)).
Proof.
  intros message o Hstub. subst o message. unfold v2g_message.
  generalize (S fuel). clear fuel. intros fuel.
  remember (process_message (S fuel) X state self e _) as o eqn:Ho. revert Ho.
  destruct state;
    try (exfalso; apply Hstub; unfold stub_states;
         solve [repeat first [ apply list_elem_of_here
                             | apply list_elem_of_further ]]).
  all: clear Hstub; unfold_state; check_msg; intros ->; [| left; by eexists].
  all: cbn [V2GMessageV2.body V2GMessageV2.header] in *.
  all: destruct body; try not_expected.
  all: right; eexists; (split; [reflexivity |]).
  all: first [ by left | right; reflexivity ].
Qed.

(** [hand_over_follows_get_state_by_msg_type] for ServiceDiscovery after its
    first request: a ServiceDetailReq goes to ServiceDetail. *)
Lemma hand_over_follows_get_state_by_msg_type_witness :
  let self := StateSECC.mk false None in
  let e := Sample.engine Sample.comm_session in
  let message :=
    v2g_message (Sample.header "F9F9EE8505F55838")
      (service_detail_req (ServiceDetailReq.mk 2)) in
  let o := process_message 2 Sample.externals ServiceDiscovery self e message in
  aborted self e message ResponseCode.FAILED_SEQUENCE_ERROR o
  \/ exists target,
       get_state_by_msg_type
         (get_message_type (service_detail_req (ServiceDetailReq.mk 2)))
       = Some target
       /\ (target = ServiceDiscovery
           \/ o = hand_over self
                    (process_message 1 Sample.externals target StateSECC.init
                       e message)).
Proof.
  intros self e message.
  apply (hand_over_follows_get_state_by_msg_type 0 Sample.externals
           ServiceDiscovery self e (Sample.header "F9F9EE8505F55838")
           (service_detail_req (ServiceDetailReq.mk 2))).
  unfold stub_states. intros H.
  repeat (apply elem_of_cons in H as [H | H]; [discriminate H |]).
  by apply elem_of_nil in H.
Defined.

(** X7: a message is handed over at most once.  Whatever the state, its
    instance, the session and the message, a nesting depth of two is enough
    for [process_message] to return or raise, and a larger depth gives the
    same outcome: no two states pass a message back and forth. *)
Theorem hand_over_at_most_once (fuel : nat) (X : Externals.t) (state : State)
    (self : StateSECC.t) (e : Engine.t) (message : Message) :
  let o := process_message (S (S fuel)) X state self e message in
  o <> OutOfFuel
  /\ o = process_message 2 X state self e message.
Proof.
  intros o. subst o. rewrite process_message_fuel. split; [| reflexivity].
  destruct (process_message_total X state self e message) as [e' He'].
  intros Ho. rewrite Ho in He'. discriminate He'.
Qed.

(** ** Offered payment options (ServiceDiscovery) *)

(** An option that is appended under a condition is on the list exactly
    under that condition. *)
Lemma elem_of_if_singleton {A} (b : bool) (x y : A) :
  y ∈ (if b then [x] else []) <-> b = true /\ y = x.
Proof.
  destruct b.
  - rewrite list_elem_of_singleton. by split; [| intros [_ ?]].
  - split; [by intros ?%elem_of_nil | by intros [[=] _]].
Qed.

(** X8: [get_services] sends the list of payment options it stores in the
    session.  External payment is on it exactly when it was the option
    selected before or, nothing having been selected, EIM is supported;
    Contract is on it exactly when another option than external payment was
    selected before or, nothing having been selected, PnC is supported and
    the connection is TLS-secured.  Nothing else is ever on the list and no
    option is on it twice. *)
Theorem get_services_auth_options (cs : Session.t)
    (category_filter : option ServiceCategory.t) :
  let res := (ServiceDiscovery.get_services cs category_filter).1 in
  let cs' := (ServiceDiscovery.get_services cs category_filter).2 in
  let offered := cs'.(Session.offered_auth_options) in
  let selected := cs.(Session.selected_auth_option) in
  let supported := cs.(Session.config).(Config.supported_auth_options) in
  res.(ServiceDiscoveryRes.auth_option_list).(AuthOptionList.auth_options)
  = offered
  /\ (EIM_V2 ∈ offered <->
      selected = Some EIM_V2 \/ selected = None /\ EIM ∈ supported)
  /\ (PNC_V2 ∈ offered <->
      (exists a, selected = Some a /\ a <> EIM_V2)
      \/ selected = None /\ PNC ∈ supported /\ cs.(Session.is_tls) = true)
  /\ (forall a, a ∈ offered -> a = EIM_V2 \/ a = PNC_V2)
  /\ NoDup offered.
Proof.
  intros res cs' offered selected supported.
  subst res cs' offered. unfold ServiceDiscovery.get_services. cbn.
  fold selected supported.
  split; [reflexivity |].
  destruct selected as [a |].
  - (* a resumed session: the option selected before, whatever the settings *)
    destruct (decide (a = EIM_V2)) as [-> | Ha].
    + rewrite bool_decide_eq_true_2 by done.
      setoid_rewrite list_elem_of_singleton.
      repeat split; try (firstorder congruence). apply NoDup_singleton.
    + rewrite bool_decide_eq_false_2 by done.
      setoid_rewrite list_elem_of_singleton.
      repeat split; try (firstorder congruence). apply NoDup_singleton.
  - (* a new session: by configuration and transport *)
    setoid_rewrite elem_of_app. setoid_rewrite elem_of_if_singleton.
    rewrite andb_true_iff, !bool_decide_eq_true.
    repeat split; try (firstorder congruence).
    do 2 case_match; repeat constructor;
      by intros [=]%list_elem_of_singleton || by intros ?%elem_of_nil.
Qed.

(** X9: ServiceDiscovery followed by PaymentServiceSelection on a connection
    without TLS, in a session in which no payment option was selected
    before: once the ServiceDiscoveryReq is answered, a
    PaymentServiceSelectionReq that selects Contract as payment option or
    the certificate service (id 2) is refused with one of the three
    selection failures, and no payment option is stored. *)
Theorem secured_selection_needs_tls (fuel : nat) (X : Externals.t)
    (self self1 : StateSECC.t) (e e1 : Engine.t)
    (header header' : MessageHeader.t) (req : ServiceDiscoveryReq.t)
    (req' : PaymentServiceSelectionReq.t) :
  let cs := e.(Engine.comm_session) in
  let message' := v2g_message header' (payment_service_selection_req req') in
  let o := process_message (S (S fuel)) X ServiceDiscovery self1 e1 message' in
  cs.(Session.is_tls) = false ->
  cs.(Session.selected_auth_option) = None ->
  process_message (S fuel) X ServiceDiscovery self e
    (v2g_message header (service_discovery_req req))
  = Return self1 e1 ->
  req'.(PaymentServiceSelectionReq.selected_auth_option) = PNC_V2
  \/ ServiceID.CERTIFICATE ∈ selected_ids req' ->
  exists code,
    aborted self1 e1 message' code o
    /\ code ∈ [ResponseCode.FAILED_SERVICE_SELECTION_INVALID;
               ResponseCode.FAILED_NO_CHARGE_SERVICE_SELECTED;
               ResponseCode.FAILED_PAYMENT_SELECTION_INVALID]
    /\ Session.selected_auth_option <$> session_of o = Some None.
Proof.
  intros cs message' o Htls Hnone Hfirst Hsecured. subst o message'.
  (* what the first exchange left in the session *)
  assert (e1.(Engine.comm_session)
          = (ServiceDiscovery.get_services cs
               req.(ServiceDiscoveryReq.service_category)).2
          /\ self1.(StateSECC.expecting) = false) as [Hcs Hself].
  { revert Hfirst. destruct self as [[] rc]; unfold_states.
    all: destruct ServiceDiscovery.get_services; by intros [= <- <-]. }
  assert (e1.(Engine.comm_session).(Session.offered_services) = []) as Hservices.
  { rewrite Hcs. unfold ServiceDiscovery.get_services. cbn. fold cs.
    by rewrite Htls. }
  assert (e1.(Engine.comm_session).(Session.selected_auth_option) = None)
    as Hselected.
  { rewrite Hcs. unfold ServiceDiscovery.get_services. by cbn. }
  assert (PNC_V2 ∉ e1.(Engine.comm_session).(Session.offered_auth_options))
    as Hoffered.
  { rewrite Hcs. unfold ServiceDiscovery.get_services. cbn. fold cs.
    rewrite Hnone, Htls, andb_false_r, app_nil_r.
    case_bool_decide; [by intros [=]%list_elem_of_singleton | by intros ?%elem_of_nil]. }
  (* the second exchange *)
  pose proof (selected_services_loop_spec
    e1.(Engine.comm_session).(Session.offered_services)
    req'.(PaymentServiceSelectionReq.selected_service_list)
       .(SelectedServiceList.selected_service) false) as Hloop.
  cbn zeta in Hloop. fold (selected_ids req') in Hloop.
  destruct self1 as [expecting rc]. cbn in Hself. subst expecting.
  unfold_states. unfold_states.
  destruct PaymentServiceSelection.selected_services_loop as [id | seen].
  { eexists. split; [by eexists |]. split; [by left | cbn; by rewrite Hselected]. }
  destruct Hloop as [Hothers ->]. cbn [orb].
  destruct Hsecured as [Hcontract | Hcertificate].
  - case_bool_decide as Hcharging; cbn [negb].
    + rewrite Hcontract.
      rewrite bool_decide_eq_false_2 by (by rewrite auth_option_elem_of).
      eexists. split; [by eexists |].
      split; [by do 2 apply list_elem_of_further; left |].
      cbn; by rewrite Hselected.
    + eexists. split; [by eexists |].
      split; [by apply list_elem_of_further; left |].
      cbn; by rewrite Hselected.
  - exfalso. apply Hothers in Hcertificate; [| done].
    rewrite Hservices in Hcertificate. by apply elem_of_nil in Hcertificate.
Qed.

(** [secured_selection_needs_tls] at a session without TLS: after the
    ServiceDiscoveryReq, the charge service with Contract is refused with
    FAILED_PaymentSelectionInvalid. *)
Lemma secured_selection_needs_tls_witness :
  let e := Sample.engine Sample.comm_session in
  let first :=
    process_message 1 Sample.externals ServiceDiscovery StateSECC.init e
      (v2g_message (Sample.header "F9F9EE8505F55838")
         (service_discovery_req (ServiceDiscoveryReq.mk None None))) in
  exists self1 e1 code,
    first = Return self1 e1
    /\ aborted self1 e1
         (v2g_message (Sample.header "F9F9EE8505F55838")
            (payment_service_selection_req
               (PaymentServiceSelectionReq.mk PNC_V2
                  (SelectedServiceList.mk [SelectedService.mk 1 None]))))
         code
         (process_message 2 Sample.externals ServiceDiscovery self1 e1
            (v2g_message (Sample.header "F9F9EE8505F55838")
               (payment_service_selection_req
                  (PaymentServiceSelectionReq.mk PNC_V2
                     (SelectedServiceList.mk [SelectedService.mk 1 None])))))
    /\ code ∈ [ResponseCode.FAILED_SERVICE_SELECTION_INVALID;
               ResponseCode.FAILED_NO_CHARGE_SERVICE_SELECTED;
               ResponseCode.FAILED_PAYMENT_SELECTION_INVALID].
Proof.
  intros e first.
  eexists _, _.
  destruct (secured_selection_needs_tls 0 Sample.externals StateSECC.init _
              e _ (Sample.header "F9F9EE8505F55838")
              (Sample.header "F9F9EE8505F55838")
              (ServiceDiscoveryReq.mk None None)
              (PaymentServiceSelectionReq.mk PNC_V2
                 (SelectedServiceList.mk [SelectedService.mk 1 None]))
              eq_refl eq_refl eq_refl (or_introl eq_refl))
    as (code & Habort & Hcode & _).
  exists code. split; [reflexivity |]. by split.
Defined.

(** ** Installation of a contract certificate (CertificateInstallation) *)

(** X10: a CertificateInstallationReq whose signature does not verify
    against the OEM provisioning certificate, the two OEM sub-CA
    certificates and the OEM root is refused with FAILED_SignatureError.
    When it verifies, the request is answered OK exactly when the private
    key of the contract certificate can be read and encrypted and the
    private key of the CPS leaf can be read; the next state is then
    PaymentDetails, the response carries the contract chain with the two MO
    sub-CA certificates, and the signature queued with it is made with the
    CPS leaf key over four elements with the ids id1, id2, id3 and id4, in
    this order.  In every other case the request is refused with FAILED.
    Nothing but the stop reason of the session is ever changed. *)
Theorem CertificateInstallation_outcome (fuel : nat) (X : Externals.t)
    (self : StateSECC.t) (e : Engine.t) (header : MessageHeader.t)
    (req : CertificateInstallationReq.t) :
  let load_cert := X.(Externals.load_cert) in
  let message := v2g_message header (certificate_installation_req req) in
  let o := process_message (S fuel) X CertificateInstallation self e message in
  let verified :=
    X.(Externals.verify_signature) header.(MessageHeader.signature)
      [(Some req.(CertificateInstallationReq.id),
        X.(Externals.to_exi) (exi_certificate_installation_req req)
          ISO_V2_MSG_DEF)]
      req.(CertificateInstallationReq.oem_provisioning_cert)
      (Some [load_cert OEM_SUB_CA2_DER; load_cert OEM_SUB_CA1_DER])
      (Some OEM_ROOT_DER) in
  let encrypted :=
    match X.(Externals.load_priv_key) CONTRACT_LEAF_PEM PEM with
    | inr key =>
        match X.(Externals.encrypt_priv_key) (load_cert OEM_LEAF_DER) key with
        | inr keys => Some keys
        | inl _ => None
        end
    | inl _ => None
    end in
  let answered (keys : Bytes * Bytes) (signature_key : X.(Externals.PrivateKey)) :=
    exists res elements,
      o = Return self
            (StateSECC.create_next_message e (Some (Next PaymentDetails))
               (certificate_installation_res res)
               Timeouts.V2G_SECC_SEQUENCE_TIMEOUT ISO_V2_MSG_DEF
               (Some (X.(Externals.create_signature) elements signature_key)))
      /\ res.(CertificateInstallationRes.response_code) = ResponseCode.OK
      /\ res.(CertificateInstallationRes.dh_public_key).(DHPublicKey.value)
         = keys.1
      /\ res.(CertificateInstallationRes.encrypted_private_key)
            .(EncryptedPrivateKey.value) = keys.2
      /\ res.(CertificateInstallationRes.contract_cert_chain)
         = CertificateChain.mk (Some "id1") (load_cert CONTRACT_LEAF_DER)
             (Some (SubCertificates.mk
                      [load_cert MO_SUB_CA2_DER; load_cert MO_SUB_CA1_DER]))
      /\ elements.*1 = [Some "id1"; Some "id2"; Some "id3"; Some "id4"] in
  match verified, encrypted, X.(Externals.load_priv_key) CPS_LEAF_PEM PEM with
  | false, _, _ =>
      aborted self e message ResponseCode.FAILED_SIGNATURE_ERROR o
  | true, Some keys, inr signature_key => answered keys signature_key
  | true, _, _ => aborted self e message ResponseCode.FAILED o
  end.
Proof.
  intros load_cert message o verified encrypted answered.
  subst o message answered encrypted. unfold_states. fold load_cert verified.
  destruct verified; cbn [negb]; [| by eexists].
  destruct (Externals.load_priv_key X CONTRACT_LEAF_PEM PEM) as [exc | key];
    [by eexists |].
  destruct (Externals.encrypt_priv_key X (load_cert OEM_LEAF_DER) key)
    as [[| exc] | [dh_pub_key encrypted_priv_key_bytes]]; try by eexists.
  destruct (Externals.load_priv_key X CPS_LEAF_PEM PEM) as [exc | signature_key];
    [by eexists |].
  eexists _, _. by repeat split.
Qed.

(** ** Contract certificate chain (PaymentDetails, Authorization) *)

(** X11: a PaymentDetailsReq whose chain carries sub-certificates: when
    [verify_certs] accepts the chain against the MO root, the chain is
    stored in the session, the response is OK and the next state is
    Authorization; when it raises a certificate error, the request is
    refused with a code that starts with FAILED (FAILED_CertChainError for
    a signature or chain-length error, FAILED_CertificateExpired,
    FAILED_CertificateRevoked, plain FAILED for a certificate that is not
    yet valid or has a bad attribute) and the chain of the session stays as
    it was. *)
Theorem PaymentDetails_outcome (fuel : nat) (X : Externals.t)
    (self : StateSECC.t) (e : Engine.t) (header : MessageHeader.t)
    (emaid : string) (id : option string) (certificate : Bytes)
    (sub_certificates : list Bytes) :
  let cs := e.(Engine.comm_session) in
  let chain :=
    CertificateChain.mk id certificate
      (Some (SubCertificates.mk sub_certificates)) in
  let message :=
    v2g_message header (payment_details_req (PaymentDetailsReq.mk emaid chain)) in
  let o := process_message (S fuel) X PaymentDetails self e message in
  match X.(Externals.verify_certs) certificate sub_certificates MO_ROOT_DER with
  | None =>
      raised o = None
      /\ response_code_of o = Some ResponseCode.OK
      /\ next_state_of o = Some (Next Authorization)
      /\ Session.contract_cert_chain <$> session_of o = Some (Some chain)
  | Some exc =>
      let code :=
        match exc with
        | CertSignatureError _ _ _ | CertChainLengthError _ _ =>
            ResponseCode.FAILED_CERT_CHAIN_ERROR
        | CertExpiredError _ => ResponseCode.FAILED_CERTIFICATE_EXPIRED
        | CertRevokedError _ => ResponseCode.FAILED_CERTIFICATE_REVOKED
        | CertNotYetValidError _ | CertAttributeError _ => ResponseCode.FAILED
        end in
      aborted self e message code o
      /\ ResponseCode.is_failed code = true
      /\ Session.contract_cert_chain <$> session_of o
         = Some cs.(Session.contract_cert_chain)
  end.
Proof.
  intros cs chain message o. subst o message. unfold_states. cbn.
  destruct (Externals.verify_certs X certificate sub_certificates MO_ROOT_DER)
    as [exc |]; [| by repeat split].
  destruct exc; cbn; (split; [by eexists | by split]).
Qed.

(** X12: an AuthorizationReq in a session whose selected payment option is
    not Contract is never checked for its signature; with Contract it is
    refused with FAILED_SignatureError unless a contract certificate chain
    is stored and the signature of the request verifies against the leaf
    certificate of that chain.  A request that is not refused is answered
    OK: with Finished and ChargeParameterDiscovery as next state when the
    EVSE controller reports the authorisation as done, with Ongoing and
    Authorization as next state otherwise; the session is left as it was. *)
Theorem Authorization_outcome (fuel : nat) (X : Externals.t)
    (self : StateSECC.t) (e : Engine.t) (header : MessageHeader.t)
    (req : AuthorizationReq.t) :
  let cs := e.(Engine.comm_session) in
  let message := v2g_message header (authorization_req req) in
  let o := process_message (S fuel) X Authorization self e message in
  let authorised := cs.(Session.evse_controller).(EVSEController.is_authorised) in
  let answered :=
    o = Return self
          (StateSECC.create_next_message e
             (Some (Next (if authorised then ChargeParameterDiscovery
                          else Authorization)))
             (authorization_res
                (AuthorizationRes.mk ResponseCode.OK
                   (if authorised then FINISHED else ONGOING)))
             Timeouts.V2G_SECC_SEQUENCE_TIMEOUT ISO_V2_MSG_DEF None) in
  let refused := aborted self e message ResponseCode.FAILED_SIGNATURE_ERROR o in
  let verified (chain : CertificateChain.t) :=
    X.(Externals.verify_signature) header.(MessageHeader.signature)
      [(req.(AuthorizationReq.id),
        X.(Externals.to_exi) (exi_authorization_req req) ISO_V2_MSG_DEF)]
      chain.(CertificateChain.certificate) None None in
  match cs.(Session.selected_auth_option), cs.(Session.contract_cert_chain) with
  | Some PNC_V2, None => refused
  | Some PNC_V2, Some chain => if verified chain then answered else refused
  | _, _ => answered
  end.
Proof.
  intros cs message o authorised answered refused verified.
  subst o message answered refused verified. unfold_states. fold cs authorised.
  destruct (Session.selected_auth_option cs) as [[] |];
    destruct (Session.contract_cert_chain cs) as [chain |]; cbn;
    try (by destruct authorised); try by eexists.
  destruct (Externals.verify_signature X _ _ _ _ _); cbn;
    [by destruct authorised | by eexists].
Qed.

(** X13: PaymentDetails followed by Authorization in a session with
    Contract as selected payment option: once PaymentDetails has accepted a
    chain, an AuthorizationReq is answered OK exactly when its signature
    verifies against the leaf certificate of that chain, and is refused
    with FAILED_SignatureError otherwise. *)
Theorem PaymentDetails_then_Authorization (fuel : nat) (X : Externals.t)
    (self self' : StateSECC.t) (e : Engine.t) (header header' : MessageHeader.t)
    (emaid : string) (id : option string) (certificate : Bytes)
    (sub_certificates : list Bytes) (req' : AuthorizationReq.t) :
  let chain :=
    CertificateChain.mk id certificate
      (Some (SubCertificates.mk sub_certificates)) in
  let first :=
    process_message (S fuel) X PaymentDetails self e
      (v2g_message header (payment_details_req (PaymentDetailsReq.mk emaid chain))) in
  let verified :=
    X.(Externals.verify_signature) header'.(MessageHeader.signature)
      [(req'.(AuthorizationReq.id),
        X.(Externals.to_exi) (exi_authorization_req req') ISO_V2_MSG_DEF)]
      certificate None None in
  e.(Engine.comm_session).(Session.selected_auth_option) = Some PNC_V2 ->
  X.(Externals.verify_certs) certificate sub_certificates MO_ROOT_DER = None ->
  exists e1,
    engine_of first = Some e1
    /\ let message' := v2g_message header' (authorization_req req') in
       let o := process_message (S fuel) X Authorization self' e1 message' in
       (verified = true -> response_code_of o = Some ResponseCode.OK)
       /\ (verified = false ->
           aborted self' e1 message' ResponseCode.FAILED_SIGNATURE_ERROR o).
Proof.
  intros chain first verified Hpnc Hcerts. subst first. unfold_states. cbn.
  rewrite Hcerts. eexists. split; [reflexivity |].
  unfold_states. cbn. rewrite Hpnc. fold verified.
  rewrite bool_decide_eq_true_2 by done.
  split; intros ->; cbn; [by destruct EVSEController.is_authorised | by eexists].
Qed.

(** [PaymentDetails_then_Authorization] with externals that accept every
    chain and every signature. *)
Lemma PaymentDetails_then_Authorization_witness :
  let e :=
    Sample.engine (Session.set_selected_auth_option (Some PNC_V2)
                     Sample.comm_session) in
  let first :=
    process_message 1 Sample.externals PaymentDetails StateSECC.init e
      (v2g_message (Sample.header "F9F9EE8505F55838")
         (payment_details_req
            (PaymentDetailsReq.mk "UKSWI123456789A"
               (CertificateChain.mk None [x30]
                  (Some (SubCertificates.mk [[x30]])))))) in
  exists e1,
    engine_of first = Some e1
    /\ response_code_of
         (process_message 1 Sample.externals Authorization StateSECC.init e1
            (v2g_message (Sample.header "F9F9EE8505F55838")
               (authorization_req (AuthorizationReq.mk None None))))
       = Some ResponseCode.OK.
Proof.
  intros e first.
  destruct (PaymentDetails_then_Authorization 0 Sample.externals
              StateSECC.init StateSECC.init e
              (Sample.header "F9F9EE8505F55838")
              (Sample.header "F9F9EE8505F55838")
              "UKSWI123456789A" None [x30] [[x30]]
              (AuthorizationReq.mk None None) eq_refl eq_refl)
    as (e1 & He1 & Hok & _).
  exists e1. split; [exact He1 | exact (Hok eq_refl)].
Defined.

(** ** Schedules (ChargeParameterDiscovery, PowerDelivery, ChargingStatus) *)

(** The path of a well-formed request through the checks of
    ChargeParameterDiscovery: the mode is supported, the parameters are the
    AC ones or else the DC ones, and a departure time that is absent or 0
    counts as 0. *)
Ltac accepted_request req Hmode Hparams :=
  rewrite (bool_decide_eq_true_2 _ Hmode); cbn [negb];
  (destruct (ChargeParameterDiscoveryReq.ac_ev_charge_parameter req) as [? |];
   [| destruct (ChargeParameterDiscoveryReq.dc_ev_charge_parameter req)
        as [? |]; [| by destruct Hparams as [[] | []]]]);
  match goal with
  | |- context [Py.truthy_int ?d] =>
      replace (if negb (Py.truthy_int d) then 0 else default 0 d)
        with (default 0 d)
        by (destruct d as [? |]; [| done]; cbn; by case_bool_decide)
  end.

(** X14: a ChargeParameterDiscoveryReq for a supported mode, with AC or DC
    parameters, is answered OK with the schedules the EVSE controller gives
    for the requested number of entries and the departure time (0 when the
    request has none).  With AC parameters in the request the response
    carries the AC parameters of the EVSE and no DC ones, otherwise the DC
    ones and no AC ones.  When the controller gives no schedule, the answer
    is Ongoing, the state is kept, its first-visit flag is set again and the
    offered schedules of the session stay as they were; otherwise the answer
    is Finished, the next state is PowerDelivery and the offered schedules
    of the session are those of the response. *)
Theorem ChargeParameterDiscovery_schedules (fuel : nat) (X : Externals.t)
    (self : StateSECC.t) (e : Engine.t) (header : MessageHeader.t)
    (req : ChargeParameterDiscoveryReq.t) :
  let cs := e.(Engine.comm_session) in
  let controller := cs.(Session.evse_controller) in
  let schedules := schedules_for cs req in
  let o := process_message (S fuel) X ChargeParameterDiscovery self e
             (v2g_message header (charge_parameter_discovery_req req)) in
  well_formed cs req ->
  exists res,
    raised o = None
    /\ payload_of o = Some (charge_parameter_discovery_res res)
    /\ res.(ChargeParameterDiscoveryRes.response_code) = ResponseCode.OK
    /\ res.(ChargeParameterDiscoveryRes.sa_schedule_list) = SAScheduleList.mk schedules
    /\ (res.(ChargeParameterDiscoveryRes.ac_charge_parameter),
        res.(ChargeParameterDiscoveryRes.dc_charge_parameter))
       = match req.(ChargeParameterDiscoveryReq.ac_ev_charge_parameter) with
         | Some _ =>
             (Some controller.(EVSEController.get_ac_evse_charge_parameter), None)
         | None =>
             (None, Some controller.(EVSEController.get_dc_evse_charge_parameter))
         end
    /\ (schedules = [] ->
        res.(ChargeParameterDiscoveryRes.evse_processing) = ONGOING
        /\ next_state_of o = None
        /\ StateSECC.expecting <$> self_of o = Some true
        /\ Session.offered_schedules <$> session_of o
           = Some cs.(Session.offered_schedules))
    /\ (schedules <> [] ->
        res.(ChargeParameterDiscoveryRes.evse_processing) = FINISHED
        /\ next_state_of o = Some (Next PowerDelivery)
        /\ StateSECC.expecting <$> self_of o = Some false
        /\ Session.offered_schedules <$> session_of o = Some schedules).
Proof.
  intros cs controller schedules o [Hmode Hparams].
  subst o schedules. unfold schedules_for, departure_time_of.
  destruct self as [[] rc]; unfold_states; fold cs controller.
  all: accepted_request req Hmode Hparams.
  all: destruct (EVSEController.get_sa_schedule_list _ _ _) as [| schedule rest];
       cbn.
  all: eexists; repeat split; done.
Qed.

(** [ChargeParameterDiscovery_schedules] for a DC request at the sample
    EVSE, whose controller offers one schedule. *)
Lemma ChargeParameterDiscovery_schedules_witness :
  let o :=
    process_message 1 Sample.externals ChargeParameterDiscovery StateSECC.init
      (Sample.engine Sample.comm_session)
      (v2g_message (Sample.header "F9F9EE8505F55838")
         (charge_parameter_discovery_req
            (ChargeParameterDiscoveryReq.mk None DC_EXTENDED None
               (Some (DCEVChargeParameter.mk None (Sample.pv 200 AMPERE)
                        (Sample.pv 400 VOLTAGE)))))) in
  next_state_of o = Some (Next PowerDelivery)
  /\ Session.offered_schedules <$> session_of o = Some [Sample.schedule 1].
Proof.
  intros o.
  destruct (ChargeParameterDiscovery_schedules 0 Sample.externals
              StateSECC.init (Sample.engine Sample.comm_session)
              (Sample.header "F9F9EE8505F55838")
              (ChargeParameterDiscoveryReq.mk None DC_EXTENDED None
                 (Some (DCEVChargeParameter.mk None (Sample.pv 200 AMPERE)
                          (Sample.pv 400 VOLTAGE)))))
    as (res & _ & _ & _ & _ & _ & _ & Hsome).
  { split; [apply list_elem_of_here | right; by eexists]. }
  destruct Hsome as (_ & Hnext & _ & Hoffered); [discriminate |].
  by split.
Defined.

(** X15: the response to a ChargeParameterDiscoveryReq is signed only for
    the first schedule of the list: when that schedule carries a sales
    tariff and the private key of MO sub-CA 2 can be read, the signature is
    the one made with that key over the tariff; when it carries none, or
    the key cannot be read, the response goes out unsigned, still OK,
    whatever tariffs the later schedules carry. *)
Theorem ChargeParameterDiscovery_signature (fuel : nat) (X : Externals.t)
    (self : StateSECC.t) (e : Engine.t) (header : MessageHeader.t)
    (req : ChargeParameterDiscoveryReq.t) (schedule : SAScheduleTuple.t)
    (rest : list SAScheduleTuple.t) :
  let cs := e.(Engine.comm_session) in
  let o := process_message (S fuel) X ChargeParameterDiscovery self e
             (v2g_message header (charge_parameter_discovery_req req)) in
  well_formed cs req ->
  schedules_for cs req = schedule :: rest ->
  response_code_of o = Some ResponseCode.OK
  /\ signature_of o
     = Some match schedule.(SAScheduleTuple.sales_tariff),
                  X.(Externals.load_priv_key) MO_SUB_CA2_PEM PEM with
            | Some sales_tariff, inr key =>
                Some (X.(Externals.create_signature)
                        [(sales_tariff.(SalesTariff.id),
                          X.(Externals.to_exi) (exi_sales_tariff sales_tariff)
                            ISO_V2_MSG_DEF)] key)
            | _, _ => None
            end.
Proof.
  intros cs o [Hmode Hparams]. subst o.
  unfold schedules_for, departure_time_of.
  destruct self as [[] rc]; unfold_states; fold cs.
  all: accepted_request req Hmode Hparams.
  all: intros ->; cbn.
  all: destruct (SAScheduleTuple.sales_tariff schedule);
       destruct (Externals.load_priv_key X MO_SUB_CA2_PEM PEM); by split.
Qed.

(** [ChargeParameterDiscovery_signature] at the sample EVSE: its only
    schedule has no sales tariff, the response is not signed. *)
Lemma ChargeParameterDiscovery_signature_witness :
  signature_of
    (process_message 1 Sample.externals ChargeParameterDiscovery StateSECC.init
       (Sample.engine Sample.comm_session)
       (v2g_message (Sample.header "F9F9EE8505F55838")
          (charge_parameter_discovery_req
             (ChargeParameterDiscoveryReq.mk None DC_EXTENDED None
                (Some (DCEVChargeParameter.mk None (Sample.pv 200 AMPERE)
                         (Sample.pv 400 VOLTAGE)))))))
  = Some None.
Proof.
  refine (proj2 (ChargeParameterDiscovery_signature 0 Sample.externals
                   StateSECC.init (Sample.engine Sample.comm_session)
                   (Sample.header "F9F9EE8505F55838")
                   (ChargeParameterDiscoveryReq.mk None DC_EXTENDED None
                      (Some (DCEVChargeParameter.mk None (Sample.pv 200 AMPERE)
                               (Sample.pv 400 VOLTAGE))))
                   (Sample.schedule 1) [] _ eq_refl)).
  split; [apply list_elem_of_here | right; by eexists].
Defined.

(** X16: ChargeParameterDiscovery followed by PowerDelivery: once the state
    has answered a request with a non-empty list of schedules, a
    PowerDeliveryReq sent to it is refused with FAILED_TariffSelectionInvalid
    exactly when its schedule tuple id is the id of none of these
    schedules. *)
Theorem offered_schedules_decide_tariff (fuel : nat) (X : Externals.t)
    (self self1 : StateSECC.t) (e e1 : Engine.t)
    (header header' : MessageHeader.t) (req : ChargeParameterDiscoveryReq.t)
    (req' : PowerDeliveryReq.t) :
  let cs := e.(Engine.comm_session) in
  let schedules := schedules_for cs req in
  let o := process_message (S (S fuel)) X ChargeParameterDiscovery self1 e1
             (v2g_message header' (power_delivery_req req')) in
  well_formed cs req ->
  schedules <> [] ->
  process_message (S fuel) X ChargeParameterDiscovery self e
    (v2g_message header (charge_parameter_discovery_req req))
  = Return self1 e1 ->
  response_code_of o = Some ResponseCode.FAILED_TARIFF_SELECTION_INVALID
  <-> req'.(PowerDeliveryReq.sa_schedule_tuple_id)
        ∉ (SAScheduleTuple.sa_schedule_tuple_id <$> schedules).
Proof.
  intros cs schedules o [Hmode Hparams] Hsome Hfirst. subst o.
  (* what the first exchange left *)
  assert (self1.(StateSECC.expecting) = false
          /\ e1.(Engine.comm_session).(Session.offered_schedules) = schedules)
    as [Hself Hoffered].
  { revert Hfirst Hsome. subst schedules.
    unfold schedules_for, departure_time_of.
    destruct self as [[] rc]; unfold_states; fold cs.
    all: accepted_request req Hmode Hparams.
    all: destruct (EVSEController.get_sa_schedule_list _ _ _)
           as [| schedule rest]; cbn; [by intros _ [] |].
    all: by intros [= <- <-] _. }
  (* the second exchange: handed over to PowerDelivery *)
  destruct self1 as [expecting rc]. cbn in Hself. subst expecting.
  unfold_states. unfold_states. rewrite Hoffered.
  case_bool_decide as Hid; cbn [negb].
  - split; [intros Hcode; exfalso | by intros []].
    destruct (bool_decide (PowerDeliveryReq.charge_progress req' = START)
              && negb (Py.truthy (PowerDeliveryReq.charging_profile req')));
      [discriminate Hcode |].
    repeat case_bool_decide; try discriminate Hcode.
    by destruct (Session.charge_progress_started _).
  - by split.
Qed.

(** [offered_schedules_decide_tariff] at the sample EVSE, which offers the
    schedule with id 1: a PowerDeliveryReq for the schedule 2 is refused
    with FAILED_TariffSelectionInvalid. *)
Lemma offered_schedules_decide_tariff_witness :
  let first :=
    process_message 1 Sample.externals ChargeParameterDiscovery StateSECC.init
      (Sample.engine Sample.comm_session)
      (v2g_message (Sample.header "F9F9EE8505F55838")
         (charge_parameter_discovery_req
            (ChargeParameterDiscoveryReq.mk None DC_EXTENDED None
               (Some (DCEVChargeParameter.mk None (Sample.pv 200 AMPERE)
                        (Sample.pv 400 VOLTAGE)))))) in
  exists self1 e1,
    first = Return self1 e1
    /\ response_code_of
         (process_message 2 Sample.externals ChargeParameterDiscovery self1 e1
            (v2g_message (Sample.header "F9F9EE8505F55838")
               (power_delivery_req (PowerDeliveryReq.mk STOP 2 None))))
       = Some ResponseCode.FAILED_TARIFF_SELECTION_INVALID.
Proof.
  intros first. eexists _, _. split; [reflexivity |].
  apply (offered_schedules_decide_tariff 0 Sample.externals StateSECC.init _
           (Sample.engine Sample.comm_session) _
           (Sample.header "F9F9EE8505F55838")
           (Sample.header "F9F9EE8505F55838")
           (ChargeParameterDiscoveryReq.mk None DC_EXTENDED None
              (Some (DCEVChargeParameter.mk None (Sample.pv 200 AMPERE)
                       (Sample.pv 400 VOLTAGE))))
           (PowerDeliveryReq.mk STOP 2 None)).
  - split; [apply list_elem_of_here | right; by eexists].
  - discriminate.
  - reflexivity.
  - cbn. intros [[=] | []%elem_of_nil]%elem_of_cons.
Defined.

(** X17: a PowerDeliveryReq for an offered schedule: with Start and a
    charging profile it is answered OK, the next state is ChargingStatus,
    the schedule is recorded as selected and charge progress as started;
    with Stop it is answered OK, the next state is SessionStop and the
    session is left exactly as it was (the selected schedule and the
    started flag included). *)
Theorem PowerDelivery_start_and_stop (fuel : nat) (X : Externals.t)
    (self : StateSECC.t) (e : Engine.t) (header : MessageHeader.t)
    (req : PowerDeliveryReq.t) :
  let cs := e.(Engine.comm_session) in
  let id := req.(PowerDeliveryReq.sa_schedule_tuple_id) in
  let progress := req.(PowerDeliveryReq.charge_progress) in
  let o := process_message (S fuel) X PowerDelivery self e
             (v2g_message header (power_delivery_req req)) in
  offered_tariff cs id ->
  (progress = START -> is_Some req.(PowerDeliveryReq.charging_profile) ->
   response_code_of o = Some ResponseCode.OK
   /\ next_state_of o = Some (Next ChargingStatus)
   /\ session_of o
      = Some (Session.set_charge_progress_started true
                (Session.set_selected_schedule (Some id) cs)))
  /\ (progress = STOP ->
      response_code_of o = Some ResponseCode.OK
      /\ next_state_of o = Some (Next SessionStop)
      /\ session_of o = Some cs).
Proof.
  intros cs id progress o Hid. subst o.
  apply offered_tariff_elem_of in Hid.
  destruct self as [[] rc]; unfold_states; fold cs id progress.
  all: rewrite (bool_decide_eq_true_2 _ Hid); cbn [negb].
  all: split; [intros -> [profile ->] | intros ->]; cbn.
  all: by repeat split.
Qed.

(** [PowerDelivery_start_and_stop] after the schedule 1 was offered. *)
Lemma PowerDelivery_start_and_stop_witness :
  let cs := Session.set_offered_schedules [Sample.schedule 1] Sample.comm_session in
  let run req :=
    process_message 1 Sample.externals PowerDelivery StateSECC.init
      (Sample.engine cs)
      (v2g_message (Sample.header "F9F9EE8505F55838") (power_delivery_req req)) in
  next_state_of (run (PowerDeliveryReq.mk START 1 (Some (ChargingProfile.mk []))))
  = Some (Next ChargingStatus)
  /\ next_state_of (run (PowerDeliveryReq.mk STOP 1 None))
     = Some (Next SessionStop).
Proof.
  intros cs run.
  assert (offered_tariff cs 1) as Hid
    by (exists (Sample.schedule 1); split; [apply list_elem_of_here | reflexivity]).
  pose proof (fun req =>
    PowerDelivery_start_and_stop 0 Sample.externals StateSECC.init
      (Sample.engine cs) (Sample.header "F9F9EE8505F55838") req) as H.
  cbn zeta in H. split.
  - destruct (H (PowerDeliveryReq.mk START 1 (Some (ChargingProfile.mk []))) Hid)
      as [Hstart _].
    destruct Hstart as (_ & Hnext & _); [reflexivity | by eexists | exact Hnext].
  - destruct (H (PowerDeliveryReq.mk STOP 1 None) Hid) as [_ Hstop].
    destruct Hstop as (_ & Hnext & _); [reflexivity | exact Hnext].
Defined.

(** X18: PowerDelivery followed by ChargingStatus: after a PowerDeliveryReq
    with Start was accepted for a schedule, a ChargingStatusReq sent to the
    same state is answered OK with the id of that schedule and the id of
    the EVSE; the response carries no meter info and asks for no receipt,
    the state is kept (MeteringReceipt is not named) and the session is not
    changed. *)
Theorem ChargingStatus_reports_selected_schedule (fuel : nat) (X : Externals.t)
    (self self1 : StateSECC.t) (e e1 : Engine.t)
    (header header' : MessageHeader.t) (req : PowerDeliveryReq.t) :
  let cs := e.(Engine.comm_session) in
  let id := req.(PowerDeliveryReq.sa_schedule_tuple_id) in
  let o := process_message (S (S fuel)) X PowerDelivery self1 e1
             (v2g_message header' charging_status_req) in
  offered_tariff cs id ->
  req.(PowerDeliveryReq.charge_progress) = START ->
  is_Some req.(PowerDeliveryReq.charging_profile) ->
  process_message (S fuel) X PowerDelivery self e
    (v2g_message header (power_delivery_req req))
  = Return self1 e1 ->
  exists res,
    payload_of o = Some (charging_status_res res)
    /\ res.(ChargingStatusRes.response_code) = ResponseCode.OK
    /\ res.(ChargingStatusRes.sa_schedule_tuple_id) = Some id
    /\ res.(ChargingStatusRes.evse_id)
       = cs.(Session.evse_controller).(EVSEController.get_evse_id)
    /\ res.(ChargingStatusRes.meter_info) = None
    /\ res.(ChargingStatusRes.receipt_required) = false
    /\ next_state_of o = None
    /\ session_of o = Some e1.(Engine.comm_session).
Proof.
  intros cs id o Hid Hstart [profile Hprofile] Hfirst. subst o.
  apply offered_tariff_elem_of in Hid.
  assert (self1.(StateSECC.expecting) = false
          /\ e1.(Engine.comm_session)
             = Session.set_charge_progress_started true
                 (Session.set_selected_schedule (Some id) cs))
    as [Hself Hcs].
  { revert Hfirst. destruct self as [[] rc]; unfold_states; fold cs id.
    all: rewrite (bool_decide_eq_true_2 _ Hid), Hstart, Hprofile; cbn.
    all: by intros [= <- <-]. }
  destruct self1 as [expecting rc]. cbn in Hself. subst expecting.
  unfold_states. unfold_states. rewrite Hcs. cbn.
  eexists. by repeat split.
Qed.

(** [ChargingStatus_reports_selected_schedule] after the schedule 1 was
    offered and selected. *)
Lemma ChargingStatus_reports_selected_schedule_witness :
  let cs := Session.set_offered_schedules [Sample.schedule 1] Sample.comm_session in
  let first :=
    process_message 1 Sample.externals PowerDelivery StateSECC.init
      (Sample.engine cs)
      (v2g_message (Sample.header "F9F9EE8505F55838")
         (power_delivery_req
            (PowerDeliveryReq.mk START 1 (Some (ChargingProfile.mk []))))) in
  exists self1 e1 res,
    first = Return self1 e1
    /\ payload_of
         (process_message 2 Sample.externals PowerDelivery self1 e1
            (v2g_message (Sample.header "F9F9EE8505F55838") charging_status_req))
       = Some (charging_status_res res)
    /\ res.(ChargingStatusRes.sa_schedule_tuple_id) = Some 1.
Proof.
  intros cs first.
  assert (offered_tariff cs 1) as Hid
    by (exists (Sample.schedule 1); split; [apply list_elem_of_here | reflexivity]).
  destruct (ChargingStatus_reports_selected_schedule 0 Sample.externals
              StateSECC.init _ (Sample.engine cs) _
              (Sample.header "F9F9EE8505F55838")
              (Sample.header "F9F9EE8505F55838")
              (PowerDeliveryReq.mk START 1 (Some (ChargingProfile.mk [])))
              Hid eq_refl (ex_intro _ _ eq_refl) eq_refl)
    as (res & Hpayload & _ & Hschedule & _).
  eexists _, _, res. split; [reflexivity |]. by split.
Defined.

(** ** Receipts without a verified signature (MeteringReceipt) *)

(** X19: no MeteringReceiptReq gets past the check of its signature
    unverified: either the session holds a contract certificate chain and
    the signature of the request verifies against the leaf certificate of
    that chain, or the request is refused with
    FAILED_MeteringSignatureNotValid, whatever meter reading it carries. *)
Theorem MeteringReceipt_needs_verified_signature (fuel : nat) (X : Externals.t)
    (self : StateSECC.t) (e : Engine.t) (header : MessageHeader.t)
    (req : MeteringReceiptReq.t) :
  let cs := e.(Engine.comm_session) in
  let message := v2g_message header (metering_receipt_req req) in
  let o := process_message (S fuel) X MeteringReceipt self e message in
  let verified (chain : CertificateChain.t) :=
    X.(Externals.verify_signature) header.(MessageHeader.signature)
      [(req.(MeteringReceiptReq.id),
        X.(Externals.to_exi) (exi_metering_receipt_req req) ISO_V2_MSG_DEF)]
      chain.(CertificateChain.certificate) None None in
  (exists chain,
     cs.(Session.contract_cert_chain) = Some chain /\ verified chain = true)
  \/ aborted self e message ResponseCode.FAILED_METERING_SIGNATURE_NOT_VALID o.
Proof.
  intros cs message o verified. subst o message verified.
  destruct (Session.contract_cert_chain cs) as [chain |] eqn:Hchain.
  - destruct (X.(Externals.verify_signature) header.(MessageHeader.signature)
                [(req.(MeteringReceiptReq.id),
                  X.(Externals.to_exi) (exi_metering_receipt_req req)
                    ISO_V2_MSG_DEF)]
                chain.(CertificateChain.certificate) None None) eqn:Hverified;
      [left; by exists chain | right].
    destruct self as [[] rc]; unfold_states; fold cs.
    all: rewrite Hchain, Hverified; by eexists.
  - right. destruct self as [[] rc]; unfold_states; fold cs.
    all: rewrite Hchain; by eexists.
Qed.

(** ** Details of a service (ServiceDetail) *)

(** X20: a ServiceDetailReq is answered OK for every service id, offered or
    not: the response repeats the id and its parameter list holds the one
    parameter set of the certificate service (set 1: Service =
    Installation) when the id is 2, and is empty for any other id; the
    state is kept and the session is not changed. *)
Theorem ServiceDetail_answers_every_id (fuel : nat) (X : Externals.t)
    (self : StateSECC.t) (e : Engine.t) (header : MessageHeader.t)
    (req : ServiceDetailReq.t) :
  let id := req.(ServiceDetailReq.service_id) in
  let o := process_message (S fuel) X ServiceDetail self e
             (v2g_message header (service_detail_req req)) in
  let installation :=
    ParameterSet.mk 1 [Parameter_.mk "Service" (Some "Installation")] in
  payload_of o
  = Some (service_detail_res
            (ServiceDetailRes.mk ResponseCode.OK id
               (ServiceParameterList.mk
                  (if decide (id = 2) then [installation] else []))))
  /\ next_state_of o = None
  /\ session_of o = Some e.(Engine.comm_session).
Proof.
  intros id o installation. subst o.
  destruct self as [[] rc]; unfold_states; fold id.
  all: unfold ServiceID.CERTIFICATE; destruct (decide (id = 2)) as [-> | Hid].
  all: try rewrite (bool_decide_eq_false_2 _ Hid); by repeat split.
Qed.

(** ** Entries of the failed-response registries *)

Lemma built_from_spec (good : FailedResponses.Class -> FailedResponses.Value -> bool)
    (n : nat)
    (registry : FailedResponses.M (gmap FailedResponses.Class FailedResponses.Value)) :
  FailedResponsesChecks.built_from good n registry = true ->
  exists d,
    registry = inr d /\ size d = n
    /\ map_Forall (fun k v => good k v = true) d.
Proof.
  destruct registry as [exc | d]; [discriminate |]. cbn.
  intros [Hn Hall]%andb_prop. exists d. split; [done |].
  split; [by apply Nat.eqb_eq |].
  apply map_Forall_to_list, Forall_forall. intros [k v] Hkv.
  rewrite forallb_forall in Hall. apply (Hall (k, v)).
  by apply list_elem_of_In.
Qed.


(** X22: the ISO 15118-20 registry is built and has fourteen entries; each
    maps a request class to a triple of the failed response of the response
    class of the same name and module, built with the header of session id
    00 and timestamp 1, the namespace and the payload type of the module
    that defines the request (common messages, AC or DC). *)
Theorem init_failed_responses_iso_v20_answers :
  exists d,
    FailedResponses.init_failed_responses_iso_v20 = inr d
    /\ size d = 14%nat
    /\ map_Forall
         (fun request entry =>
            FailedResponsesChecks.is_failed_triple_for request entry = true)
         d.
Proof. apply built_from_spec. vm_compute. reflexivity. Qed.

(** ** DIN SPEC 70121: data types and timeouts *)

(** Membership in a list given by its elements, one element at a time. *)
Ltac each_element H :=
  repeat (apply elem_of_cons in H as [H | H]; [injection H as -> -> |]);
  [.. | by apply elem_of_nil in H].

(** X23: in every enumeration of [din_spec/datatypes.py] the values are
    told apart, so no name is an alias: looking a member up by its name
    gives the member of that name with the value it is defined with, and
    looking it up by that value gives the same member back. *)
Theorem datatypes_enums_round_trip :
  Forall (fun E =>
            forall n v, (n, v) ∈ E.2 ->
              Enum.by_name Z.eqb E.2 n = Some (n, v)
              /\ Enum.by_value Z.eqb E.2 v = Some (n, v))
    DinSpec.int_enums
  /\ Forall (fun E =>
               forall n v, (n, v) ∈ E.2 ->
                 Enum.by_name String.eqb E.2 n = Some (n, v)
                 /\ Enum.by_value String.eqb E.2 v = Some (n, v))
       DinSpec.str_enums.
Proof.
  unfold DinSpec.int_enums, DinSpec.str_enums.
  split; repeat (apply Forall_cons; split); try done.
  all: intros n v Hin; cbn [snd] in Hin.
  all: match type of Hin with _ ∈ ?E => unfold E in Hin end.
  all: each_element Hin; by vm_compute.
Qed.

(** X24: in [Timeouts] of [din_spec/timeouts.py] the 36 names stand for 14
    members only, because a name defined with the value of an earlier
    member is an alias of it.  Every name still gives a member with the
    value the name is defined with, but under the name of the first
    definition with that value: SESSION_SETUP_REQ is the member
    SUPPORTED_APP_PROTOCOL_REQ, and every response timeout of 1.5 s is the
    member V2G_SECC_CPState_Detection_Timeout. *)
Theorem Timeouts_aliases :
  List.length DinSpec.Timeouts.definitions = 36%nat
  /\ Enum.name <$> DinSpec.Timeouts.members
     = ["V2G_SECC_READYTOCHARGE_PERFORMANCE_TIME";
        "V2G_EVCC_READYTOCHARGE_TIMEOUT";
        "V2G_SECC_COMMUNICATIONSETUP_PERFORMANCE_TIME";
        "V2G_EVCC_COMMUNICATIONSETUP_TIMEOUT";
        "V2G_SECC_CABLE_CHECK_PERFORMANCE_TIME";
        "V2G_EVCC_CABLE_CHECK_TIMEOUT";
        "V2G_SECC_PRE_CHARGE_PERFORMANCE_TIME";
        "V2G_EVCC_PRE_CHARGE_TIMEOUT";
        "V2G_SECC_CPState_Detection_Timeout";
        "SUPPORTED_APP_PROTOCOL_REQ";
        "CURRENT_DEMAND_REQ";
        "CURRENT_DEMAND_RES";
        "V2G_SECC_SEQUENCE_TIMEOUT";
        "V2G_EVCC_SEQUENCE_PERFORMANCE_TIME"]
  /\ Forall (fun d =>
               exists m,
                 DinSpec.Timeouts.by_name d.1 = Some m
                 /\ m ∈ DinSpec.Timeouts.members
                 /\ DinSpec.Timeouts.by_value d.2 = Some m
                 /\ DinSpec.Timeouts.float_eqb (Enum.value m) d.2 = true)
       DinSpec.Timeouts.definitions
  /\ Enum.name <$> DinSpec.Timeouts.by_name "SESSION_SETUP_REQ"
     = Some "SUPPORTED_APP_PROTOCOL_REQ"
  /\ Forall (fun d =>
               DinSpec.Timeouts.float_eqb d.2 (DinSpec.Timeouts.decimal 15 1)
               = true ->
               Enum.name <$> DinSpec.Timeouts.by_name d.1
               = Some "V2G_SECC_CPState_Detection_Timeout")
       DinSpec.Timeouts.definitions.
Proof.
  split; [reflexivity |]. split; [reflexivity |].
  split; [| split; [reflexivity |]].
  - unfold DinSpec.Timeouts.definitions.
    repeat (apply Forall_cons; split;
            [eexists; split; [by vm_compute |];
             split; [| by vm_compute];
             vm_compute; repeat first [apply list_elem_of_here
                                      | apply list_elem_of_further] |]).
    by apply Forall_nil.
  - unfold DinSpec.Timeouts.definitions.
    repeat (apply Forall_cons; split;
            [vm_compute; first [discriminate | reflexivity] |]).
    by apply Forall_nil.
Qed.

(** X25: every field of every model of [din_spec/datatypes.py] declares an
    alias, the name of its element in the schema, with one exception: the
    field bulk_charging_complete of DCEVPowerDeliveryParameter passes the
    name under the keyword [alis], which constrains nothing, so that the
    field goes by its own name where the others go by the name of their
    element. *)
Theorem datatypes_fields_have_alias :
  Forall (fun m =>
            Forall (fun f =>
                      is_Some (Pydantic.alias f)
                      \/ (m.(Pydantic.cls), f.(Pydantic.name))
                         = ("DCEVPowerDeliveryParameter", "bulk_charging_complete")
                         /\ Pydantic.keyword "alis" f
                            = Some (Pydantic.AStr "BulkChargingComplete")
                         /\ Pydantic.public_name f = "bulk_charging_complete")
              m.(Pydantic.fields))
    DinSpec.models.
Proof.
  unfold DinSpec.models.
  repeat (apply Forall_cons; split;
          [cbn [Pydantic.fields];
           repeat (apply Forall_cons; split;
                   [first [left; by eexists | right; by repeat split] |]);
           by apply Forall_nil |]).
  by apply Forall_nil.
Qed.

(** A string is determined by what it is followed by. *)
Lemma string_app_inj_r (s1 s2 t : string) :
  s1 ++ t = s2 ++ t -> s1 = s2.
Proof.
  intros Heq.
  assert (forall s, String.length (s ++ t) = (String.length s + String.length t)%nat)
    as Happ by (intros s; induction s as [| c s IH]; simpl; [done | by rewrite IH]).
  assert (String.length s1 = String.length s2) as Hlen.
  { apply (f_equal String.length) in Heq. rewrite !Happ in Heq. lia. }
  clear Happ.
  revert s2 Heq Hlen. induction s1 as [| c s1 IH]; intros [| c' s2]; cbn;
    try done.
  intros [= -> Heq] [= Hlen]. f_equal. by apply IH.
Qed.

(** X26: [Notification.__str__] can be read back: two notifications with
    the same text have the same fault code, and the same fault message up
    to an absent message and an empty one, which are printed alike. *)
Theorem Notification_str_inj (code1 code2 : Enum.member string)
    (msg1 msg2 : option string) :
  let text (msg : option string) := default "" msg in
  code1 ∈ DinSpec.FaultCode -> code2 ∈ DinSpec.FaultCode ->
  DinSpec.Notification_str code1 msg1 = DinSpec.Notification_str code2 msg2 ->
  code1 = code2 /\ text msg1 = text msg2.
Proof.
  intros text Hcode1 Hcode2.
  assert (forall code msg,
            DinSpec.Notification_str code msg
            = Enum.value code
              ++ (if text msg == "" then "" else " (" ++ text msg ++ ")"))
    as Hstr by (by intros code [msg |]).
  rewrite !Hstr. clear Hstr. generalize (text msg1) (text msg2).
  clear text msg1 msg2. intros text1 text2.
  unfold DinSpec.FaultCode in Hcode1, Hcode2.
  repeat (apply elem_of_cons in Hcode1 as [-> | Hcode1]);
    [.. | by apply elem_of_nil in Hcode1].
  all: repeat (apply elem_of_cons in Hcode2 as [-> | Hcode2]);
    [.. | by apply elem_of_nil in Hcode2].
  all: try (by intros [=]).
  all: intros Heq%(String.app_inj _); split; [done |].
  all: repeat case_bool_decide; try congruence; try discriminate Heq.
  all: injection Heq as Heq%(String.app_inj ""); by apply string_app_inj_r in Heq.
Qed.

(** [Notification_str_inj] for a parsing error printed with and without an
    empty message. *)
Lemma Notification_str_inj_witness :
  DinSpec.Notification_str ("PARSING_ERROR", "ParsingError") (Some "")
  = "ParsingError"
  /\ (("PARSING_ERROR", "ParsingError") = ("PARSING_ERROR", "ParsingError")
      /\ default "" (Some "") = default "" (@None string)).
Proof.
  split; [reflexivity |].
  apply (Notification_str_inj ("PARSING_ERROR", "ParsingError")
           ("PARSING_ERROR", "ParsingError") (Some "") None).
  - apply list_elem_of_here.
  - apply list_elem_of_here.
  - reflexivity.
Defined.

(** ** The DIN SPEC 70121 registry against [din_spec/datatypes.py] *)

(** X27: the DIN SPEC 70121 registry uses the declarations of
    [din_spec/datatypes.py] as they are made: every model of that module it
    builds (AuthOptionList, ChargeService, ServiceDetails) is given declared
    fields only and all the required ones, with integers and lists within
    the declared limits, and every member it takes from an enumeration of
    that module (of ResponseCode, ServiceID, ServiceCategory,
    EVSENotification, DCEVSEStatusCode) is defined there. *)
Theorem din_spec_registry_conforms_to_datatypes :
  exists d,
    FailedResponses.init_failed_responses_din_spec_70121 = inr d
    /\ map_Forall
         (fun _ response => RegistryAgainstDinSpec.conforms response = true) d
    /\ Forall
         (fun c =>
            exists request response,
              d !! request = Some response
              /\ c ∈ RegistryAgainstDinSpec.mentions response)
         ["AuthOptionList"; "ChargeService"; "ServiceDetails"; "ResponseCode";
          "ServiceID"; "ServiceCategory"; "EVSENotification";
          "DCEVSEStatusCode"].
Proof.
  assert (FailedResponsesChecks.built_from
            (fun _ v => RegistryAgainstDinSpec.conforms v) 11
            FailedResponses.init_failed_responses_din_spec_70121 = true)
    as Hbuilt by (vm_compute; reflexivity).
  apply built_from_spec in Hbuilt as (d & Hd & _ & Hall).
  exists d. split; [exact Hd |]. split; [exact Hall |].
  assert (forall c,
            existsb (fun kv => c in? RegistryAgainstDinSpec.mentions kv.2)
              (map_to_list d) = true ->
            exists request response,
              d !! request = Some response
              /\ c ∈ RegistryAgainstDinSpec.mentions response) as Hmentions.
  { intros c ([request response] & Hin & Hc)%existsb_exists.
    exists request, response. split.
    - by apply elem_of_map_to_list, list_elem_of_In.
    - by apply bool_decide_eq_true in Hc. }
  assert (inr d = FailedResponses.init_failed_responses_din_spec_70121
          -> forallb
               (fun c =>
                  existsb (fun kv => c in? RegistryAgainstDinSpec.mentions kv.2)
                    (map_to_list d))
               ["AuthOptionList"; "ChargeService"; "ServiceDetails";
                "ResponseCode"; "ServiceID"; "ServiceCategory";
                "EVSENotification"; "DCEVSEStatusCode"] = true) as Hused.
  { clear. intros Hd.
    assert (match FailedResponses.init_failed_responses_din_spec_70121 with
            | inr d =>
                forallb
                  (fun c =>
                     existsb
                       (fun kv => c in? RegistryAgainstDinSpec.mentions kv.2)
                       (map_to_list d))
                  ["AuthOptionList"; "ChargeService"; "ServiceDetails";
                   "ResponseCode"; "ServiceID"; "ServiceCategory";
                   "EVSENotification"; "DCEVSEStatusCode"]
            | inl _ => false
            end = true) as H by (vm_compute; reflexivity).
    by rewrite <- Hd in H. }
  specialize (Hused (eq_sym Hd)).
  rewrite forallb_forall in Hused.
  apply Forall_forall. intros c Hc. apply Hmentions, Hused.
  by apply list_elem_of_In.
Qed.
